(** * LaxCounter: the motion-event inference cores

    A shallow embedding of the trackers of the repository:

    - [BallDetector] (ball-detector.js): the velocity-reversal hit detector;
    - [RepCounter1]: the first revision of the pose-based rep counter;
    - [RepCounter2]: the richer revision (session control, depth check,
      timeout, rate and consistency statistics).  Its script has an early
      error and the engine never evaluates it, so it is embedded as what
      runs: the declarations of the script, the check that rejects it,
      and a page without code.

    Numbers.  JavaScript numbers are modelled as real numbers ([R]): the
    arithmetic of the trackers is read as exact arithmetic, and rounding
    of IEEE doubles is not part of the model.  Clock readings
    ([Date.now()], integral milliseconds) and the values derived from them
    by subtraction are integers ([Z]); counters are integers as well.

    Clock.  Every call of [Date.now()] in the source is an argument of the
    embedded function, so that two readings taken within one call may
    differ.

    Faults.  Reading a property of [undefined] raises a TypeError in
    JavaScript; the functions that index an array return [option], [None]
    standing for the fault. *)

From Stdlib Require Import Reals Lra Lia ZArith List Bool Sorted.
From Stdlib Require String.
Import ListNotations.
Import String.StringSyntax.

Delimit Scope string_scope with string.

Open Scope R_scope.

(** ** The JavaScript built-ins the trackers call *)

Module JS.

(** [a > b], [a < b] and [a === b] on numbers. *)
Definition gt (a b : R) : bool := if Rlt_dec b a then true else false.
Definition lt (a b : R) : bool := if Rlt_dec a b then true else false.
Definition seq (a b : R) : bool := if Req_dec_T a b then true else false.

(** [Math.atan2(y, x)]: the angle of the point [(x, y)], in [(-PI, PI]]. *)
Definition Math_atan2 (y x : R) : R :=
  if Rlt_dec 0 x then atan (y / x)
  else if Rlt_dec x 0 then
    (if Rle_dec 0 y then atan (y / x) + PI else atan (y / x) - PI)
  else if Rlt_dec 0 y then PI / 2
  else if Rlt_dec y 0 then - (PI / 2)
  else 0.

Definition Math_abs (a : R) : R := Rabs a.
Definition Math_sqrt (a : R) : R := sqrt a.
Definition Math_pow (a : R) (n : nat) : R := a ^ n.

(** [arr[i]] for an index computed as a number. *)
Definition index {A : Type} (arr : list A) (i : Z) : option A :=
  if (i <? 0)%Z then None else nth_error arr (Z.to_nat i).

(** [arr.push(v)] and [arr.shift()]. *)
Definition push {A : Type} (arr : list A) (v : A) : list A := arr ++ [v].
Definition shift {A : Type} (arr : list A) : list A := tl arr.

(** [arr.length] as a number. *)
Definition len {A : Type} (arr : list A) : Z := Z.of_nat (length arr).

End JS.

(** ** The sample window of the specification *)

Module Window.

(** The [n] most recent entries of a history, oldest first: what a
    first-in first-out window of capacity [n] holds. *)
Definition lastN {A : Type} (n : nat) (history : list A) : list A :=
  skipn (length history - n) history.

(** Timestamps that increase strictly from each entry to every later
    one. *)
Definition strictlyIncreasing (times : list Z) : Prop :=
  StronglySorted Z.lt times.

End Window.

(** ** ball-detector.js *)

Module BallDetector.
Import JS.

(** What the detectors ([detectBallWithAI], [detectBallByColor]) hand
    over: a position and, possibly, a confidence. *)
Record Position : Type := mkPosition {
  pos_x : R;
  pos_y : R;
  pos_confidence : option R
}.

(** An entry of [ballPositions]. *)
Record Sample : Type := mkSample {
  x : R;
  y : R;
  time : Z;
  confidence : R
}.

(** The object [calculateVelocity] returns: [{ x, y, magnitude }]. *)
Record Velocity : Type := mkVelocity {
  vx : R;
  vy : R;
  magnitude : R
}.

(** The fields of a [BallDetector] instance that tracking reads or
    writes; [hitCounterText] is [hitCounter.textContent]. *)
Record t : Type := mkBallDetector {
  isDetecting : bool;
  hitCount : Z;
  hitCounterText : Z;
  ballPositions : list Sample;
  lastBallPosition : option Position;
  velocityHistory : list Velocity;
  sensitivity : R;
  ballSize : R;
  maxPositionHistory : Z;
  velocityThreshold : R;
  directionChangeThreshold : R;
  minTimeBetweenHits : Z;
  lastHitTime : Z
}.

(** Modelled from the spec: the text of the [hitCounter] element before
    the first hit is in the HTML page, which is not among the sources; the
    counter starts at 0. *)
Definition initialHitCounterText : Z := 0.

(** The state the constructor leaves. *)
Definition constructor : t :=
  {| isDetecting := false;
     hitCount := 0;
     hitCounterText := initialHitCounterText;
     ballPositions := [];
     lastBallPosition := None;
     velocityHistory := [];
     sensitivity := 1;
     ballSize := 30;
     maxPositionHistory := 10;
     velocityThreshold := 50;
     directionChangeThreshold := 120;
     minTimeBetweenHits := 1000;
     lastHitTime := 0 |}.

Definition set_ballPositions (d : t) (l : list Sample) : t :=
  {| isDetecting := isDetecting d; hitCount := hitCount d;
     hitCounterText := hitCounterText d; ballPositions := l;
     lastBallPosition := lastBallPosition d;
     velocityHistory := velocityHistory d; sensitivity := sensitivity d;
     ballSize := ballSize d; maxPositionHistory := maxPositionHistory d;
     velocityThreshold := velocityThreshold d;
     directionChangeThreshold := directionChangeThreshold d;
     minTimeBetweenHits := minTimeBetweenHits d;
     lastHitTime := lastHitTime d |}.

Definition set_velocityHistory (d : t) (l : list Velocity) : t :=
  {| isDetecting := isDetecting d; hitCount := hitCount d;
     hitCounterText := hitCounterText d; ballPositions := ballPositions d;
     lastBallPosition := lastBallPosition d;
     velocityHistory := l; sensitivity := sensitivity d;
     ballSize := ballSize d; maxPositionHistory := maxPositionHistory d;
     velocityThreshold := velocityThreshold d;
     directionChangeThreshold := directionChangeThreshold d;
     minTimeBetweenHits := minTimeBetweenHits d;
     lastHitTime := lastHitTime d |}.

Definition set_lastBallPosition (d : t) (p : option Position) : t :=
  {| isDetecting := isDetecting d; hitCount := hitCount d;
     hitCounterText := hitCounterText d; ballPositions := ballPositions d;
     lastBallPosition := p;
     velocityHistory := velocityHistory d; sensitivity := sensitivity d;
     ballSize := ballSize d; maxPositionHistory := maxPositionHistory d;
     velocityThreshold := velocityThreshold d;
     directionChangeThreshold := directionChangeThreshold d;
     minTimeBetweenHits := minTimeBetweenHits d;
     lastHitTime := lastHitTime d |}.

Definition set_lastHitTime (d : t) (now : Z) : t :=
  {| isDetecting := isDetecting d; hitCount := hitCount d;
     hitCounterText := hitCounterText d; ballPositions := ballPositions d;
     lastBallPosition := lastBallPosition d;
     velocityHistory := velocityHistory d; sensitivity := sensitivity d;
     ballSize := ballSize d; maxPositionHistory := maxPositionHistory d;
     velocityThreshold := velocityThreshold d;
     directionChangeThreshold := directionChangeThreshold d;
     minTimeBetweenHits := minTimeBetweenHits d;
     lastHitTime := now |}.

Definition set_isDetecting (d : t) (b : bool) : t :=
  {| isDetecting := b; hitCount := hitCount d;
     hitCounterText := hitCounterText d; ballPositions := ballPositions d;
     lastBallPosition := lastBallPosition d;
     velocityHistory := velocityHistory d; sensitivity := sensitivity d;
     ballSize := ballSize d; maxPositionHistory := maxPositionHistory d;
     velocityThreshold := velocityThreshold d;
     directionChangeThreshold := directionChangeThreshold d;
     minTimeBetweenHits := minTimeBetweenHits d;
     lastHitTime := lastHitTime d |}.

(** The [input] listener of the sensitivity slider. *)
Definition set_sensitivity (d : t) (v : R) : t :=
  {| isDetecting := isDetecting d; hitCount := hitCount d;
     hitCounterText := hitCounterText d; ballPositions := ballPositions d;
     lastBallPosition := lastBallPosition d;
     velocityHistory := velocityHistory d; sensitivity := v;
     ballSize := ballSize d; maxPositionHistory := maxPositionHistory d;
     velocityThreshold := velocityThreshold d;
     directionChangeThreshold := directionChangeThreshold d;
     minTimeBetweenHits := minTimeBetweenHits d;
     lastHitTime := lastHitTime d |}.

(** [calculateVelocity(pos1, pos2)], in pixels per second. *)
Definition calculateVelocity (pos1 pos2 : Sample) : Velocity :=
  let dx := x pos2 - x pos1 in
  let dy := y pos2 - y pos1 in
  let dt := (time pos2 - time pos1)%Z in
  if (dt =? 0)%Z then {| vx := 0; vy := 0; magnitude := 0 |}
  else
    let vx := dx / IZR dt * 1000 in
    let vy := dy / IZR dt * 1000 in
    let magnitude := Math_sqrt (vx * vx + vy * vy) in
    {| vx := vx; vy := vy; magnitude := magnitude |}.

(** [calculateDirectionChange(velocity1, velocity2)], in degrees. *)
Definition calculateDirectionChange (velocity1 velocity2 : Velocity) : R :=
  if seq (magnitude velocity1) 0 || seq (magnitude velocity2) 0 then 0
  else
    let angle1 := Math_atan2 (vy velocity1) (vx velocity1) in
    let angle2 := Math_atan2 (vy velocity2) (vx velocity2) in
    let angleDiff := Math_abs (angle2 - angle1) * 180 / PI in
    if gt angleDiff 180 then 360 - angleDiff else angleDiff.

(** [registerHit()]: the counter and its text; the animation, the beep
    and the console line are feedback only. *)
Definition registerHit (d : t) : t :=
  {| isDetecting := isDetecting d; hitCount := hitCount d + 1;
     hitCounterText := hitCount d + 1; ballPositions := ballPositions d;
     lastBallPosition := lastBallPosition d;
     velocityHistory := velocityHistory d; sensitivity := sensitivity d;
     ballSize := ballSize d; maxPositionHistory := maxPositionHistory d;
     velocityThreshold := velocityThreshold d;
     directionChangeThreshold := directionChangeThreshold d;
     minTimeBetweenHits := minTimeBetweenHits d;
     lastHitTime := lastHitTime d |}.

(** The three booleans of the hit test, from the two velocities. *)
Definition isSignificantDirectionChange (d : t) (velocity1 velocity2 : Velocity) : bool :=
  gt (calculateDirectionChange velocity1 velocity2) (directionChangeThreshold d).

Definition isSignificantSpeedChange (d : t) (velocity1 velocity2 : Velocity) : bool :=
  gt (Math_abs (magnitude velocity2 - magnitude velocity1))
     (velocityThreshold d * sensitivity d).

Definition isMinTimeElapsed (d : t) (currentTime : Z) : bool :=
  (minTimeBetweenHits d <? currentTime - lastHitTime d)%Z.

(** [calculateVelocityAndDetectHit()]; [currentTime] is its reading of
    the clock.  [None] is the TypeError of reading [.x] of [undefined]
    when the window holds fewer than three samples. *)
Definition calculateVelocityAndDetectHit (d : t) (currentTime : Z) : option t :=
  let positions := ballPositions d in
  match index positions (len positions - 1),
        index positions (len positions - 2),
        index positions (len positions - 3) with
  | Some current, Some previous, Some beforePrevious =>
      let velocity1 := calculateVelocity beforePrevious previous in
      let velocity2 := calculateVelocity previous current in
      let d1 := set_velocityHistory d (push (velocityHistory d) velocity2) in
      let d2 := if (5 <? len (velocityHistory d1))%Z
                then set_velocityHistory d1 (shift (velocityHistory d1))
                else d1 in
      if (isSignificantDirectionChange d2 velocity1 velocity2
          || isSignificantSpeedChange d2 velocity1 velocity2)
         && isMinTimeElapsed d2 currentTime
      then Some (set_lastHitTime (registerHit d2) currentTime)
      else Some d2
  | _, _, _ => None
  end.

(** The entry [updateBallTracking] appends to [ballPositions];
    [position.confidence || 1] replaces a missing or zero confidence. *)
Definition newSample (position : Position) (currentTime : Z) : Sample :=
  {| x := pos_x position;
     y := pos_y position;
     time := currentTime;
     confidence := match pos_confidence position with
                   | Some c => if seq c 0 then 1 else c
                   | None => 1
                   end |}.

(** The position window after the push and the eviction. *)
Definition pushPosition (d : t) (s : Sample) : t :=
  let d1 := set_ballPositions d (push (ballPositions d) s) in
  if (maxPositionHistory d1 <? len (ballPositions d1))%Z
  then set_ballPositions d1 (shift (ballPositions d1))
  else d1.

(** [updateBallTracking(position)]; [currentTime] is its own reading of
    the clock, [hitTime] the one [calculateVelocityAndDetectHit] takes. *)
Definition updateBallTracking (d : t) (position : Position)
           (currentTime hitTime : Z) : option t :=
  let d1 := pushPosition d (newSample position currentTime) in
  match
    (if (3 <=? len (ballPositions d1))%Z
     then calculateVelocityAndDetectHit d1 hitTime
     else Some d1)
  with
  | Some d2 => Some (set_lastBallPosition d2 (Some position))
  | None => None
  end.

(** One frame of [detectBall] once a detector has answered:
    [ballPosition] is [null] when no ball was found. *)
Definition detectBall (d : t) (ballPosition : option Position)
           (currentTime hitTime : Z) : option t :=
  match ballPosition with
  | Some p => updateBallTracking d p currentTime hitTime
  | None => Some d
  end.

(** [resetCounter()]. *)
Definition resetCounter (d : t) : t :=
  {| isDetecting := isDetecting d; hitCount := 0;
     hitCounterText := 0; ballPositions := [];
     lastBallPosition := lastBallPosition d;
     velocityHistory := []; sensitivity := sensitivity d;
     ballSize := ballSize d; maxPositionHistory := maxPositionHistory d;
     velocityThreshold := velocityThreshold d;
     directionChangeThreshold := directionChangeThreshold d;
     minTimeBetweenHits := minTimeBetweenHits d;
     lastHitTime := 0 |}.

(** [toggleDetection()]. *)
Definition toggleDetection (d : t) : t :=
  set_isDetecting d (negb (isDetecting d)).

(** The tracker after a sequence of frames in which a ball was found,
    each with its position and its two readings of the clock. *)
Fixpoint run (d : t) (frames : list (Position * Z * Z)) : option t :=
  match frames with
  | [] => Some d
  | (position, currentTime, hitTime) :: rest =>
      match updateBallTracking d position currentTime hitTime with
      | Some d1 => run d1 rest
      | None => None
      end
  end.

(** The test of the [if] in [calculateVelocityAndDetectHit], as a
    boolean of the tracker and the last three samples. *)
Definition hitTest (d : t) (a b c : Sample) (now : Z) : bool :=
  (isSignificantDirectionChange d (calculateVelocity a b) (calculateVelocity b c)
   || isSignificantSpeedChange d (calculateVelocity a b) (calculateVelocity b c))
  && isMinTimeElapsed d now.

(** The velocity history after the push and the eviction of
    [calculateVelocityAndDetectHit]. *)
Definition pushVelocity (history : list Velocity) (v : Velocity) : list Velocity :=
  if (5 <? len (push history v))%Z then shift (push history v) else push history v.

(** The firing condition in the words of the specification, for the
    last three samples of the window and the time [now] of the test. *)
Definition hitCondition (d : t) (beforePrevious previous current : Sample)
           (now : Z) : Prop :=
  let v_prev := calculateVelocity beforePrevious previous in
  let v_curr := calculateVelocity previous current in
  let directionChange := calculateDirectionChange v_prev v_curr in
  let speedChange := Rabs (magnitude v_curr - magnitude v_prev) in
  (directionChange > directionChangeThreshold d
   \/ speedChange > velocityThreshold d * sensitivity d)
  /\ (now - lastHitTime d > minTimeBetweenHits d)%Z.

(** The configuration of a tracker: what hit detection reads besides
    the window and [lastHitTime]. *)
Definition sameConfiguration (d1 d2 : t) : Prop :=
  sensitivity d1 = sensitivity d2
  /\ maxPositionHistory d1 = maxPositionHistory d2
  /\ velocityThreshold d1 = velocityThreshold d2
  /\ directionChangeThreshold d1 = directionChangeThreshold d2
  /\ minTimeBetweenHits d1 = minTimeBetweenHits d2.

(** The sample a frame appends to the window: the position found and
    the first reading of the clock. *)
Definition sampleOf (frame : Position * Z * Z) : Sample :=
  let '(position, currentTime, _) := frame in newSample position currentTime.

(** The timestamps of the window, oldest first. *)
Definition timestamps (d : t) : list Z := map time (ballPositions d).

(** The first reading of the clock in a frame. *)
Definition clockOf (frame : Position * Z * Z) : Z :=
  let '(_, currentTime, _) := frame in currentTime.

(** A ball found at height 0, without a confidence. *)
Definition ballAt (px : R) : Position :=
  {| pos_x := px; pos_y := 0; pos_confidence := None |}.

(** The tracker after the ball was seen at x = 100 and x = 200, at 2000
    ms and 2100 ms. *)
Definition afterTwoFrames : t :=
  {| isDetecting := false; hitCount := 0; hitCounterText := 0;
     ballPositions := [ mkSample 100 0 2000 1; mkSample 200 0 2100 1 ];
     lastBallPosition := Some (ballAt 200);
     velocityHistory := [];
     sensitivity := 1; ballSize := 30; maxPositionHistory := 10;
     velocityThreshold := 50; directionChangeThreshold := 120;
     minTimeBetweenHits := 1000; lastHitTime := 0 |}.

(** Two trackers that agree on everything hit detection reads: the
    position window, [lastHitTime] and the configuration.  Nothing is
    asked of [velocityHistory]. *)
Definition sameDecisionInputs (d1 d2 : t) : Prop :=
  ballPositions d1 = ballPositions d2
  /\ lastHitTime d1 = lastHitTime d2
  /\ sameConfiguration d1 d2.

End BallDetector.

(** ** Scripts and their early errors

    Each rep counter is a script of its own.  Before it evaluates a
    script the engine checks it for early errors, among them a name that
    [let] or [const] declares twice in one scope, and rejects the script
    whole when it finds one: none of its statements is evaluated.

    A script is given here by its statements as far as they declare
    names or open a scope, every statement with its line in the source
    file.  Initializers and other expressions are left out; the function
    expressions inside them declare no name. *)

Module Script.

#[local] Unset Elimination Schemes.

Inductive Stmt : Type :=
| Const (line : nat) (name : String.string)
    (* const name = ...; *)
| Let (line : nat) (name : String.string)
    (* let name = ...; *)
| Function (line : nat) (name : String.string) (params : list String.string)
           (body : list Stmt)
    (* function name(params) { body } *)
| Handler (line : nat) (target : String.string) (body : list Stmt)
    (* target = () => { body }; *)
| If (line : nat) (body : list Stmt)
    (* if (...) { body }, or if (...) statement; *)
| Switch (line : nat) (clauses : list Stmt)
    (* switch (...) { case ...: ... }: the statements of all clauses *)
| Other (line : nat).
    (* any other statement *)

#[local] Set Elimination Schemes.

(** A declared name and the line that declares it. *)
Definition Declaration : Type := String.string * nat.

(** The names that the statements of one scope declare lexically: by
    [let] and [const], and inside a block by [function] as well. *)
Definition lexicallyDeclared (inBlock : bool) (body : list Stmt) : list Declaration :=
  flat_map (fun s => match s with
                     | Const line name => [(name, line)]
                     | Let line name => [(name, line)]
                     | Function line name _ _ =>
                         if inBlock then [(name, line)] else []
                     | _ => []
                     end) body.

(** The names declared as by [var]: the functions declared at the top
    level of a script or of a function body.  Neither script has a [var]
    statement. *)
Definition varDeclared (body : list Stmt) : list Declaration :=
  flat_map (fun s => match s with
                     | Function line name _ _ => [(name, line)]
                     | _ => []
                     end) body.

(** The declarations among [declared] of a name that [seen] or an
    earlier declaration of [declared] has already: the name, the line of
    its first declaration and the line of the second. *)
Fixpoint clashes (seen declared : list Declaration)
  : list (String.string * nat * nat) :=
  match declared with
  | [] => []
  | (name, line) :: rest =>
      match find (fun d => String.eqb (fst d) name) seen with
      | Some (_, first) => (name, first, line) :: clashes seen rest
      | None => clashes (seen ++ [(name, line)]) rest
      end
  end.

(** The early errors inside a statement.  A function body is a scope in
    which a lexical declaration must not repeat a parameter, a function
    of the body, or another lexical declaration; a block and the clauses
    of a [switch] are scopes in which the lexical declarations must be
    distinct. *)
Fixpoint earlyErrorsIn (s : Stmt) : list (String.string * nat * nat) :=
  match s with
  | Function line _ params body =>
      clashes (map (fun p => (p, line)) params ++ varDeclared body)
              (lexicallyDeclared false body)
      ++ flat_map earlyErrorsIn body
  | Handler _ _ body =>
      clashes (varDeclared body) (lexicallyDeclared false body)
      ++ flat_map earlyErrorsIn body
  | If _ body =>
      clashes [] (lexicallyDeclared true body) ++ flat_map earlyErrorsIn body
  | Switch _ clauses =>
      clashes [] (lexicallyDeclared true clauses)
      ++ flat_map earlyErrorsIn clauses
  | _ => []
  end.

(** The early errors of a script: those of its top level, where a
    lexical declaration must not repeat a function or another lexical
    declaration, and those inside its statements. *)
Definition earlyErrors (script : list Stmt) : list (String.string * nat * nat) :=
  clashes (varDeclared script) (lexicallyDeclared false script)
  ++ flat_map earlyErrorsIn script.

(** The engine evaluates a script only when it has no early error. *)
Definition accepted (script : list Stmt) : bool :=
  match earlyErrors script with
  | [] => true
  | _ :: _ => false
  end.

End Script.

(** ** The pose-based rep counters

    Both revisions read three landmarks of the pose (right shoulder 12,
    right elbow 14, right wrist 16) and run the machine
    [READY -> THROWING -> CATCHING -> READY]. *)

Module Pose.
Import JS.

(** A landmark of the pose model, in normalized frame units. *)
Record Landmark : Type := mkLandmark {
  x : R;
  y : R;
  z : R
}.

(** The argument of [onResults]; [poseLandmarks] is absent when no
    person is found in the frame. *)
Record Results : Type := mkResults {
  poseLandmarks : option (list Landmark)
}.

Inductive State : Type := READY | THROWING | CATCHING.

(** [calculateAngle(a, b, c)]: the angle at [b], in degrees.  The two
    revisions define it with the same text. *)
Definition calculateAngle (a b c : Landmark) : R :=
  let radians := Math_atan2 (y c - y b) (x c - x b)
                 - Math_atan2 (y a - y b) (x a - x b) in
  let angle := Math_abs (radians * 180 / PI) in
  if gt angle 180 then 360 - angle else angle.

(** [Math.sqrt(Math.pow(wrist.x - shoulder.x, 2) + Math.pow(wrist.y - shoulder.y, 2))]. *)
Definition distanceToShoulder (wrist shoulder : Landmark) : R :=
  Math_sqrt (Math_pow (x wrist - x shoulder) 2 + Math_pow (y wrist - y shoulder) 2).

(** The three landmarks the rep logic reads, when the frame has a pose
    and all three are there. *)
Definition tracked (results : Results) : option (Landmark * Landmark * Landmark) :=
  match poseLandmarks results with
  | None => None
  | Some landmarks =>
      match nth_error landmarks 12, nth_error landmarks 14, nth_error landmarks 16 with
      | Some shoulder, Some elbow, Some wrist => Some (shoulder, elbow, wrist)
      | _, _, _ => None
      end
  end.

(** A pose with the given right shoulder, elbow and wrist, every other
    landmark at the origin. *)
Definition origin : Landmark := {| x := 0; y := 0; z := 0 |}.

Definition poseOf (shoulder elbow wrist : Landmark) : Results :=
  {| poseLandmarks :=
       Some (repeat origin 12 ++ [shoulder; origin; elbow; origin; wrist]) |}.

End Pose.

(** *** First revision *)

Module RepCounter1.
Import JS Pose.

Record t : Type := mkRepCounter {
  repCount : Z;
  repCounterText : Z;
  state : State;
  lastHandPos : option (R * R)
}.

(** Modelled from the spec: the text of the [rep-counter] element before
    the first rep is in the HTML page, which is not among the sources; the
    counter starts at 0. *)
Definition initialRepCounterText : Z := 0.

(** The top-level declarations. *)
Definition init : t :=
  {| repCount := 0; repCounterText := initialRepCounterText;
     state := READY; lastHandPos := None |}.

Definition throwThreshold : R := 3 / 100.

(** The wrist velocity [onResults] computes: the displacement since the
    previous detected sample, zero when there is none. *)
Definition wristVelocity (s : t) (wrist : Landmark) : R * R :=
  match lastHandPos s with
  | Some last => (x wrist - fst last, y wrist - snd last)
  | None => (0, 0)
  end.

(** The [switch (state)] of [onResults]. *)
Definition transition (s : t) (velocity : R * R) (elbowAngle : R)
           (shoulder wrist : Landmark) : t :=
  match state s with
  | READY =>
      if gt (fst velocity) throwThreshold && gt elbowAngle 100
      then {| repCount := repCount s; repCounterText := repCounterText s;
              state := THROWING; lastHandPos := lastHandPos s |}
      else s
  | THROWING =>
      if lt (fst velocity) (- throwThreshold)
      then {| repCount := repCount s; repCounterText := repCounterText s;
              state := CATCHING; lastHandPos := lastHandPos s |}
      else s
  | CATCHING =>
      if lt (distanceToShoulder wrist shoulder) (2 / 10)
      then {| repCount := repCount s + 1; repCounterText := repCount s + 1;
              state := READY; lastHandPos := lastHandPos s |}
      else s
  end.

(** [onResults(results)], the drawing left out. *)
Definition onResults (s : t) (results : Results) : t :=
  match poseLandmarks results with
  | None => s
  | Some landmarks =>
      match nth_error landmarks 12, nth_error landmarks 14, nth_error landmarks 16 with
      | Some shoulder, Some elbow, Some wrist =>
          let elbowAngle := calculateAngle shoulder elbow wrist in
          let velocity := wristVelocity s wrist in
          let s1 := {| repCount := repCount s; repCounterText := repCounterText s;
                       state := state s;
                       lastHandPos := Some (x wrist, y wrist) |} in
          transition s1 velocity elbowAngle shoulder wrist
      | _, _, _ => s
      end
  end.

(** The tracker after a sequence of frames. *)
Definition run (s : t) (frames : list Results) : t :=
  fold_left onResults frames s.

(** The test of the [READY] case: the wrist moves forward, the arm is
    extended. *)
Definition throws (s : t) (shoulder elbow wrist : Landmark) : Prop :=
  fst (wristVelocity s wrist) > throwThreshold
  /\ calculateAngle shoulder elbow wrist > 100.

(** The test of the [THROWING] case: the wrist moves back. *)
Definition reverses (s : t) (wrist : Landmark) : Prop :=
  fst (wristVelocity s wrist) < - throwThreshold.

(** The test of the [CATCHING] case: the wrist is back at the shoulder. *)
Definition returned (results : Results) : Prop :=
  exists shoulder elbow wrist,
    tracked results = Some (shoulder, elbow, wrist)
    /\ distanceToShoulder wrist shoulder < 2 / 10.

(** The script of the first revision (lines 122 to 223 of the source
    file), by its declarations. *)
Definition script : list Script.Stmt :=
  [ Script.Const 122 "videoElement"; Script.Const 123 "canvasElement";
    Script.Const 124 "canvasCtx"; Script.Const 125 "repCounterElement";
    Script.Let 127 "repCount"; Script.Let 128 "state";
    Script.Let 129 "lastHandPos";
    Script.Function 131 "onResults" ["results"]
      [ Script.Other 132; Script.Other 133; Script.Other 134;
        Script.If 136
          [ Script.Other 138; Script.Other 139;
            Script.Const 142 "landmarks";
            Script.Const 144 "shoulder"; Script.Const 145 "elbow";
            Script.Const 146 "wrist";
            Script.If 148
              [ Script.Const 149 "elbowAngle";
                Script.Const 152 "wristPos"; Script.Let 153 "wristVelocity";
                Script.If 154 [ Script.Other 155; Script.Other 156 ];
                Script.Other 158;
                Script.Const 161 "throwThreshold";
                Script.Switch 163
                  [ Script.If 165 [ Script.Other 166 ]; Script.Other 168;
                    Script.If 170 [ Script.Other 171 ]; Script.Other 173;
                    Script.Const 176 "distanceToShoulder";
                    Script.If 177
                      [ Script.Other 178; Script.Other 179; Script.Other 180 ];
                    Script.Other 182 ] ] ];
        Script.Other 186 ];
    Script.Function 189 "calculateAngle" ["a"; "b"; "c"]
      [ Script.Const 191 "radians"; Script.Let 192 "angle";
        Script.If 194 [ Script.Other 195 ]; Script.Other 198 ];
    Script.Const 201 "pose"; Script.Other 207; Script.Other 214;
    Script.Const 216 "camera"; Script.Other 223 ]%string.

End RepCounter1.

(** *** Second revision

    The script of the second revision (lines 224 to 464 of the source
    file) declares [const elbow] and [const wrist] twice in the block
    guarded by [results.poseLandmarks]: at lines 265 and 266 for the
    stick-tip marker, and at lines 290 and 291 for the rep logic.  That is
    an early error, so the engine rejects the script: [onResults] is not
    registered with the pose tracker and no button gets its handler.  The
    revision is therefore given by the declarations of its script and by
    the page as it runs, not by the bodies of functions that are never
    evaluated. *)

Module RepCounter2.
Import Pose.

(** The script, by its declarations. *)
Definition script : list Script.Stmt :=
  [ Script.Const 224 "videoElement"; Script.Const 225 "canvasElement";
    Script.Const 226 "canvasCtx"; Script.Const 227 "repCounterElement";
    Script.Const 228 "progressBarElement"; Script.Const 229 "rpmElement";
    Script.Const 230 "startBtn"; Script.Const 231 "pauseBtn";
    Script.Const 232 "resetBtn"; Script.Const 233 "startOverlay";
    Script.Const 234 "consistencyElement";
    Script.Let 236 "repCount"; Script.Const 237 "repGoal";
    Script.Let 238 "state"; Script.Let 239 "lastWristPos";
    Script.Let 240 "stateChangeTime"; Script.Let 241 "sessionActive";
    Script.Let 242 "sessionStartTime"; Script.Let 243 "firstRepTime";
    Script.Let 244 "audioCtx"; Script.Let 245 "repTimes";
    Script.Let 246 "lastRepTime";
    Script.Const 248 "stateColors";
    Script.Function 254 "onResults" ["results"]
      [ Script.Other 255; Script.Other 256; Script.Other 257;
        Script.If 259
          [ Script.Other 261; Script.Other 262;
            Script.Const 265 "elbow"; Script.Const 266 "wrist";
            Script.If 267
              [ Script.Const 268 "vectorX"; Script.Const 269 "vectorY";
                Script.Const 270 "mag";
                Script.Const 271 "unitX"; Script.Const 272 "unitY";
                Script.Const 275 "stickLength";
                Script.Const 277 "stickTipX"; Script.Const 278 "stickTipY";
                Script.Other 280; Script.Other 281; Script.Other 282;
                Script.Other 283 ];
            Script.Const 287 "landmarks";
            Script.Const 289 "shoulder"; Script.Const 290 "elbow";
            Script.Const 291 "wrist";
            Script.If 294 [ Script.Other 294 ];
            Script.If 297 [ Script.Other 298 ];
            Script.If 301
              [ Script.Const 302 "elbowAngle";
                Script.Const 305 "wristPos"; Script.Let 306 "wristVelocity";
                Script.If 307
                  [ Script.Other 308; Script.Other 309; Script.Other 310 ];
                Script.Other 312;
                Script.Const 315 "throwVelocityThreshold";
                Script.Const 316 "minThrowAngle";
                Script.Const 317 "minCatchAngle";
                Script.Switch 319
                  [ Script.If 322 [ Script.Other 323; Script.Other 324 ];
                    Script.Other 326;
                    Script.If 329 [ Script.Other 330; Script.Other 331 ];
                    Script.Other 333;
                    Script.Const 336 "distanceToShoulder";
                    Script.If 337
                      [ Script.Const 338 "now";
                        Script.If 339
                          [ Script.Const 340 "repDuration"; Script.Other 341 ];
                        Script.Other 343;
                        Script.If 345 [ Script.Other 346 ];
                        Script.Other 348; Script.Other 349; Script.Other 350;
                        Script.Other 351; Script.Other 352; Script.Other 353;
                        Script.Other 354; Script.Other 355 ];
                    Script.Other 357 ] ] ];
        Script.Other 361 ];
    Script.Function 364 "calculateAngle" ["a"; "b"; "c"]
      [ Script.Const 366 "radians"; Script.Let 367 "angle";
        Script.If 369 [ Script.Other 370 ]; Script.Other 373 ];
    Script.Function 376 "updateProgressBar" []
      [ Script.Const 377 "progress"; Script.Other 378 ];
    Script.Function 381 "updateRPM" []
      [ Script.If 382 [ Script.Other 382 ];
        Script.Const 383 "elapsedTime"; Script.Const 384 "rpm";
        Script.Other 385 ];
    Script.Handler 388 "startBtn.onclick"
      [ Script.Other 389; Script.Other 390; Script.Other 391 ];
    Script.Handler 394 "pauseBtn.onclick"
      [ Script.Other 395; Script.Other 396 ];
    Script.Handler 399 "resetBtn.onclick"
      [ Script.Other 400; Script.Other 401; Script.Other 402;
        Script.Other 403; Script.Other 404; Script.Other 405;
        Script.Other 406; Script.Other 407; Script.Other 408;
        Script.Other 409; Script.Other 410 ];
    Script.Function 413 "updateConsistency" []
      [ Script.If 414 [ Script.Other 414 ];
        Script.Const 416 "mean"; Script.Const 417 "stdDev";
        Script.Const 422 "consistency"; Script.Other 423 ];
    Script.Function 426 "playSound" []
      [ Script.If 427 [ Script.Other 427 ];
        Script.Const 428 "oscillator";
        Script.Other 429; Script.Other 430; Script.Other 431;
        Script.Other 432; Script.Other 433 ];
    Script.Handler 436 "startOverlay.onclick"
      [ Script.Other 437; Script.Other 438 ];
    Script.Const 442 "pose"; Script.Other 448; Script.Other 455;
    Script.Const 457 "camera"; Script.Other 464 ]%string.

(** What the page shows in the four elements the script writes to:
    [repCounterElement.innerText], [progressBarElement.style.width],
    [rpmElement.innerText] and [consistencyElement.innerText]. *)
Record Display : Type := mkDisplay {
  repCounterText : String.string;
  progressBarWidth : String.string;
  rpmText : String.string;
  consistencyText : String.string
}.

(** What can happen to the page: the pose tracker delivers the results
    for a frame, or the user clicks Start, Pause, Reset or the start
    overlay; [now] is the reading of the clock at that moment, for the
    callback and the handler that would read it. *)
Inductive Event : Type :=
| Frame (results : Results) (now : Z)
| Start (now : Z)
| Pause
| Reset
| Overlay.

Section Page.

(** The variables of an evaluated script, their values after the top
    level has run, and what the callbacks and handlers the script
    installs do to the variables and to the page on an event. *)
Variable Env : Type.
Variable initial : Env.
Variable handle : Event -> Env * Display -> Env * Display.

(** The page: the variables of the script when the engine has evaluated
    it, and what the page shows. *)
Record Page : Type := mkPage {
  env : option Env;
  display : Display
}.

(** Loading the page, whose elements show what the HTML gives them: a
    script with an early error is not evaluated, and leaves the page
    without variables and without code for any event. *)
Definition load (html : Display) : Page :=
  if Script.accepted script
  then {| env := Some initial; display := html |}
  else {| env := None; display := html |}.

(** An event runs the code installed for it, if the script installed
    any. *)
Definition dispatch (p : Page) (e : Event) : Page :=
  match env p with
  | Some variables =>
      let (variables', shown) := handle e (variables, display p) in
      {| env := Some variables'; display := shown |}
  | None => p
  end.

Definition run (p : Page) (events : list Event) : Page :=
  fold_left dispatch events p.

End Page.

Arguments mkPage {Env} env display.
Arguments env {Env} p.
Arguments display {Env} p.
Arguments load {Env} initial html.
Arguments dispatch {Env} handle p e.
Arguments run {Env} handle p events.

End RepCounter2.

(** ** Concrete poses and trackers

    A right arm seen from the side, the shoulder at (0.3, 0.5): bent with
    the hand at the shoulder, stretched out forward, and half-way back. *)

Module Scenario.
Import Pose.

Definition shoulder : Landmark := {| x := 3 / 10; y := 5 / 10; z := 0 |}.
Definition elbow : Landmark := {| x := 4 / 10; y := 5 / 10; z := 0 |}.

Definition handAtShoulder : Landmark := {| x := 3 / 10; y := 5 / 10; z := 0 |}.
Definition handStretched : Landmark := {| x := 5 / 10; y := 5 / 10; z := - (1 / 10) |}.
Definition handHalfWay : Landmark := {| x := 45 / 100; y := 5 / 10; z := 0 |}.

Definition bent : Results := poseOf shoulder elbow handAtShoulder.
Definition stretched : Results := poseOf shoulder elbow handStretched.
Definition halfWay : Results := poseOf shoulder elbow handHalfWay.

(** The first revision in [CATCHING], the hand half-way back. *)
Definition catching1 : RepCounter1.t :=
  {| RepCounter1.repCount := 0; RepCounter1.repCounterText := 0;
     RepCounter1.state := CATCHING;
     RepCounter1.lastHandPos := Some (45 / 100, 5 / 10) |}.

(** The first revision in [THROWING], the hand stretched out. *)
Definition throwing1 : RepCounter1.t :=
  {| RepCounter1.repCount := 0; RepCounter1.repCounterText := 0;
     RepCounter1.state := THROWING;
     RepCounter1.lastHandPos := Some (5 / 10, 5 / 10) |}.

End Scenario.

(** ** ball-detector.js: finding the ball in a frame

    The remaining methods of the class: the two detectors, the choice
    between them in [detectBall], and the colour calibration.  The fields
    they read and write ([targetColor], [colorTolerance],
    [isCalibrating]) are kept in a record of their own. *)

Module BallDetection.
Import JS.

(** An entry of the array [model.detect] resolves to; [bbox] is
    [[x, y, width, height]]. *)
Record Prediction : Type := mkPrediction {
  class : String.string;
  score : R;
  bbox : R * R * R * R
}.

(** The predicate of the [filter] in [detectBallWithAI]. *)
Definition isBallPrediction (pred : Prediction) : bool :=
  String.eqb (class pred) "sports ball"%string
  || String.eqb (class pred) "orange"%string
  || String.eqb (class pred) "apple"%string
  || (String.eqb (class pred) "person"%string && lt (score pred) (3 / 10)).

(** [detectBallWithAI()], given what [model.detect] resolved to; [None]
    is a rejected promise, which the [catch] turns into [null]. *)
Definition detectBallWithAI (detected : option (list Prediction))
  : option BallDetector.Position :=
  match detected with
  | None => None
  | Some predictions =>
      let ballPredictions := filter isBallPrediction predictions in
      if (0 <? len ballPredictions)%Z then
        match index ballPredictions 0 with
        | Some ball =>
            let '(x, y, width, height) := bbox ball in
            Some {| BallDetector.pos_x := x + width / 2;
                    BallDetector.pos_y := y + height / 2;
                    BallDetector.pos_confidence := Some (score ball) |}
        | None => None
        end
      else None
  end.

(** A colour [{ r, g, b }]. *)
Record Color : Type := mkColor {
  r : R;
  g : R;
  b : R
}.

(** [calculateColorDistance(color1, color2)]. *)
Definition calculateColorDistance (color1 color2 : Color) : R :=
  let dr := r color1 - r color2 in
  let dg := g color1 - g color2 in
  let db := b color1 - b color2 in
  Math_sqrt (dr * dr + dg * dg + db * db).

(** The canvas after [drawImage]: its size and the bytes of
    [getImageData(0, 0, width, height).data] by index, four per pixel.
    The array holds [4 * width * height] bytes; the detectors read below
    that bound. *)
Record Canvas : Type := mkCanvas {
  width : Z;
  height : Z;
  data : Z -> Z
}.

(** The colour fields of the detector. *)
Record ColorSettings : Type := mkColorSettings {
  targetColor : Color;
  colorTolerance : R;
  isCalibrating : bool
}.

(** What the constructor sets: an orange ball. *)
Definition defaultColorSettings : ColorSettings :=
  {| targetColor := {| r := 255; g := 165; b := 0 |};
     colorTolerance := 50;
     isCalibrating := false |}.

(** The colour of the pixel the scan looks at:
    [index = (y * width + x) * 4], then [data[index]], [data[index + 1]]
    and [data[index + 2]]. *)
Definition pixelIndex (canvas : Canvas) (x y : Z) : Z :=
  ((y * width canvas + x) * 4)%Z.

Definition pixelColor (canvas : Canvas) (x y : Z) : Color :=
  let index := pixelIndex canvas x y in
  {| r := IZR (data canvas index);
     g := IZR (data canvas (index + 1));
     b := IZR (data canvas (index + 2)) |}.

(** The values a loop [for (let v = 0; v < bound; v += step)] takes,
    with [step = 4]. *)
Definition step : Z := 4.

Definition loopValues (bound : Z) : list Z :=
  map (fun k => (step * Z.of_nat k)%Z)
      (List.seq 0 (Z.to_nat ((bound + 3) / 4))).

(** The body of the inner loop of [detectBallByColor]: [best] is the
    pair of [bestMatch] and [bestScore]. *)
Definition visit (settings : ColorSettings) (canvas : Canvas) (y : Z)
           (best : option BallDetector.Position * R) (x : Z)
  : option BallDetector.Position * R :=
  let colorDistance :=
    calculateColorDistance (pixelColor canvas x y) (targetColor settings) in
  if lt colorDistance (colorTolerance settings) then
    let score := colorTolerance settings - colorDistance in
    if gt score (snd best) then
      (Some {| BallDetector.pos_x := IZR x;
               BallDetector.pos_y := IZR y;
               BallDetector.pos_confidence :=
                 Some (score / colorTolerance settings) |},
       score)
    else best
  else best.

(** [detectBallByColor()]: the two nested loops, rows outside. *)
Definition detectBallByColor (settings : ColorSettings) (canvas : Canvas)
  : option BallDetector.Position :=
  fst (fold_left
         (fun best y =>
            fold_left (visit settings canvas y) (loopValues (width canvas)) best)
         (loopValues (height canvas))
         (None, 0)).

(** The ball position [detectBall] passes on: the AI detector when a
    model is loaded, the colour detector when that finds nothing. *)
Definition locateBall (model : bool) (detected : option (list Prediction))
           (settings : ColorSettings) (canvas : Canvas)
  : option BallDetector.Position :=
  let ballPosition := if model then detectBallWithAI detected else None in
  match ballPosition with
  | Some position => Some position
  | None => detectBallByColor settings canvas
  end.

(** [calibrateBall()]: enter or leave calibration. *)
Definition calibrateBall (settings : ColorSettings) : ColorSettings :=
  {| targetColor := targetColor settings;
     colorTolerance := colorTolerance settings;
     isCalibrating := negb (isCalibrating settings) |}.

(** A click on the canvas: where it fell in the page and the rectangle
    the canvas occupies there ([getBoundingClientRect]). *)
Record Click : Type := mkClick {
  clientX : R;
  clientY : R;
  rectLeft : R;
  rectTop : R;
  rectWidth : R;
  rectHeight : R
}.

(** [Math.floor]. *)
Definition Math_floor (a : R) : Z := Int_part a.

(** The pixel a click falls on, as [handleCalibrationClick] computes it. *)
Definition clickedX (canvas : Canvas) (event : Click) : Z :=
  Math_floor ((clientX event - rectLeft event)
              * (IZR (width canvas) / rectWidth event)).

Definition clickedY (canvas : Canvas) (event : Click) : Z :=
  Math_floor ((clientY event - rectTop event)
              * (IZR (height canvas) / rectHeight event)).

(** [getImageData(x, y, 1, 1).data]: the pixel at [(x, y)], and
    transparent black outside the canvas. *)
Definition getPixel (canvas : Canvas) (x y : Z) : Color :=
  if ((0 <=? x) && (x <? width canvas) && (0 <=? y) && (y <? height canvas))%Z
  then pixelColor canvas x y
  else {| r := 0; g := 0; b := 0 |}.

(** [handleCalibrationClick(event)]. *)
Definition handleCalibrationClick (settings : ColorSettings) (canvas : Canvas)
           (event : Click) : ColorSettings :=
  {| targetColor := getPixel canvas (clickedX canvas event)
                                    (clickedY canvas event);
     colorTolerance := colorTolerance settings;
     isCalibrating := false |}.

(** The [click] listener of the canvas. *)
Definition canvasClick (settings : ColorSettings) (canvas : Canvas)
           (event : Click) : ColorSettings :=
  if isCalibrating settings
  then handleCalibrationClick settings canvas event
  else settings.

(** The pixels the scan visits, in the order of the scan. *)
Definition scanOrder (canvas : Canvas) : list (Z * Z) :=
  flat_map (fun y => map (fun x => (x, y)) (loopValues (width canvas)))
           (loopValues (height canvas)).

(** The distance of a pixel from the target colour. *)
Definition distanceAt (settings : ColorSettings) (canvas : Canvas)
           (pixel : Z * Z) : R :=
  calculateColorDistance (pixelColor canvas (fst pixel) (snd pixel))
                         (targetColor settings).

(** The match the scan records for a pixel within the tolerance. *)
Definition matchAt (settings : ColorSettings) (canvas : Canvas)
           (pixel : Z * Z) : BallDetector.Position :=
  {| BallDetector.pos_x := IZR (fst pixel);
     BallDetector.pos_y := IZR (snd pixel);
     BallDetector.pos_confidence :=
       Some ((colorTolerance settings - distanceAt settings canvas pixel)
             / colorTolerance settings) |}.

(** The body of the inner loop on a pixel given as a pair. *)
Definition visitPixel (settings : ColorSettings) (canvas : Canvas)
           (best : option BallDetector.Position * R) (pixel : Z * Z)
  : option BallDetector.Position * R :=
  visit settings canvas (snd pixel) best (fst pixel).

(** What the scan holds after the pixels [seen]: nothing when none of
    them is within the tolerance, and otherwise the first of those
    nearest to the target colour. *)
Definition bestSoFar (settings : ColorSettings) (canvas : Canvas)
           (seen : list (Z * Z)) (best : option BallDetector.Position * R)
  : Prop :=
  match fst best with
  | None =>
      snd best = 0
      /\ Forall (fun q => colorTolerance settings <= distanceAt settings canvas q)
                seen
  | Some found =>
      exists before pixel after,
        seen = before ++ pixel :: after
        /\ found = matchAt settings canvas pixel
        /\ snd best = colorTolerance settings - distanceAt settings canvas pixel
        /\ distanceAt settings canvas pixel < colorTolerance settings
        /\ Forall (fun q => distanceAt settings canvas pixel
                            < distanceAt settings canvas q) before
        /\ Forall (fun q => distanceAt settings canvas pixel
                            <= distanceAt settings canvas q) after
  end.

(** A canvas of 8 by 4 pixels, black but for the pixel at (4, 0), which
    is orange (255, 165, 0): bytes 16, 17 and 18 of the data. *)
Definition orangeDot : Canvas :=
  {| width := 8; height := 4;
     data := fun index =>
               if (index =? 16)%Z then 255%Z
               else if (index =? 17)%Z then 165%Z
               else 0%Z |}.

(** A click in the middle of the pixel (4, 0) of a canvas shown at its
    own size in the corner of the page. *)
Definition clickOnDot : Click :=
  {| clientX := 45 / 10; clientY := 5 / 10;
     rectLeft := 0; rectTop := 0; rectWidth := 8; rectHeight := 4 |}.

(** A colour made of bytes. *)
Definition byteColor (color : Color) : Prop :=
  0 <= r color <= 255 /\ 0 <= g color <= 255 /\ 0 <= b color <= 255.

End BallDetection.

(** ** Notions for runs of the hit detector *)

Module BallRuns.
Import JS BallDetector.

(** The position found in a frame and the reading of the clock the hit
    test makes in it. *)
Definition positionOf (frame : Position * Z * Z) : Position :=
  let '(position, _, _) := frame in position.

Definition hitTimeOf (frame : Position * Z * Z) : Z :=
  let '(_, _, hitTime) := frame in hitTime.

(** A sample, and a position found, at the point [(px, py)]. *)
Definition sampleAt (px py : R) (s : Sample) : Prop := x s = px /\ y s = py.

Definition foundAt (px py : R) (frame : Position * Z * Z) : Prop :=
  pos_x (positionOf frame) = px /\ pos_y (positionOf frame) = py.

(** The two thresholds of the hit test are not negative. *)
Definition thresholdsNonNegative (d : t) : Prop :=
  0 <= directionChangeThreshold d /\ 0 <= velocityThreshold d * sensitivity d.

(** The parameters the constructor sets and no method changes. *)
Definition constructed (d : t) : Prop :=
  maxPositionHistory d = 10%Z
  /\ velocityThreshold d = 50
  /\ directionChangeThreshold d = 120
  /\ minTimeBetweenHits d = 1000%Z.

(** The velocities between the consecutive samples of a list. *)
Fixpoint velocitiesBetween (samples : list Sample) : list Velocity :=
  match samples with
  | a :: (b :: _) as rest => calculateVelocity a b :: velocitiesBetween rest
  | _ => []
  end.

(** Frames of a ball in steady motion: from each sample to the next the
    velocity is [v]; [previous] is the sample before the first frame, if
    there is one. *)
Fixpoint steady (v : Velocity) (previous : option Sample)
         (frames : list (Position * Z * Z)) : Prop :=
  match frames with
  | [] => True
  | frame :: rest =>
      match previous with
      | Some p => calculateVelocity p (sampleOf frame) = v
      | None => True
      end
      /\ steady v (Some (sampleOf frame)) rest
  end.

(** The last entry of an array, if it has one. *)
Definition lastOf {A : Type} (arr : list A) : option A :=
  nth_error arr (length arr - 1).

(** The window in steady motion: all its velocities are [v], and its last
    sample is the one the next frame is measured against. *)
Definition steadyWindow (v : Velocity) (previous : option Sample) (d : t) : Prop :=
  Forall (eq v) (velocitiesBetween (ballPositions d))
  /\ forall p, lastOf (ballPositions d) = Some p -> previous = Some p.

(** Two trackers that agree on everything tracking reads and writes;
    [isDetecting], [ballSize] and [lastBallPosition] are left out, which
    tracking never reads. *)
Definition sameTracking (d1 d2 : t) : Prop :=
  sameDecisionInputs d1 d2
  /\ hitCount d1 = hitCount d2
  /\ hitCounterText d1 = hitCounterText d2
  /\ velocityHistory d1 = velocityHistory d2.

(** The clock readings of the hit test lie in one interval of the length
    of the debounce time, starting at [from]. *)
Definition withinDebounce (d : t) (from : Z) (frame : Position * Z * Z) : Prop :=
  (from <= hitTimeOf frame <= from + minTimeBetweenHits d)%Z.

End BallRuns.

(** ** Notions for runs of the rep counters *)

Module RepRuns.
Import JS Pose.

(** How far the machine is into a rep: a rep is three steps. *)
Definition phase (st : State) : Z :=
  match st with
  | READY => 0
  | THROWING => 1
  | CATCHING => 2
  end.

(** Three times the reps counted plus the steps into the next one. *)
Definition progress1 (s : RepCounter1.t) : Z :=
  (3 * RepCounter1.repCount s + phase (RepCounter1.state s))%Z.

End RepRuns.

(** * Properties *)

(** ** The built-ins *)

Section BuiltIns.
Import JS.

Lemma gt_true (a b : R) : gt a b = true <-> b < a.
Proof. unfold gt. destruct (Rlt_dec b a); split; intros; try easy. Qed.

Lemma gt_false (a b : R) : gt a b = false <-> a <= b.
Proof.
  unfold gt. destruct (Rlt_dec b a); split; intros; try easy; lra.
Qed.

Lemma lt_true (a b : R) : lt a b = true <-> a < b.
Proof. unfold lt. destruct (Rlt_dec a b); split; intros; try easy. Qed.

Lemma lt_false (a b : R) : lt a b = false <-> b <= a.
Proof.
  unfold lt. destruct (Rlt_dec a b); split; intros; try easy; lra.
Qed.

Lemma seq_true (a b : R) : seq a b = true <-> a = b.
Proof. unfold seq. destruct (Req_dec_T a b); split; intros; try easy. Qed.

Lemma seq_refl (a : R) : seq a a = true.
Proof. now apply seq_true. Qed.

(** The range of [Math.atan2]. *)
Lemma Math_atan2_range (y x : R) : - PI < Math_atan2 y x <= PI.
Proof.
  pose proof PI_RGT_0 as Hpi.
  unfold Math_atan2.
  destruct (Rlt_dec 0 x) as [Hx | Hx].
  - pose proof (atan_bound (y / x)). lra.
  - destruct (Rlt_dec x 0) as [Hx' | Hx'].
    + pose proof (atan_bound (y / x)) as Hb.
      destruct (Rle_dec 0 y) as [Hy | Hy].
      * assert (Hq : y / x <= 0).
        { pose proof (Rinv_lt_0_compat x Hx'). unfold Rdiv. nra. }
        assert (atan (y / x) <= 0).
        { destruct Hq as [Hq | Hq].
          - left. rewrite <- atan_0. now apply atan_increasing.
          - rewrite Hq, atan_0. lra. }
        lra.
      * assert (Hq : 0 < y / x).
        { pose proof (Rinv_lt_0_compat x Hx'). unfold Rdiv. nra. }
        assert (0 < atan (y / x)).
        { rewrite <- atan_0. now apply atan_increasing. }
        lra.
    + destruct (Rlt_dec 0 y); [lra|].
      destruct (Rlt_dec y 0); lra.
Qed.

(** Folding an angle of [[0, 360)] degrees into [[0, 180]]. *)
Lemma fold_degrees_range (angle : R) :
  0 <= angle < 360 ->
  0 <= (if gt angle 180 then 360 - angle else angle) <= 180.
Proof.
  intros H. destruct (gt angle 180) eqn:E.
  - apply gt_true in E. lra.
  - apply gt_false in E. lra.
Qed.

(** The difference of two results of [Math.atan2], in degrees. *)
Lemma degrees_of_difference (y1 x1 y2 x2 : R) :
  0 <= Rabs ((Math_atan2 y2 x2 - Math_atan2 y1 x1) * 180 / PI) < 360.
Proof.
  pose proof PI_RGT_0 as Hpi.
  pose proof (Math_atan2_range y1 x1).
  pose proof (Math_atan2_range y2 x2).
  split; [apply Rabs_pos|].
  set (d := Math_atan2 y2 x2 - Math_atan2 y1 x1).
  assert (Hd : - (2 * PI) < d < 2 * PI) by (unfold d; lra).
  assert (Hk : 0 < 180 / PI) by (apply Rdiv_lt_0_compat; lra).
  assert (Hk' : 180 / PI * PI = 180) by (field; lra).
  replace (d * 180 / PI) with (d * (180 / PI)) by (field; lra).
  apply Rabs_def1; nra.
Qed.

End BuiltIns.

(** ** The kinematic features *)

(** C6: between two samples with the same timestamp the velocity is the
    zero vector with zero magnitude; when either velocity has zero
    magnitude the direction change is 0.  Both functions are total: they
    return a value on every input, the degenerate ones included. *)
Theorem C6_degenerate_inputs_are_neutral :
  (forall pos1 pos2 : BallDetector.Sample,
      BallDetector.time pos1 = BallDetector.time pos2 ->
      BallDetector.calculateVelocity pos1 pos2
      = BallDetector.mkVelocity 0 0 0)
  /\
  (forall velocity1 velocity2 : BallDetector.Velocity,
      BallDetector.magnitude velocity1 = 0
      \/ BallDetector.magnitude velocity2 = 0 ->
      BallDetector.calculateDirectionChange velocity1 velocity2 = 0).
Proof.
  split.
  - intros pos1 pos2 Ht. unfold BallDetector.calculateVelocity.
    rewrite Ht, Z.sub_diag. reflexivity.
  - intros v1 v2 [H | H]; unfold BallDetector.calculateDirectionChange;
      rewrite H, seq_refl; [reflexivity|].
    now rewrite orb_true_r.
Qed.

(** C6 at two samples taken in the same millisecond, and at a stationary
    velocity followed by a moving one. *)
Lemma C6_same_millisecond_and_stationary :
  BallDetector.calculateVelocity
    (BallDetector.mkSample 3 4 100 1) (BallDetector.mkSample 7 9 100 1)
  = BallDetector.mkVelocity 0 0 0
  /\ BallDetector.calculateDirectionChange
       (BallDetector.mkVelocity 0 0 0) (BallDetector.mkVelocity 1 0 1) = 0.
Proof.
  split.
  - apply (proj1 C6_degenerate_inputs_are_neutral). reflexivity.
  - apply (proj2 C6_degenerate_inputs_are_neutral). left. reflexivity.
Defined.

(** C7: the joint angle is symmetric in its outer points and lies in
    [[0, 180]]; it is the absolute difference of two [Math.atan2] angles
    in degrees, folded to [360 - angle] above 180. *)
Theorem C7_calculateAngle_symmetric_and_bounded :
  forall a b c : Pose.Landmark,
    Pose.calculateAngle a b c = Pose.calculateAngle c b a
    /\ 0 <= Pose.calculateAngle a b c <= 180
    /\ (let angle :=
          Rabs ((JS.Math_atan2 (Pose.y c - Pose.y b) (Pose.x c - Pose.x b)
                 - JS.Math_atan2 (Pose.y a - Pose.y b) (Pose.x a - Pose.x b))
                * 180 / PI) in
        Pose.calculateAngle a b c = if JS.gt angle 180 then 360 - angle else angle).
Proof.
  intros a b c. split; [|split].
  - unfold Pose.calculateAngle, JS.Math_abs.
    set (ac := JS.Math_atan2 (Pose.y c - Pose.y b) (Pose.x c - Pose.x b)).
    set (aa := JS.Math_atan2 (Pose.y a - Pose.y b) (Pose.x a - Pose.x b)).
    replace ((aa - ac) * 180 / PI) with (- ((ac - aa) * 180 / PI))
      by (unfold Rdiv; ring).
    now rewrite Rabs_Ropp.
  - unfold Pose.calculateAngle, JS.Math_abs.
    apply fold_degrees_range, degrees_of_difference.
  - reflexivity.
Qed.

(** ** The hit detector *)

Section HitDetector.
Import JS BallDetector.

Lemma ends_with_three {A : Type} (l : list A) :
  (3 <= len l)%Z ->
  exists older a b c, l = older ++ [a; b; c].
Proof.
  unfold len. intros H.
  exists (firstn (length l - 3) l).
  pose proof (firstn_skipn (length l - 3) l) as Hsplit.
  pose proof (length_skipn (length l - 3) l) as Hlen.
  destruct (skipn (length l - 3) l) as [|a [|b [|c [|e rest]]]];
    cbn [length] in Hlen; try lia.
  exists a, b, c. now symmetry.
Qed.

Lemma index_last_three {A : Type} (older : list A) (a b c : A) :
  let l := older ++ [a; b; c] in
  index l (len l - 1) = Some c
  /\ index l (len l - 2) = Some b
  /\ index l (len l - 3) = Some a.
Proof.
  cbn zeta. unfold index, len. rewrite length_app. cbn [length].
  repeat split.
  - destruct (Z.ltb_spec (Z.of_nat (length older + 3) - 1) 0); [lia|].
    replace (Z.to_nat (Z.of_nat (length older + 3) - 1))
      with (length older + 2)%nat by lia.
    rewrite nth_error_app2 by lia.
    now replace (length older + 2 - length older)%nat with 2%nat by lia.
  - destruct (Z.ltb_spec (Z.of_nat (length older + 3) - 2) 0); [lia|].
    replace (Z.to_nat (Z.of_nat (length older + 3) - 2))
      with (length older + 1)%nat by lia.
    rewrite nth_error_app2 by lia.
    now replace (length older + 1 - length older)%nat with 1%nat by lia.
  - destruct (Z.ltb_spec (Z.of_nat (length older + 3) - 3) 0); [lia|].
    replace (Z.to_nat (Z.of_nat (length older + 3) - 3))
      with (length older + 0)%nat by lia.
    rewrite nth_error_app2 by lia.
    now replace (length older + 0 - length older)%nat with 0%nat by lia.
Qed.

Lemma hitTest_spec (d : t) (a b c : Sample) (now : Z) :
  hitTest d a b c now = true <-> hitCondition d a b c now.
Proof.
  unfold hitTest, hitCondition, isSignificantDirectionChange,
    isSignificantSpeedChange, isMinTimeElapsed, Math_abs.
  cbn zeta.
  rewrite andb_true_iff, orb_true_iff, !gt_true, Z.ltb_lt.
  unfold Rgt. intuition lia.
Qed.

(** What [calculateVelocityAndDetectHit] returns on a window that ends
    with three samples. *)
Lemma calculateVelocityAndDetectHit_eq (d : t) (older : list Sample)
      (a b c : Sample) (now : Z) :
  ballPositions d = older ++ [a; b; c] ->
  calculateVelocityAndDetectHit d now =
  Some (let d2 := set_velocityHistory d
                    (pushVelocity (velocityHistory d) (calculateVelocity b c)) in
        if hitTest d a b c now
        then set_lastHitTime (registerHit d2) now
        else d2).
Proof.
  intros Hw. unfold calculateVelocityAndDetectHit. rewrite Hw.
  destruct (index_last_three older a b c) as (-> & -> & ->).
  unfold pushVelocity, hitTest. cbn [velocityHistory set_velocityHistory].
  destruct (5 <? len (push (velocityHistory d) (calculateVelocity b c)))%Z;
    unfold isSignificantDirectionChange, isSignificantSpeedChange,
      isMinTimeElapsed;
    cbn [velocityHistory set_velocityHistory directionChangeThreshold
         velocityThreshold sensitivity minTimeBetweenHits lastHitTime];
    match goal with |- context [if ?t then _ else _] => destruct t end;
    reflexivity.
Qed.

(** [updateBallTracking] on a window that holds fewer than three
    samples after the push. *)
Lemma updateBallTracking_short (d : t) (position : Position) (t1 t2 : Z) :
  (len (ballPositions (pushPosition d (newSample position t1))) < 3)%Z ->
  updateBallTracking d position t1 t2
  = Some (set_lastBallPosition (pushPosition d (newSample position t1))
                               (Some position)).
Proof.
  intros H. unfold updateBallTracking.
  destruct (Z.leb_spec 3 (len (ballPositions
              (pushPosition d (newSample position t1))))); [lia|].
  reflexivity.
Qed.

(** ... and on a window that ends with three samples. *)
Lemma updateBallTracking_long (d : t) (position : Position) (t1 t2 : Z)
      (older : list Sample) (a b c : Sample) :
  ballPositions (pushPosition d (newSample position t1)) = older ++ [a; b; c] ->
  updateBallTracking d position t1 t2
  = Some (set_lastBallPosition
            (let d1 := pushPosition d (newSample position t1) in
             let d2 := set_velocityHistory d1
                         (pushVelocity (velocityHistory d1) (calculateVelocity b c)) in
             if hitTest d1 a b c t2
             then set_lastHitTime (registerHit d2) t2
             else d2)
            (Some position)).
Proof.
  intros Hw. unfold updateBallTracking.
  assert (Hlen : (3 <= len (ballPositions
                   (pushPosition d (newSample position t1))))%Z).
  { rewrite Hw. unfold len. rewrite length_app. cbn [length]. lia. }
  apply Z.leb_le in Hlen. rewrite Hlen.
  now rewrite (calculateVelocityAndDetectHit_eq _ older a b c t2 Hw).
Qed.

(** The push leaves everything but the window as it was. *)
Lemma pushPosition_frame (d : t) (s : Sample) :
  let d1 := pushPosition d s in
  hitCount d1 = hitCount d /\ lastHitTime d1 = lastHitTime d
  /\ velocityHistory d1 = velocityHistory d
  /\ hitCounterText d1 = hitCounterText d
  /\ sameConfiguration d1 d.
Proof.
  cbn zeta. unfold pushPosition, sameConfiguration.
  destruct (_ <? _)%Z; cbn; repeat split; reflexivity.
Qed.

Lemma hitTest_pushPosition (d : t) (s a b c : Sample) (now : Z) :
  hitTest (pushPosition d s) a b c now = hitTest d a b c now.
Proof.
  unfold pushPosition. destruct (_ <? _)%Z; reflexivity.
Qed.

(** [updateBallTracking] never faults. *)
Lemma updateBallTracking_total (d : t) (position : Position) (t1 t2 : Z) :
  exists d', updateBallTracking d position t1 t2 = Some d'.
Proof.
  destruct (Z.lt_ge_cases
              (len (ballPositions (pushPosition d (newSample position t1)))) 3)
    as [H | H].
  - rewrite updateBallTracking_short by assumption. eauto.
  - destruct (ends_with_three _ H) as (older & a & b & c & Hw).
    rewrite (updateBallTracking_long _ _ _ _ older a b c Hw). eauto.
Qed.

End HitDetector.

Section HitDecision.
Import JS BallDetector.

(** One call of [updateBallTracking] either registers one hit at the
    time of the test, which then lies more than [minTimeBetweenHits]
    after the previous hit, or leaves counter and [lastHitTime] alone;
    the configuration is never touched. *)
Lemma updateBallTracking_cases (d d' : t) (position : Position) (t1 t2 : Z) :
  updateBallTracking d position t1 t2 = Some d' ->
  sameConfiguration d' d
  /\ ((hitCount d' = hitCount d + 1 /\ lastHitTime d' = t2
       /\ t2 - lastHitTime d > minTimeBetweenHits d)
      \/ (hitCount d' = hitCount d /\ lastHitTime d' = lastHitTime d))%Z.
Proof.
  intros Hrun.
  pose proof (pushPosition_frame d (newSample position t1)) as Hframe.
  cbn zeta in Hframe. destruct Hframe as (Hc & Hl & _ & _ & Hcfg).
  destruct (Z.lt_ge_cases
              (len (ballPositions (pushPosition d (newSample position t1)))) 3)
    as [H | H].
  - rewrite updateBallTracking_short in Hrun by assumption.
    injection Hrun as <-. cbn. split; [exact Hcfg|]. right. now split.
  - destruct (ends_with_three _ H) as (older & a & b & c & Hw).
    rewrite (updateBallTracking_long _ _ _ _ older a b c Hw) in Hrun.
    injection Hrun as <-. cbn zeta.
    destruct (hitTest _ a b c t2) eqn:Htest.
    + split; [exact Hcfg|]. left. cbn. rewrite Hc. repeat split.
      rewrite hitTest_pushPosition in Htest.
      apply hitTest_spec in Htest. apply Htest.
    + split; [exact Hcfg|]. right. cbn. now split.
Qed.

End HitDecision.

(** C1: once the window holds three samples after the push, a hit is
    registered exactly when the direction change exceeds
    [directionChangeThreshold] or the speed change exceeds
    [velocityThreshold * sensitivity], and more than [minTimeBetweenHits]
    has passed since [lastHitTime] (120 degrees, 50 and 1000 ms as the
    constructor sets them).  A hit adds exactly 1 to the counter and sets
    [lastHitTime] to the time of the test; no hit leaves both alone.  So
    after a hit, a sample tested within [minTimeBetweenHits] of it does
    not register another one, whatever its velocities. *)
Theorem C1_hit_fires_exactly_on_condition :
  (BallDetector.directionChangeThreshold BallDetector.constructor = 120
   /\ BallDetector.velocityThreshold BallDetector.constructor = 50
   /\ BallDetector.sensitivity BallDetector.constructor = 1
   /\ BallDetector.minTimeBetweenHits BallDetector.constructor = 1000%Z)
  /\
  (forall (d : BallDetector.t) (position : BallDetector.Position)
          (currentTime now : Z),
      let d1 := BallDetector.pushPosition d
                  (BallDetector.newSample position currentTime) in
      (3 <= JS.len (BallDetector.ballPositions d1))%Z ->
      exists older beforePrevious previous current d',
        BallDetector.ballPositions d1
        = older ++ [beforePrevious; previous; current]
        /\ BallDetector.updateBallTracking d position currentTime now = Some d'
        /\ BallDetector.sameConfiguration d' d
        /\ (BallDetector.hitCondition d beforePrevious previous current now ->
            BallDetector.hitCount d' = (BallDetector.hitCount d + 1)%Z
            /\ BallDetector.lastHitTime d' = now)
        /\ (~ BallDetector.hitCondition d beforePrevious previous current now ->
            BallDetector.hitCount d' = BallDetector.hitCount d
            /\ BallDetector.lastHitTime d' = BallDetector.lastHitTime d))
  /\
  (forall (d d1 d2 : BallDetector.t) (p1 p2 : BallDetector.Position)
          (t1 now1 t2 now2 : Z),
      BallDetector.updateBallTracking d p1 t1 now1 = Some d1 ->
      BallDetector.hitCount d1 = (BallDetector.hitCount d + 1)%Z ->
      BallDetector.updateBallTracking d1 p2 t2 now2 = Some d2 ->
      (now2 - now1 <= BallDetector.minTimeBetweenHits d)%Z ->
      BallDetector.hitCount d2 = BallDetector.hitCount d1
      /\ BallDetector.lastHitTime d2 = now1).
Proof.
  split; [|split].
  - cbn. repeat split; reflexivity.
  - intros d position currentTime now d1 Hlen.
    destruct (ends_with_three _ Hlen) as (older & a & b & c & Hw).
    exists older, a, b, c. subst d1.
    rewrite (updateBallTracking_long _ _ _ _ older a b c Hw).
    eexists. split; [exact Hw|]. split; [reflexivity|].
    pose proof (pushPosition_frame d (BallDetector.newSample position currentTime))
      as Hframe.
    cbn zeta in Hframe. destruct Hframe as (Hc & Hl & _ & _ & Hcfg).
    cbn zeta. rewrite hitTest_pushPosition.
    destruct (BallDetector.hitTest d a b c now) eqn:Htest.
    + split; [exact Hcfg|]. split.
      * intros _. cbn. now rewrite Hc.
      * intros Hno. exfalso. apply Hno. now apply hitTest_spec.
    + split; [exact Hcfg|]. split.
      * intros Hyes. apply hitTest_spec in Hyes. congruence.
      * intros _. cbn. now split.
  - intros d d1 d2 p1 p2 t1 now1 t2 now2 Hfirst Hfired Hsecond Hclose.
    apply updateBallTracking_cases in Hfirst.
    destruct Hfirst as (Hcfg1 & [(_ & Hlast & _) | (Hsame & _)]); [|lia].
    apply updateBallTracking_cases in Hsecond.
    destruct Hsecond as (_ & [(_ & _ & Hgap) | (Hsame & Hlast2)]).
    + destruct Hcfg1 as (_ & _ & _ & _ & Hmin). lia.
    + split; congruence.
Qed.

(** *** A ball that moves right and bounces back *)

Section Bounce.
Import JS BallDetector.

Lemma Math_atan2_right (x : R) : 0 < x -> Math_atan2 0 x = 0.
Proof.
  intros Hx. unfold Math_atan2. destruct (Rlt_dec 0 x); [|lra].
  unfold Rdiv. now rewrite Rmult_0_l, atan_0.
Qed.

Lemma Math_atan2_left (x : R) : x < 0 -> Math_atan2 0 x = PI.
Proof.
  intros Hx. unfold Math_atan2.
  destruct (Rlt_dec 0 x); [lra|]. destruct (Rlt_dec x 0); [|lra].
  destruct (Rle_dec 0 0); [|lra].
  unfold Rdiv. rewrite Rmult_0_l, atan_0. lra.
Qed.

(** The velocity between two samples at the same height. *)
Lemma calculateVelocity_horizontal (pos1 pos2 : Sample) :
  y pos1 = y pos2 ->
  time pos1 <> time pos2 ->
  let v := (x pos2 - x pos1) / IZR (time pos2 - time pos1) * 1000 in
  calculateVelocity pos1 pos2 = {| vx := v; vy := 0; magnitude := Rabs v |}.
Proof.
  intros Hy Ht v. unfold calculateVelocity.
  destruct (Z.eqb_spec (time pos2 - time pos1) 0) as [E | E]; [lia|].
  assert (Hd : IZR (time pos2 - time pos1) <> 0) by now apply not_0_IZR.
  fold v.
  replace ((y pos2 - y pos1) / IZR (time pos2 - time pos1) * 1000) with 0
    by (rewrite Hy; field; exact Hd).
  f_equal. unfold Math_sqrt.
  replace (v * v + 0 * 0) with (Rsqr v) by (unfold Rsqr; ring).
  apply sqrt_Rsqr_abs.
Qed.

(** A rightward velocity followed by a leftward one is a direction
    change of 180 degrees. *)
Lemma calculateDirectionChange_reversal (right left : R) :
  0 < right -> left < 0 ->
  calculateDirectionChange
    {| vx := right; vy := 0; magnitude := Rabs right |}
    {| vx := left; vy := 0; magnitude := Rabs left |} = 180.
Proof.
  intros Hr Hl. unfold calculateDirectionChange. cbn [vx vy magnitude].
  assert (E1 : seq (Rabs right) 0 = false).
  { unfold seq. destruct (Req_dec_T (Rabs right) 0) as [E | E]; [|reflexivity].
    rewrite Rabs_right in E; lra. }
  assert (E2 : seq (Rabs left) 0 = false).
  { unfold seq. destruct (Req_dec_T (Rabs left) 0) as [E | E]; [|reflexivity].
    rewrite Rabs_left in E; lra. }
  rewrite E1, E2. cbn [orb].
  rewrite (Math_atan2_right right Hr), (Math_atan2_left left Hl).
  pose proof PI_RGT_0 as Hpi.
  unfold Math_abs. rewrite Rminus_0_r, Rabs_right by lra.
  replace (PI * 180 / PI) with 180 by (field; lra).
  assert (E : gt 180 180 = false) by (apply gt_false; lra).
  now rewrite E.
Qed.

Lemma run_two_frames :
  run constructor [ (ballAt 100, 2000, 2000); (ballAt 200, 2100, 2100) ]%Z
  = Some afterTwoFrames.
Proof. reflexivity. Qed.

Lemma hitCondition_at_bounce :
  hitCondition afterTwoFrames
    (mkSample 100 0 2000 1) (mkSample 200 0 2100 1) (mkSample 100 0 2200 1)
    2200.
Proof.
  unfold hitCondition. cbn zeta.
  rewrite !calculateVelocity_horizontal by (cbn; lia || reflexivity).
  cbn [x y time].
  replace (2100 - 2000)%Z with 100%Z by reflexivity.
  replace (2200 - 2100)%Z with 100%Z by reflexivity.
  split; [left|cbn; lia].
  rewrite calculateDirectionChange_reversal by lra.
  cbn. lra.
Qed.

End Bounce.

Lemma ends_with_three_inj {A : Type} (l1 l2 : list A) (a1 b1 c1 a2 b2 c2 : A) :
  l1 ++ [a1; b1; c1] = l2 ++ [a2; b2; c2] ->
  a1 = a2 /\ b1 = b2 /\ c1 = c2.
Proof.
  intros H.
  change (l1 ++ [a1; b1; c1]) with (l1 ++ [a1; b1] ++ [c1]) in H.
  change (l2 ++ [a2; b2; c2]) with (l2 ++ [a2; b2] ++ [c2]) in H.
  rewrite !app_assoc in H. apply app_inj_tail in H. destruct H as [H Hc].
  change (l1 ++ [a1; b1]) with (l1 ++ [a1] ++ [b1]) in H.
  change (l2 ++ [a2; b2]) with (l2 ++ [a2] ++ [b2]) in H.
  rewrite !app_assoc in H. apply app_inj_tail in H. destruct H as [H Hb].
  apply app_inj_tail in H. destruct H as [_ Ha].
  now repeat split.
Qed.

(** The scenario of the specification, through C1: the ball moves right
    for two frames, the third frame shows it moving left and registers
    the one hit at 2200 ms, and the reversal of the fourth frame, 100 ms
    later, registers nothing. *)
Lemma C1_bounce_registers_one_hit :
  exists d3 d4 : BallDetector.t,
    BallDetector.updateBallTracking BallDetector.afterTwoFrames
      (BallDetector.ballAt 100) 2200 2200 = Some d3
    /\ BallDetector.hitCount d3 = 1%Z
    /\ BallDetector.lastHitTime d3 = 2200%Z
    /\ BallDetector.updateBallTracking d3 (BallDetector.ballAt 200) 2300 2300
       = Some d4
    /\ BallDetector.hitCount d4 = 1%Z.
Proof.
  destruct C1_hit_fires_exactly_on_condition as (_ & Hfire & Hdebounce).
  destruct (Hfire BallDetector.afterTwoFrames (BallDetector.ballAt 100)
                  2200%Z 2200%Z)
    as (older & a & b & c & d3 & Hw & Hrun & _ & Hyes & _).
  { cbn. lia. }
  change (BallDetector.ballPositions _)
    with ([] ++ [ BallDetector.mkSample 100 0 2000 1;
                  BallDetector.mkSample 200 0 2100 1;
                  BallDetector.mkSample 100 0 2200 1 ]) in Hw.
  apply ends_with_three_inj in Hw. destruct Hw as (<- & <- & <-).
  destruct (Hyes hitCondition_at_bounce) as (Hcount & Hlast).
  destruct (updateBallTracking_total d3 (BallDetector.ballAt 200) 2300 2300)
    as (d4 & Hrun4).
  exists d3, d4.
  destruct (Hdebounce BallDetector.afterTwoFrames d3 d4
                      (BallDetector.ballAt 100) (BallDetector.ballAt 200)
                      2200%Z 2200%Z 2300%Z 2300%Z Hrun Hcount Hrun4)
    as (Hcount4 & _).
  { cbn. lia. }
  repeat split; try assumption.
  rewrite Hcount4. exact Hcount.
Defined.

(** ** The velocity history does not reach the hit decision *)

Section VelocityHistory.
Import JS BallDetector.

Lemma hitTest_ext (d1 d2 : t) (a b c : Sample) (now : Z) :
  sameConfiguration d1 d2 ->
  lastHitTime d1 = lastHitTime d2 ->
  hitTest d1 a b c now = hitTest d2 a b c now.
Proof.
  intros (Hs & _ & Hv & Hd & Hm) Hl.
  unfold hitTest, isSignificantDirectionChange, isSignificantSpeedChange,
    isMinTimeElapsed.
  now rewrite Hs, Hv, Hd, Hm, Hl.
Qed.

Lemma pushPosition_ext (d1 d2 : t) (s : Sample) :
  sameDecisionInputs d1 d2 ->
  sameDecisionInputs (pushPosition d1 s) (pushPosition d2 s).
Proof.
  intros (Hw & Hl & Hcfg).
  pose proof Hcfg as (Hs & Hmax & Hv & Hd & Hm).
  unfold pushPosition, sameDecisionInputs, sameConfiguration.
  cbn [set_ballPositions ballPositions maxPositionHistory].
  rewrite Hw, Hmax.
  destruct (_ <? _)%Z; cbn; repeat split; assumption.
Qed.

(** One frame: the two trackers take the same decision and still agree. *)
Lemma updateBallTracking_ext (d1 d2 : t) (position : Position) (t1 t2 : Z) :
  sameDecisionInputs d1 d2 ->
  exists d1' d2',
    updateBallTracking d1 position t1 t2 = Some d1'
    /\ updateBallTracking d2 position t1 t2 = Some d2'
    /\ sameDecisionInputs d1' d2'
    /\ (hitCount d1' - hitCount d1 = hitCount d2' - hitCount d2)%Z.
Proof.
  intros Hagree.
  pose proof (pushPosition_ext d1 d2 (newSample position t1) Hagree)
    as (Hw & Hl & Hcfg).
  pose proof (pushPosition_frame d1 (newSample position t1)) as F1.
  pose proof (pushPosition_frame d2 (newSample position t1)) as F2.
  cbn zeta in F1, F2.
  destruct F1 as (Hc1 & _). destruct F2 as (Hc2 & _).
  destruct (Z.lt_ge_cases
              (len (ballPositions (pushPosition d1 (newSample position t1)))) 3)
    as [H | H].
  - rewrite (updateBallTracking_short d1) by assumption.
    rewrite (updateBallTracking_short d2) by (rewrite <- Hw; assumption).
    do 2 eexists. split; [reflexivity|]. split; [reflexivity|].
    split; [split; [|split]; cbn; assumption|].
    cbn. lia.
  - destruct (ends_with_three _ H) as (older & a & b & c & Hw1).
    rewrite (updateBallTracking_long d1 _ _ _ older a b c Hw1).
    rewrite (updateBallTracking_long d2 _ _ _ older a b c)
      by (rewrite <- Hw; assumption).
    do 2 eexists. split; [reflexivity|]. split; [reflexivity|].
    cbn zeta.
    rewrite (hitTest_ext _ _ a b c t2 Hcfg Hl).
    destruct (hitTest (pushPosition d2 (newSample position t1)) a b c t2).
    + split; [split; [|split]; cbn; try assumption; reflexivity|].
      cbn. lia.
    + split; [split; [|split]; cbn; assumption|].
      cbn. lia.
Qed.

End VelocityHistory.

(** C9: hit detection never reads [velocityHistory].  Two trackers that
    agree on the position window, [lastHitTime] and the configuration,
    whatever their velocity histories hold, register the same hits on
    every sequence of frames: both runs complete, the counters grow by
    the same amount, and the trackers still agree afterwards.  On a
    window that ends with three samples the decision is the test on
    these three samples. *)
Theorem C9_velocityHistory_is_never_read :
  (forall (frames : list (BallDetector.Position * Z * Z))
          (d1 d2 : BallDetector.t),
      BallDetector.sameDecisionInputs d1 d2 ->
      exists d1' d2',
        BallDetector.run d1 frames = Some d1'
        /\ BallDetector.run d2 frames = Some d2'
        /\ BallDetector.sameDecisionInputs d1' d2'
        /\ (BallDetector.hitCount d1' - BallDetector.hitCount d1
            = BallDetector.hitCount d2' - BallDetector.hitCount d2)%Z)
  /\
  (forall (d : BallDetector.t) (history : list BallDetector.Velocity)
          (older : list BallDetector.Sample)
          (a b c : BallDetector.Sample) (now : Z),
      BallDetector.ballPositions d = older ++ [a; b; c] ->
      exists d',
        BallDetector.calculateVelocityAndDetectHit
          (BallDetector.set_velocityHistory d history) now = Some d'
        /\ BallDetector.hitCount d'
           = (if BallDetector.hitTest d a b c now
              then BallDetector.hitCount d + 1
              else BallDetector.hitCount d)%Z).
Proof.
  split.
  - induction frames as [|[[position t1] t2] rest IH]; intros d1 d2 Hagree.
    + exists d1, d2. cbn. repeat split; try apply Hagree. lia.
    + destruct (updateBallTracking_ext d1 d2 position t1 t2 Hagree)
        as (e1 & e2 & Hr1 & Hr2 & Hagree' & Hstep).
      destruct (IH e1 e2 Hagree') as (f1 & f2 & Hf1 & Hf2 & Hagree'' & Hrest).
      exists f1, f2. cbn [BallDetector.run]. rewrite Hr1, Hr2.
      repeat split; try assumption; try apply Hagree''. lia.
  - intros d history older a b c now Hw.
    rewrite (calculateVelocityAndDetectHit_eq _ older a b c now)
      by exact Hw.
    eexists. split; [reflexivity|]. cbn zeta.
    change (BallDetector.hitTest (BallDetector.set_velocityHistory d history)
                                 a b c now)
      with (BallDetector.hitTest d a b c now).
    destruct (BallDetector.hitTest d a b c now); reflexivity.
Qed.

(** C9 on two trackers that differ in their velocity histories only: on
    the three frames of the bounce both register the same hits. *)
Lemma C9_junk_velocity_history :
  exists d1' d2',
    BallDetector.run BallDetector.constructor
      [ (BallDetector.ballAt 100, 2000, 2000);
        (BallDetector.ballAt 200, 2100, 2100);
        (BallDetector.ballAt 100, 2200, 2200) ]%Z = Some d1'
    /\ BallDetector.run
         (BallDetector.set_velocityHistory BallDetector.constructor
            [ BallDetector.mkVelocity 7 7 7; BallDetector.mkVelocity 9 9 9 ])
         [ (BallDetector.ballAt 100, 2000, 2000);
           (BallDetector.ballAt 200, 2100, 2100);
           (BallDetector.ballAt 100, 2200, 2200) ]%Z = Some d2'
    /\ BallDetector.hitCount d1' = BallDetector.hitCount d2'
    /\ BallDetector.lastHitTime d1' = BallDetector.lastHitTime d2'
    /\ exists d3,
        BallDetector.calculateVelocityAndDetectHit
          (BallDetector.set_velocityHistory
             (BallDetector.set_ballPositions BallDetector.afterTwoFrames
                [ BallDetector.mkSample 100 0 2000 1;
                  BallDetector.mkSample 200 0 2100 1;
                  BallDetector.mkSample 100 0 2200 1 ])
             [ BallDetector.mkVelocity 7 7 7 ])
          2200 = Some d3.
Proof.
  destruct (proj2 C9_velocityHistory_is_never_read
              (BallDetector.set_ballPositions BallDetector.afterTwoFrames
                 [ BallDetector.mkSample 100 0 2000 1;
                   BallDetector.mkSample 200 0 2100 1;
                   BallDetector.mkSample 100 0 2200 1 ])
              [ BallDetector.mkVelocity 7 7 7 ]
              [] (BallDetector.mkSample 100 0 2000 1)
              (BallDetector.mkSample 200 0 2100 1)
              (BallDetector.mkSample 100 0 2200 1) 2200%Z eq_refl)
    as (d3 & Hd3 & _).
  destruct (proj1 C9_velocityHistory_is_never_read
              [ (BallDetector.ballAt 100, 2000, 2000);
                (BallDetector.ballAt 200, 2100, 2100);
                (BallDetector.ballAt 100, 2200, 2200) ]%Z
              BallDetector.constructor
              (BallDetector.set_velocityHistory BallDetector.constructor
                 [ BallDetector.mkVelocity 7 7 7; BallDetector.mkVelocity 9 9 9 ]))
    as (d1' & d2' & Hr1 & Hr2 & (_ & Hlast & _) & Hcount).
  { unfold BallDetector.sameDecisionInputs, BallDetector.sameConfiguration.
    cbn. repeat split. }
  exists d1', d2'. cbn in Hcount.
  split; [exact Hr1|]. split; [exact Hr2|]. split; [lia|].
  split; [exact Hlast|]. now exists d3.
Defined.

(** ** The sample windows *)

Section Windows.
Import JS BallDetector Window.

Lemma skipn_one_tl {A : Type} (l : list A) : skipn 1 l = tl l.
Proof. destruct l; reflexivity. Qed.

(** Push, then evict when the capacity is exceeded: the window of the
    [n] most recent entries. *)
Lemma push_evict_lastN {A : Type} (n : nat) (l : list A) (v : A) :
  (length l <= n)%nat ->
  (if (Z.of_nat n <? len (push l v))%Z then shift (push l v) else push l v)
  = lastN n (l ++ [v]).
Proof.
  intros Hl. unfold lastN, len, push, shift. rewrite length_app. cbn [length].
  destruct (Z.ltb_spec (Z.of_nat n) (Z.of_nat (length l + 1))) as [H | H].
  - replace (length l + 1 - n)%nat with 1%nat by lia.
    now rewrite skipn_one_tl.
  - now replace (length l + 1 - n)%nat with 0%nat by lia.
Qed.

Lemma length_lastN {A : Type} (n : nat) (l : list A) :
  (length (lastN n l) <= n)%nat.
Proof. unfold lastN. rewrite length_skipn. lia. Qed.

Lemma lastN_push {A : Type} (n : nat) (l : list A) (v : A) :
  lastN n (lastN n l ++ [v]) = lastN n (l ++ [v]).
Proof.
  unfold lastN at 2.
  replace (skipn (length l - n) l ++ [v])
    with (skipn (length l - n) (l ++ [v])).
  - unfold lastN. rewrite skipn_skipn, length_skipn, length_app. cbn [length].
    f_equal. lia.
  - rewrite skipn_app.
    replace (length l - n - length l)%nat with 0%nat by lia.
    reflexivity.
Qed.

Lemma strictlyIncreasing_skipn (k : nat) (times : list Z) :
  strictlyIncreasing times -> strictlyIncreasing (skipn k times).
Proof.
  unfold strictlyIncreasing. revert times.
  induction k as [|k IH]; intros times H; [exact H|].
  destruct times as [|t0 rest]; [exact H|].
  cbn [skipn]. apply IH. now inversion H.
Qed.

(** The position window after [pushPosition]. *)
Lemma pushPosition_lastN (d : t) (s : Sample) (n : nat) :
  maxPositionHistory d = Z.of_nat n ->
  (length (ballPositions d) <= n)%nat ->
  ballPositions (pushPosition d s) = lastN n (ballPositions d ++ [s]).
Proof.
  intros Hcap Hlen. rewrite <- (push_evict_lastN n _ s Hlen).
  unfold pushPosition. cbn [set_ballPositions ballPositions maxPositionHistory].
  rewrite Hcap. now destruct (_ <? _)%Z.
Qed.

(** The velocity history after the push of [calculateVelocityAndDetectHit]. *)
Lemma pushVelocity_lastN (history : list Velocity) (v : Velocity) :
  (length history <= 5)%nat ->
  pushVelocity history v = lastN 5 (history ++ [v]).
Proof.
  intros Hlen. rewrite <- (push_evict_lastN 5 _ v Hlen). reflexivity.
Qed.

(** What one call of [updateBallTracking] does to the two windows. *)
Lemma updateBallTracking_windows (d d' : t) (position : Position) (t1 t2 : Z) :
  updateBallTracking d position t1 t2 = Some d' ->
  ballPositions d' = ballPositions (pushPosition d (newSample position t1))
  /\ maxPositionHistory d' = maxPositionHistory d
  /\ (velocityHistory d' = velocityHistory d
      \/ exists v, velocityHistory d' = pushVelocity (velocityHistory d) v).
Proof.
  intros Hrun.
  pose proof (pushPosition_frame d (newSample position t1)) as Hframe.
  cbn zeta in Hframe. destruct Hframe as (_ & _ & Hvh & _ & (_ & Hmax & _)).
  destruct (Z.lt_ge_cases
              (len (ballPositions (pushPosition d (newSample position t1)))) 3)
    as [H | H].
  - rewrite updateBallTracking_short in Hrun by assumption.
    injection Hrun as <-. cbn. repeat split; auto.
  - destruct (ends_with_three _ H) as (older & a & b & c & Hw).
    rewrite (updateBallTracking_long _ _ _ _ older a b c Hw) in Hrun.
    injection Hrun as <-. cbn zeta. rewrite Hvh.
    destruct (hitTest _ a b c t2); cbn; repeat split; eauto.
Qed.

(** The windows along a run: the position window holds the [n] most
    recent samples, and the velocity history stays within 5 entries. *)
Lemma run_windows (n : nat) (frames : list (Position * Z * Z)) :
  forall (d : t) (history : list Sample),
    maxPositionHistory d = Z.of_nat n ->
    ballPositions d = lastN n history ->
    (length (velocityHistory d) <= 5)%nat ->
    exists d',
      run d frames = Some d'
      /\ maxPositionHistory d' = Z.of_nat n
      /\ ballPositions d' = lastN n (history ++ map sampleOf frames)
      /\ (length (velocityHistory d') <= 5)%nat.
Proof.
  induction frames as [|[[position t1] t2] rest IH]; intros d history Hcap Hw Hv.
  - exists d. cbn [run map]. rewrite app_nil_r. auto.
  - destruct (updateBallTracking_total d position t1 t2) as (d1 & Hrun).
    destruct (updateBallTracking_windows _ _ _ _ _ Hrun) as (Hw1 & Hcap1 & Hv1).
    rewrite (pushPosition_lastN d _ n Hcap) in Hw1
      by (rewrite Hw; apply length_lastN).
    rewrite Hw, lastN_push in Hw1.
    destruct (IH d1 (history ++ [newSample position t1])) as (d' & Hrest & Hd').
    + congruence.
    + exact Hw1.
    + destruct Hv1 as [-> | (v & ->)]; [exact Hv|].
      rewrite pushVelocity_lastN by exact Hv. apply length_lastN.
    + exists d'. cbn [run map sampleOf]. rewrite Hrun.
      rewrite <- app_assoc in Hd'. auto.
Qed.

End Windows.

Section WindowInvariant.
Import JS BallDetector Window.

Lemma timestamps_lastN (n : nat) (d : t) (history : list Sample) :
  ballPositions d = lastN n history ->
  timestamps d = lastN n (map time history).
Proof.
  intros H. unfold timestamps, lastN. rewrite H. unfold lastN.
  now rewrite skipn_map, length_map.
Qed.

Lemma time_sampleOf (frames : list (Position * Z * Z)) :
  map time (map sampleOf frames) = map clockOf frames.
Proof.
  rewrite map_map. apply map_ext. now intros [[position t1] t2].
Qed.

End WindowInvariant.

(** C8, as the code has it.  Along every run from the constructor the
    position window holds at most 10 samples and the velocity history at
    most 5 velocities, and the position window is the 10 most recent
    samples in arrival order (the oldest is the one evicted).  One call of
    [updateBallTracking] keeps both bounds for any tracker that satisfies
    them, whatever its capacity, and a velocity that enters the history
    pushes out the oldest one.  The timestamps of the window are the
    readings of the clock as they came: they increase strictly when the
    readings do. *)
Theorem C8_windows_are_bounded_fifo :
  (forall frames : list (BallDetector.Position * Z * Z),
      exists d',
        BallDetector.run BallDetector.constructor frames = Some d'
        /\ (length (BallDetector.ballPositions d') <= 10)%nat
        /\ (length (BallDetector.velocityHistory d') <= 5)%nat
        /\ BallDetector.ballPositions d'
           = Window.lastN 10 (map BallDetector.sampleOf frames)
        /\ (Window.strictlyIncreasing (map BallDetector.clockOf frames) ->
            Window.strictlyIncreasing (BallDetector.timestamps d')))
  /\
  (forall (n : nat) (d d' : BallDetector.t)
          (position : BallDetector.Position) (currentTime now : Z),
      BallDetector.maxPositionHistory d = Z.of_nat n ->
      (length (BallDetector.ballPositions d) <= n)%nat ->
      (length (BallDetector.velocityHistory d) <= 5)%nat ->
      BallDetector.updateBallTracking d position currentTime now = Some d' ->
      (length (BallDetector.ballPositions d') <= n)%nat
      /\ (length (BallDetector.velocityHistory d') <= 5)%nat
      /\ BallDetector.ballPositions d'
         = Window.lastN n (BallDetector.ballPositions d
                           ++ [BallDetector.newSample position currentTime])
      /\ (BallDetector.velocityHistory d' = BallDetector.velocityHistory d
          \/ exists v,
              BallDetector.velocityHistory d'
              = Window.lastN 5 (BallDetector.velocityHistory d ++ [v]))
      /\ (Window.strictlyIncreasing
            (BallDetector.timestamps d ++ [currentTime]) ->
          Window.strictlyIncreasing (BallDetector.timestamps d'))).
Proof.
  split.
  - intros frames.
    destruct (run_windows 10 frames BallDetector.constructor [])
      as (d' & Hrun & _ & Hw & Hv); try reflexivity.
    { cbn. lia. }
    cbn [app] in Hw.
    exists d'. split; [exact Hrun|].
    split; [rewrite Hw; apply length_lastN|].
    split; [exact Hv|]. split; [exact Hw|].
    intros Hclock.
    rewrite (timestamps_lastN 10 d' _ Hw), time_sampleOf.
    now apply strictlyIncreasing_skipn.
  - intros n d d' position currentTime now Hcap Hlen Hv Hrun.
    destruct (updateBallTracking_windows _ _ _ _ _ Hrun) as (Hw & _ & Hv').
    rewrite (pushPosition_lastN d _ n Hcap Hlen) in Hw.
    split; [rewrite Hw; apply length_lastN|].
    split.
    { destruct Hv' as [-> | (v & ->)]; [exact Hv|].
      rewrite pushVelocity_lastN by exact Hv. apply length_lastN. }
    split; [exact Hw|].
    split.
    { destruct Hv' as [-> | (v & ->)]; [now left|].
      right. exists v. now apply pushVelocity_lastN. }
    intros Hclock.
    rewrite (timestamps_lastN n d' _ Hw), map_app.
    now apply strictlyIncreasing_skipn.
Qed.

(** C8 as stated fails: two frames that read the same millisecond are
    both stored, and the timestamps of the window do not increase
    strictly. *)
Lemma C8_same_millisecond_is_stored :
  exists d',
    BallDetector.run BallDetector.constructor
      [ (BallDetector.ballAt 100, 2000, 2000);
        (BallDetector.ballAt 101, 2000, 2000) ]%Z
    = Some d'
    /\ BallDetector.timestamps d' = [2000; 2000]%Z
    /\ ~ Window.strictlyIncreasing (BallDetector.timestamps d').
Proof.
  eexists. split; [reflexivity|]. split; [reflexivity|].
  cbn. unfold Window.strictlyIncreasing. intros H.
  inversion H as [|t0 rest _ Hall]; subst.
  inversion Hall as [|t1 rest' Hlt _]; subst. lia.
Qed.

(** C8 on eleven frames, 16 ms apart: the first sample is the one that
    leaves the window. *)
Lemma C8_eleven_frames :
  exists d',
    BallDetector.run BallDetector.constructor
      (map (fun k => (BallDetector.ballAt (IZR k), 16 * k, 16 * k)%Z)
           [1; 2; 3; 4; 5; 6; 7; 8; 9; 10; 11]%Z)
    = Some d'
    /\ (length (BallDetector.ballPositions d') <= 10)%nat
    /\ BallDetector.timestamps d'
       = [32; 48; 64; 80; 96; 112; 128; 144; 160; 176]%Z
    /\ Window.strictlyIncreasing (BallDetector.timestamps d')
    /\ exists d3,
        BallDetector.updateBallTracking BallDetector.afterTwoFrames
          (BallDetector.ballAt 100) 2200 2200 = Some d3
        /\ (length (BallDetector.ballPositions d3) <= 10)%nat
        /\ (length (BallDetector.velocityHistory d3) <= 5)%nat.
Proof.
  destruct (updateBallTracking_total BallDetector.afterTwoFrames
              (BallDetector.ballAt 100) 2200 2200) as (d3 & Hrun3).
  destruct (proj2 C8_windows_are_bounded_fifo 10%nat
              BallDetector.afterTwoFrames d3 (BallDetector.ballAt 100)
              2200%Z 2200%Z eq_refl) as (Hlen3 & Hv3 & _);
    [cbn; lia | cbn; lia | exact Hrun3 |].
  destruct (proj1 C8_windows_are_bounded_fifo
              (map (fun k => (BallDetector.ballAt (IZR k), 16 * k, 16 * k)%Z)
                   [1; 2; 3; 4; 5; 6; 7; 8; 9; 10; 11]%Z))
    as (d' & Hrun & Hlen & _ & Hw & Hinc).
  exists d'. split; [exact Hrun|]. split; [exact Hlen|].
  split; [|split].
  - unfold BallDetector.timestamps. rewrite Hw. reflexivity.
  - apply Hinc. cbn. unfold Window.strictlyIncreasing.
    repeat (constructor; [|repeat (constructor; try lia)]). constructor.
  - exists d3. auto.
Defined.

(** ** The rep counters *)

Section Tracked.
Import JS Pose.

Lemma tracked_poseOf (shoulder elbow wrist : Landmark) :
  tracked (poseOf shoulder elbow wrist) = Some (shoulder, elbow, wrist).
Proof. reflexivity. Qed.

Lemma calculateAngle_straight (shoulder elbow wrist : Landmark) :
  y shoulder = y elbow -> y wrist = y elbow ->
  x shoulder < x elbow -> x elbow < x wrist ->
  calculateAngle shoulder elbow wrist = 180.
Proof.
  intros Hs Hw Hse Hew. unfold calculateAngle.
  rewrite Hs, Hw, Rminus_diag.
  rewrite Math_atan2_right, Math_atan2_left by lra.
  pose proof PI_RGT_0 as Hpi.
  replace ((0 - PI) * 180 / PI) with (Ropp 180) by (field; lra).
  unfold Math_abs. rewrite Rabs_Ropp, Rabs_right by lra.
  assert (E : gt 180 180 = false) by (apply gt_false; lra).
  now rewrite E.
Qed.

End Tracked.

Section FirstRevision.
Import JS Pose RepCounter1.

Lemma onResults1_tracked (s : t) (results : Results)
      (shoulder elbow wrist : Landmark) :
  tracked results = Some (shoulder, elbow, wrist) ->
  onResults s results
  = transition {| repCount := repCount s; repCounterText := repCounterText s;
                  state := state s; lastHandPos := Some (x wrist, y wrist) |}
               (wristVelocity s wrist)
               (calculateAngle shoulder elbow wrist) shoulder wrist.
Proof.
  unfold tracked, onResults. destruct (poseLandmarks results); [|discriminate].
  destruct (nth_error l 12), (nth_error l 14), (nth_error l 16);
    try discriminate.
  now intros [= -> -> ->].
Qed.

Lemma onResults1_untracked (s : t) (results : Results) :
  tracked results = None -> onResults s results = s.
Proof.
  unfold tracked, onResults. destruct (poseLandmarks results); [|reflexivity].
  destruct (nth_error l 12), (nth_error l 14), (nth_error l 16);
    try discriminate; reflexivity.
Qed.

(** A frame changes the counter only by completing a rep: the machine
    was in [CATCHING] and the wrist is back at the shoulder. *)
Lemma onResults1_repCount (s : t) (results : Results) :
  (repCount (onResults s results) = repCount s /\
   (state s = CATCHING -> returned results -> False))
  \/ (state s = CATCHING /\ returned results
      /\ state (onResults s results) = READY
      /\ repCount (onResults s results) = (repCount s + 1)%Z).
Proof.
  destruct (tracked results) as [[[shoulder elbow] wrist]|] eqn:Htr.
  - rewrite (onResults1_tracked s results shoulder elbow wrist Htr).
    unfold transition. cbn [state repCount lastHandPos repCounterText].
    destruct (state s) eqn:Hst.
    + left. split; [|discriminate]. now destruct (_ && _).
    + left. split; [|discriminate]. now destruct (lt _ _).
    + destruct (lt (distanceToShoulder wrist shoulder) (2 / 10)) eqn:Hd.
      * right. apply lt_true in Hd. repeat split; try reflexivity.
        now exists shoulder, elbow, wrist.
      * left. split; [reflexivity|]. intros _ (sh & el & wr & Htr' & Hlt).
        rewrite Htr in Htr'. injection Htr' as <- <- <-.
        apply lt_false in Hd. lra.
  - rewrite onResults1_untracked by assumption. left. split; [reflexivity|].
    intros _ (sh & el & wr & Htr' & _). congruence.
Qed.

(** Without a frame in which the wrist is back, the counter stays. *)
Lemma run1_no_return (frames : list Results) :
  forall s : t,
    Forall (fun results => ~ returned results) frames ->
    repCount (run s frames) = repCount s.
Proof.
  induction frames as [|results rest IH]; intros s Hall; [reflexivity|].
  inversion Hall as [|? ? Hno Hrest]; subst. cbn [run fold_left].
  change (fold_left onResults rest (onResults s results))
    with (run (onResults s results) rest).
  rewrite IH by assumption.
  destruct (onResults1_repCount s results) as [[H _] | (_ & Hret & _)];
    [exact H | contradiction].
Qed.

(** A stored previous position is what makes the machine leave [READY]:
    the state can only be [READY] while none is stored. *)
Lemma run1_no_position_ready (frames : list Results) :
  forall s : t,
    (lastHandPos s = None -> state s = READY) ->
    lastHandPos (run s frames) = None -> state (run s frames) = READY.
Proof.
  induction frames as [|results rest IH]; intros s Hinv; [exact Hinv|].
  cbn [run fold_left].
  change (fold_left onResults rest (onResults s results))
    with (run (onResults s results) rest).
  apply IH.
  destruct (tracked results) as [[[shoulder elbow] wrist]|] eqn:Htr.
  - rewrite (onResults1_tracked s results shoulder elbow wrist Htr).
    unfold transition. cbn [state repCount lastHandPos repCounterText].
    destruct (state s); [destruct (_ && _) | destruct (lt _ _) | destruct (lt _ _)];
      cbn; discriminate.
  - now rewrite onResults1_untracked.
Qed.

(** On the first tracked sample the velocity is zero and [READY] stays. *)
Lemma onResults1_first_sample (s : t) (results : Results) :
  lastHandPos s = None -> state s = READY ->
  state (onResults s results) = READY
  /\ repCount (onResults s results) = repCount s.
Proof.
  intros Hnone Hready.
  destruct (tracked results) as [[[shoulder elbow] wrist]|] eqn:Htr.
  - rewrite (onResults1_tracked s results shoulder elbow wrist Htr).
    unfold transition, wristVelocity. rewrite Hnone.
    cbn [state repCount lastHandPos repCounterText fst]. rewrite Hready.
    assert (E : gt 0 throwThreshold = false).
    { apply gt_false. unfold throwThreshold. lra. }
    rewrite E. cbn. now split.
  - rewrite onResults1_untracked by assumption. now split.
Qed.

End FirstRevision.

(** ** The scripts *)

Section SecondRevision.
Import RepCounter2.

Lemma script1_accepted : Script.earlyErrors RepCounter1.script = [].
Proof. reflexivity. Qed.

(** The second script declares [elbow] and [wrist] twice in one block,
    and has no other early error. *)
Lemma script2_rejected :
  Script.earlyErrors script
  = [ ("elbow"%string, 265%nat, 290%nat); ("wrist"%string, 266%nat, 291%nat) ].
Proof. reflexivity. Qed.

Variable Env : Type.
Variable initial : Env.
Variable handle : Event -> Env * Display -> Env * Display.

Lemma load_rejected (html : Display) : load initial html = mkPage None html.
Proof. reflexivity. Qed.

Lemma dispatch_without_code (html : Display) (e : Event) :
  dispatch handle (mkPage None html) e = mkPage None html.
Proof. reflexivity. Qed.

(** The page of the second revision never changes. *)
Lemma run2_not_loaded (html : Display) (events : list Event) :
  run handle (load initial html) events = mkPage None html.
Proof.
  rewrite load_rejected.
  induction events as [|e rest IH]; [reflexivity|].
  cbn [run fold_left]. rewrite dispatch_without_code. exact IH.
Qed.

End SecondRevision.


(** ** One throw and catch *)

Section Cycle.
Import JS Pose Scenario.

Lemma angle_stretched : calculateAngle shoulder elbow handStretched = 180.
Proof. apply calculateAngle_straight; cbn; lra. Qed.

Lemma angle_bent : calculateAngle shoulder elbow handAtShoulder = 0.
Proof.
  unfold calculateAngle. cbn [x y shoulder elbow handAtShoulder].
  rewrite Rminus_diag.
  replace (0 * 180 / PI) with 0 by (unfold Rdiv; ring).
  unfold Math_abs. rewrite Rabs_R0.
  assert (E : gt 0 180 = false) by (apply gt_false; lra).
  now rewrite E.
Qed.

Lemma distance_bent : distanceToShoulder handAtShoulder shoulder = 0.
Proof.
  unfold distanceToShoulder, Math_sqrt, Math_pow.
  cbn [x y shoulder handAtShoulder].
  replace ((3 / 10 - 3 / 10) ^ 2 + (5 / 10 - 5 / 10) ^ 2) with 0 by lra.
  apply sqrt_0.
Qed.

Lemma distance_stretched : distanceToShoulder handStretched shoulder = 2 / 10.
Proof.
  unfold distanceToShoulder, Math_sqrt, Math_pow.
  cbn [x y shoulder handStretched].
  replace ((5 / 10 - 3 / 10) ^ 2 + (5 / 10 - 5 / 10) ^ 2)
    with (2 / 10 * (2 / 10)) by lra.
  apply sqrt_square. lra.
Qed.

Lemma not_returned1_stretched : ~ RepCounter1.returned stretched.
Proof.
  intros (sh & el & wr & Htr & Hlt).
  unfold stretched in Htr. rewrite tracked_poseOf in Htr.
  injection Htr as <- <- <-. rewrite distance_stretched in Hlt. lra.
Qed.

End Cycle.


(** ** No timeout in the first revision *)

Section NoTimeout.
Import JS Pose RepRuns.

(** A frame never takes the machine backwards. *)
Lemma onResults1_forward (s : RepCounter1.t) (results : Results) :
  (progress1 s <= progress1 (RepCounter1.onResults s results))%Z.
Proof.
  unfold progress1.
  destruct (tracked results) as [[[shoulder elbow] wrist]|] eqn:Htr.
  - rewrite (onResults1_tracked s results shoulder elbow wrist Htr).
    unfold RepCounter1.transition.
    cbn [RepCounter1.state RepCounter1.repCount].
    destruct (RepCounter1.state s);
      [destruct (_ && _) | destruct (lt _ _) | destruct (lt _ _)];
      cbn [RepCounter1.state RepCounter1.repCount phase]; lia.
  - rewrite onResults1_untracked by assumption. lia.
Qed.

Lemma run1_forward (frames : list Results) :
  forall s : RepCounter1.t,
    (progress1 s <= progress1 (RepCounter1.run s frames))%Z.
Proof.
  induction frames as [|results rest IH]; intros s; [cbn; lia|].
  cbn [RepCounter1.run fold_left].
  change (fold_left RepCounter1.onResults rest (RepCounter1.onResults s results))
    with (RepCounter1.run (RepCounter1.onResults s results) rest).
  pose proof (onResults1_forward s results).
  pose proof (IH (RepCounter1.onResults s results)). lia.
Qed.

(** The machine is back in [READY] only with a rep counted. *)
Lemma run1_ready_counts (frames : list Results) (s : RepCounter1.t) :
  RepCounter1.state s <> READY ->
  RepCounter1.repCount (RepCounter1.run s frames) = RepCounter1.repCount s ->
  RepCounter1.state (RepCounter1.run s frames) <> READY.
Proof.
  intros Hst Hcount Hready.
  pose proof (run1_forward frames s) as H. unfold progress1 in H.
  rewrite Hcount, Hready in H.
  destruct (RepCounter1.state s); [now apply Hst | |]; cbn [phase] in H; lia.
Qed.

End NoTimeout.

(** C3, as the first revision has it: there is no timeout.  [onResults]
    reads no clock.  A frame takes the machine from [THROWING] or
    [CATCHING] back to [READY] exactly when it completes a rep, the
    machine catching and the wrist back at the shoulder; so after any
    number of frames a machine that was not in [READY] is not in [READY]
    unless a rep has been counted, and stays out of [READY] for as long
    as no frame shows the wrist back, whatever the frames show and
    however much time passes between them. *)
Theorem C3_first_revision_has_no_timeout :
  (forall (s : RepCounter1.t) (results : Pose.Results),
      RepCounter1.state s <> Pose.READY ->
      (RepCounter1.state (RepCounter1.onResults s results) = Pose.READY
       <-> RepCounter1.state s = Pose.CATCHING
           /\ RepCounter1.returned results))
  /\
  (forall (frames : list Pose.Results) (s : RepCounter1.t),
      RepCounter1.state s <> Pose.READY ->
      RepCounter1.repCount (RepCounter1.run s frames) = RepCounter1.repCount s ->
      RepCounter1.state (RepCounter1.run s frames) <> Pose.READY)
  /\
  (forall (frames : list Pose.Results) (s : RepCounter1.t),
      RepCounter1.state s <> Pose.READY ->
      Forall (fun results => ~ RepCounter1.returned results) frames ->
      RepCounter1.state (RepCounter1.run s frames) <> Pose.READY).
Proof.
  split; [|split].
  - intros s results Hst.
    destruct (onResults1_repCount s results)
      as [(Hcount & Hno) | (Hcatching & Hret & Hready & _)].
    + split.
      * intros Hready. exfalso.
        apply (run1_ready_counts [results] s Hst Hcount Hready).
      * intros (Hcatching & Hret). exfalso. now apply Hno.
    + split; [intros _; now split | intros _; exact Hready].
  - exact run1_ready_counts.
  - intros frames s Hst Hall.
    apply run1_ready_counts; [exact Hst|]. now apply run1_no_return.
Qed.

(** C3 as stated fails on the first revision, which reads no clock: in
    [THROWING], a frame in which the hand does not move leaves the machine
    in [THROWING], however long ago it entered that state. *)
Lemma C3_first_revision_never_times_out :
  RepCounter1.state (RepCounter1.onResults Scenario.throwing1 Scenario.stretched)
  = Pose.THROWING.
Proof.
  unfold Scenario.stretched.
  rewrite (onResults1_tracked _ _ _ _ _ (tracked_poseOf _ _ _)).
  unfold RepCounter1.transition, RepCounter1.wristVelocity.
  cbn [RepCounter1.state RepCounter1.lastHandPos Scenario.throwing1 fst snd
       Pose.x Pose.y Scenario.handStretched].
  assert (E : JS.lt (5 / 10 - 5 / 10) (- RepCounter1.throwThreshold) = false).
  { apply lt_false. unfold RepCounter1.throwThreshold. lra. }
  rewrite E. reflexivity.
Qed.

(** C3 on the first revision in [THROWING]: the stretched arm, a frame
    without a pose and the stretched arm again, however far apart, leave
    the machine out of [READY]. *)
Lemma C3_throw_is_never_dropped :
  RepCounter1.state
    (RepCounter1.run Scenario.throwing1
       [ Scenario.stretched; Pose.mkResults None; Scenario.stretched ])
  <> Pose.READY.
Proof.
  apply (proj2 (proj2 C3_first_revision_has_no_timeout)
           [ Scenario.stretched; Pose.mkResults None; Scenario.stretched ]
           Scenario.throwing1).
  - discriminate.
  - repeat constructor.
    + exact not_returned1_stretched.
    + intros (sh & el & wr & Htr & _). discriminate.
    + exact not_returned1_stretched.
Defined.

(** ** The first sample *)

Section FirstSample.
Import JS Pose.

Lemma not_throws1_first (s : RepCounter1.t) (shoulder elbow wrist : Landmark) :
  RepCounter1.lastHandPos s = None ->
  ~ RepCounter1.throws s shoulder elbow wrist.
Proof.
  intros Hnone (H & _). unfold RepCounter1.wristVelocity in H.
  rewrite Hnone in H. cbn in H. unfold RepCounter1.throwThreshold in H. lra.
Qed.

(** The first revision, started, sees the bent arm and then the
    stretched arm: the second sample is a throw. *)
Lemma run1_bent_stretched :
  RepCounter1.run RepCounter1.init [ Scenario.bent; Scenario.stretched ]
  = Scenario.throwing1.
Proof.
  cbn [RepCounter1.run fold_left].
  assert (H1 : RepCounter1.onResults RepCounter1.init Scenario.bent
               = {| RepCounter1.repCount := 0; RepCounter1.repCounterText := 0;
                    RepCounter1.state := READY;
                    RepCounter1.lastHandPos := Some (3 / 10, 5 / 10) |}).
  { unfold Scenario.bent.
    rewrite (onResults1_tracked _ _ _ _ _ (tracked_poseOf _ _ _)).
    unfold RepCounter1.transition, RepCounter1.wristVelocity.
    cbn [RepCounter1.state RepCounter1.lastHandPos RepCounter1.init fst].
    assert (E : gt 0 RepCounter1.throwThreshold = false).
    { apply gt_false. unfold RepCounter1.throwThreshold. lra. }
    rewrite E. reflexivity. }
  rewrite H1. unfold Scenario.stretched.
  rewrite (onResults1_tracked _ _ _ _ _ (tracked_poseOf _ _ _)).
  unfold RepCounter1.transition, RepCounter1.wristVelocity.
  cbn [RepCounter1.state RepCounter1.lastHandPos fst].
  assert (E1 : gt (x Scenario.handStretched - 3 / 10) RepCounter1.throwThreshold
               = true).
  { apply gt_true. unfold RepCounter1.throwThreshold. cbn. lra. }
  assert (E2 : gt (calculateAngle Scenario.shoulder Scenario.elbow
                                  Scenario.handStretched) 100 = true).
  { apply gt_true. rewrite angle_stretched. lra. }
  rewrite E1, E2. reflexivity.
Qed.

End FirstSample.



(** ** Consistency and reset *)



(** ** The model on concrete values *)

Section Examples.
Import JS Pose Scenario.

(** The first revision from the start: the bent arm, the stretch, the
    reversal and the return count one rep and end in [READY]. *)
Example run1_first_rep :
  RepCounter1.run RepCounter1.init [ bent; stretched; halfWay; bent ]
  = {| RepCounter1.repCount := 1; RepCounter1.repCounterText := 1;
       RepCounter1.state := READY;
       RepCounter1.lastHandPos := Some (3 / 10, 5 / 10) |}.
Proof.
  change [ bent; stretched; halfWay; bent ]
    with ([ bent; stretched ] ++ [ halfWay; bent ]).
  unfold RepCounter1.run. rewrite fold_left_app.
  fold (RepCounter1.run RepCounter1.init [ bent; stretched ]).
  rewrite run1_bent_stretched. cbn [fold_left].
  assert (H3 : RepCounter1.onResults throwing1 halfWay
               = {| RepCounter1.repCount := 0; RepCounter1.repCounterText := 0;
                    RepCounter1.state := CATCHING;
                    RepCounter1.lastHandPos := Some (45 / 100, 5 / 10) |}).
  { unfold halfWay.
    rewrite (onResults1_tracked _ _ _ _ _ (tracked_poseOf _ _ _)).
    unfold RepCounter1.transition, RepCounter1.wristVelocity.
    cbn [RepCounter1.state RepCounter1.lastHandPos throwing1 fst].
    assert (E : lt (x handHalfWay - 5 / 10) (- RepCounter1.throwThreshold)
                = true).
    { apply lt_true. unfold RepCounter1.throwThreshold. cbn. lra. }
    rewrite E. reflexivity. }
  rewrite H3. fold catching1. unfold bent.
  rewrite (onResults1_tracked _ _ _ _ _ (tracked_poseOf _ _ _)).
  unfold RepCounter1.transition.
  cbn [RepCounter1.state RepCounter1.repCount catching1].
  assert (E : lt (distanceToShoulder handAtShoulder shoulder) (2 / 10) = true).
  { apply lt_true. rewrite distance_bent. lra. }
  rewrite E. reflexivity.
Qed.

(** A right angle, measured on either side of the fold at 180 degrees. *)
Example calculateAngle_right_angles :
  calculateAngle (mkLandmark 0 1 0) (mkLandmark 0 0 0) (mkLandmark 1 0 0) = 90
  /\ calculateAngle (mkLandmark (-1) 0 0) (mkLandmark 0 0 0) (mkLandmark 0 (-1) 0)
     = 90.
Proof.
  pose proof PI_RGT_0 as Hpi.
  assert (Hup : Math_atan2 1 0 = PI / 2).
  { unfold Math_atan2. destruct (Rlt_dec 0 0); [lra|].
    destruct (Rlt_dec 0 1); [reflexivity | lra]. }
  assert (Hdown : Math_atan2 (-1) 0 = - (PI / 2)).
  { unfold Math_atan2. destruct (Rlt_dec 0 0); [lra|].
    destruct (Rlt_dec 0 (-1)); [lra|].
    destruct (Rlt_dec (-1) 0); [reflexivity | lra]. }
  split; unfold calculateAngle; cbn [x y].
  - replace (0 - 0) with 0 by lra. replace (1 - 0) with 1 by lra.
    rewrite Hup, (Math_atan2_right 1) by lra.
    replace ((0 - PI / 2) * 180 / PI) with (Ropp 90) by (field; lra).
    unfold Math_abs. rewrite Rabs_Ropp, Rabs_right by lra.
    assert (E : gt 90 180 = false) by (apply gt_false; lra).
    now rewrite E.
  - replace (0 - 0) with 0 by lra. replace (-1 - 0) with (-1) by lra.
    rewrite Hdown, (Math_atan2_left (-1)) by lra.
    replace ((- (PI / 2) - PI) * 180 / PI) with (Ropp 270) by (field; lra).
    unfold Math_abs. rewrite Rabs_Ropp, Rabs_right by lra.
    assert (E : gt 270 180 = true) by (apply gt_true; lra).
    rewrite E. lra.
Qed.

End Examples.

(** * Further properties of the code *)

(** ** Velocity and direction *)

Section Kinematics.
Import JS BallDetector.

Lemma seq_false (a b : R) : seq a b = false <-> a <> b.
Proof. unfold seq. destruct (Req_dec_T a b); split; intros; try easy. Qed.

(** The magnitude of a velocity is zero exactly when nothing moved or no
    time passed. *)
Lemma magnitude_zero_iff (pos1 pos2 : Sample) :
  magnitude (calculateVelocity pos1 pos2) = 0
  <-> time pos1 = time pos2 \/ (x pos1 = x pos2 /\ y pos1 = y pos2).
Proof.
  unfold calculateVelocity.
  destruct (Z.eqb_spec (time pos2 - time pos1) 0) as [E | E].
  - cbn. split; [intros _; left; lia | reflexivity].
  - cbn [magnitude]. unfold Math_sqrt.
    assert (Hd : IZR (time pos2 - time pos1) <> 0) by now apply not_0_IZR.
    set (dt := IZR (time pos2 - time pos1)) in *.
    set (vx := (x pos2 - x pos1) / dt * 1000).
    set (vy := (y pos2 - y pos1) / dt * 1000).
    assert (Hsq : 0 <= vx * vx + vy * vy) by nra.
    split.
    + intros H0. right. apply sqrt_eq_0 in H0; [|exact Hsq].
      assert (Hvx : vx = 0) by nra. assert (Hvy : vy = 0) by nra.
      unfold vx, vy in Hvx, Hvy.
      assert (Hx : (x pos2 - x pos1) / dt * 1000 * dt = (x pos2 - x pos1) * 1000)
        by (field; exact Hd).
      assert (Hy : (y pos2 - y pos1) / dt * 1000 * dt = (y pos2 - y pos1) * 1000)
        by (field; exact Hd).
      rewrite Hvx in Hx. rewrite Hvy in Hy. lra.
    + intros [Ht | [Hx Hy]]; [lia|].
      unfold vx, vy. rewrite Hx, Hy, !Rminus_diag.
      unfold Rdiv. rewrite !Rmult_0_l, Rplus_0_l. apply sqrt_0.
Qed.

End Kinematics.

(** X1: the direction change between two velocities lies in [[0, 180]]
    degrees and does not depend on the order of the two velocities. *)
Theorem X1_calculateDirectionChange_range_and_symmetry :
  forall velocity1 velocity2 : BallDetector.Velocity,
    0 <= BallDetector.calculateDirectionChange velocity1 velocity2 <= 180
    /\ BallDetector.calculateDirectionChange velocity1 velocity2
       = BallDetector.calculateDirectionChange velocity2 velocity1.
Proof.
  intros v1 v2. unfold BallDetector.calculateDirectionChange.
  rewrite (orb_comm (JS.seq (BallDetector.magnitude v2) 0)).
  destruct (JS.seq (BallDetector.magnitude v1) 0
            || JS.seq (BallDetector.magnitude v2) 0); [split; [lra|reflexivity]|].
  unfold JS.Math_abs.
  rewrite (Rabs_minus_sym
             (JS.Math_atan2 (BallDetector.vy v1) (BallDetector.vx v1))).
  split; [|reflexivity].
  apply fold_degrees_range.
  pose proof (degrees_of_difference
                (BallDetector.vy v1) (BallDetector.vx v1)
                (BallDetector.vy v2) (BallDetector.vx v2)) as H.
  replace (Rabs (JS.Math_atan2 (BallDetector.vy v2) (BallDetector.vx v2)
                 - JS.Math_atan2 (BallDetector.vy v1) (BallDetector.vx v1))
           * 180 / PI)
    with (Rabs ((JS.Math_atan2 (BallDetector.vy v2) (BallDetector.vx v2)
                 - JS.Math_atan2 (BallDetector.vy v1) (BallDetector.vx v1))
                * 180 / PI)); [exact H|].
  pose proof PI_RGT_0 as Hpi.
  unfold Rdiv. rewrite !Rabs_mult.
  rewrite (Rabs_right 180) by lra.
  rewrite (Rabs_right (/ PI)); [reflexivity|].
  apply Rle_ge. left. now apply Rinv_0_lt_compat.
Qed.

(** X2: the velocity between two samples is zero exactly when the two
    samples have the same timestamp or the same position; and swapping
    the two samples gives the same velocity, since displacement and
    elapsed time both change sign. *)
Theorem X2_calculateVelocity_zero_and_swap :
  forall pos1 pos2 : BallDetector.Sample,
    let v := BallDetector.calculateVelocity pos1 pos2 in
    (BallDetector.magnitude v = 0
     <-> BallDetector.time pos1 = BallDetector.time pos2
         \/ (BallDetector.x pos1 = BallDetector.x pos2
             /\ BallDetector.y pos1 = BallDetector.y pos2))
    /\ BallDetector.calculateVelocity pos2 pos1 = v.
Proof.
  intros pos1 pos2 v. subst v.
  split.
  - apply magnitude_zero_iff.
  - unfold BallDetector.calculateVelocity.
    destruct (Z.eqb_spec (BallDetector.time pos2 - BallDetector.time pos1) 0)
      as [E | E];
      destruct (Z.eqb_spec (BallDetector.time pos1 - BallDetector.time pos2) 0)
        as [E' | E']; try lia; [reflexivity|].
    assert (Hd : IZR (BallDetector.time pos2 - BallDetector.time pos1) <> 0)
      by now apply not_0_IZR.
    replace (BallDetector.time pos1 - BallDetector.time pos2)%Z
      with (- (BallDetector.time pos2 - BallDetector.time pos1))%Z by lia.
    rewrite opp_IZR.
    set (dt := IZR (BallDetector.time pos2 - BallDetector.time pos1)) in *.
    replace ((BallDetector.x pos1 - BallDetector.x pos2) / - dt * 1000)
      with ((BallDetector.x pos2 - BallDetector.x pos1) / dt * 1000)
      by (field; exact Hd).
    replace ((BallDetector.y pos1 - BallDetector.y pos2) / - dt * 1000)
      with ((BallDetector.y pos2 - BallDetector.y pos1) / dt * 1000)
      by (field; exact Hd).
    reflexivity.
Qed.

(** ** Runs of the hit detector *)

Section BallAtRest.
Import JS BallDetector BallRuns.

Lemma pushPosition_Forall (P : Sample -> Prop) (d : t) (s : Sample) :
  Forall P (ballPositions d) -> P s ->
  Forall P (ballPositions (pushPosition d s)).
Proof.
  intros Hw Hs.
  assert (Hall : Forall P (ballPositions d ++ [s])).
  { apply Forall_app. split; [exact Hw | now constructor]. }
  unfold pushPosition, push, shift.
  cbn [set_ballPositions ballPositions maxPositionHistory].
  destruct (_ <? _)%Z; cbn [ballPositions set_ballPositions]; [|exact Hall].
  destruct (ballPositions d ++ [s]); [constructor|]. now inversion Hall.
Qed.

Lemma hitTest_at_rest (d : t) (a b c : Sample) (now : Z) :
  magnitude (calculateVelocity a b) = 0 ->
  magnitude (calculateVelocity b c) = 0 ->
  thresholdsNonNegative d ->
  hitTest d a b c now = false.
Proof.
  intros Hab Hbc [Hdir Hspeed].
  unfold hitTest, isSignificantDirectionChange, isSignificantSpeedChange.
  unfold calculateDirectionChange. rewrite Hab, Hbc, seq_refl. cbn [orb].
  unfold Math_abs. rewrite Rminus_diag, Rabs_R0.
  rewrite (proj2 (gt_false 0 _) Hdir), (proj2 (gt_false 0 _) Hspeed).
  reflexivity.
Qed.

(** The same velocity twice in a row is no hit. *)
Lemma hitTest_steady (d : t) (a b c : Sample) (now : Z) :
  calculateVelocity a b = calculateVelocity b c ->
  thresholdsNonNegative d ->
  hitTest d a b c now = false.
Proof.
  intros Heq [Hdir Hspeed].
  unfold hitTest, isSignificantDirectionChange, isSignificantSpeedChange.
  rewrite Heq.
  assert (Hdc : calculateDirectionChange (calculateVelocity b c)
                                         (calculateVelocity b c) = 0).
  { unfold calculateDirectionChange.
    destruct (_ || _); [reflexivity|].
    rewrite Rminus_diag. unfold Math_abs. rewrite Rabs_R0.
    replace (0 * 180 / PI) with 0 by (unfold Rdiv; ring).
    now rewrite (proj2 (gt_false 0 180)) by lra. }
  rewrite Hdc. unfold Math_abs. rewrite Rminus_diag, Rabs_R0.
  rewrite (proj2 (gt_false 0 _) Hdir), (proj2 (gt_false 0 _) Hspeed).
  reflexivity.
Qed.

Lemma thresholdsNonNegative_ext (d1 d2 : t) :
  sameConfiguration d1 d2 -> thresholdsNonNegative d2 -> thresholdsNonNegative d1.
Proof.
  intros (Hs & _ & Hv & Hd & _). unfold thresholdsNonNegative.
  now rewrite Hs, Hv, Hd.
Qed.

(** What one frame does to counter and [lastHitTime], by the size of
    the window after the push. *)
Lemma updateBallTracking_short_count (d d' : t) (position : Position) (t1 t2 : Z) :
  (len (ballPositions (pushPosition d (newSample position t1))) < 3)%Z ->
  updateBallTracking d position t1 t2 = Some d' ->
  hitCount d' = hitCount d /\ lastHitTime d' = lastHitTime d.
Proof.
  intros H Hrun. rewrite updateBallTracking_short in Hrun by assumption.
  injection Hrun as <-. cbn.
  destruct (pushPosition_frame d (newSample position t1)) as (Hc & Hl & _).
  now split.
Qed.

Lemma updateBallTracking_long_count (d d' : t) (position : Position) (t1 t2 : Z)
      (older : list Sample) (a b c : Sample) :
  ballPositions (pushPosition d (newSample position t1)) = older ++ [a; b; c] ->
  updateBallTracking d position t1 t2 = Some d' ->
  hitCount d' = (if hitTest d a b c t2 then hitCount d + 1 else hitCount d)%Z
  /\ lastHitTime d' = (if hitTest d a b c t2 then t2 else lastHitTime d).
Proof.
  intros Hw Hrun.
  rewrite (updateBallTracking_long _ _ _ _ older a b c Hw) in Hrun.
  cbn zeta in Hrun. rewrite hitTest_pushPosition in Hrun.
  destruct (pushPosition_frame d (newSample position t1)) as (Hc & Hl & _).
  injection Hrun as <-.
  destruct (hitTest d a b c t2); cbn; rewrite ?Hc; now split.
Qed.

(** One frame of a ball at rest. *)
Lemma updateBallTracking_at_rest (px py : R) (d d' : t) (frame : Position * Z * Z) :
  thresholdsNonNegative d ->
  Forall (sampleAt px py) (ballPositions d) ->
  foundAt px py frame ->
  updateBallTracking d (positionOf frame) (clockOf frame) (hitTimeOf frame)
  = Some d' ->
  hitCount d' = hitCount d
  /\ lastHitTime d' = lastHitTime d
  /\ thresholdsNonNegative d'
  /\ Forall (sampleAt px py) (ballPositions d').
Proof.
  intros Hthr Hw [Hx Hy] Hrun.
  destruct frame as [[position t1] t2]. cbn [positionOf clockOf hitTimeOf] in *.
  assert (Hw1 : Forall (sampleAt px py)
                  (ballPositions (pushPosition d (newSample position t1)))).
  { apply pushPosition_Forall; [exact Hw|]. now split. }
  destruct (updateBallTracking_windows _ _ _ _ _ Hrun) as (Hwin & _).
  destruct (updateBallTracking_cases _ _ _ _ _ Hrun) as (Hcfg & _).
  assert (Hthr' : thresholdsNonNegative d')
    by now apply (thresholdsNonNegative_ext d' d).
  rewrite Hwin.
  enough (Hsame : hitCount d' = hitCount d /\ lastHitTime d' = lastHitTime d)
    by (destruct Hsame; auto).
  destruct (Z.lt_ge_cases
              (len (ballPositions (pushPosition d (newSample position t1)))) 3)
    as [H | H].
  - now apply (updateBallTracking_short_count d d' position t1 t2).
  - destruct (ends_with_three _ H) as (older & a & b & c & Hw3).
    destruct (updateBallTracking_long_count d d' position t1 t2 older a b c
                Hw3 Hrun) as (Hc & Hl).
    rewrite Hw3 in Hw1. apply Forall_app in Hw1. destruct Hw1 as [_ Habc].
    inversion Habc as [|? ? [Hax Hay] Hbc]; subst.
    inversion Hbc as [|? ? [Hbx Hby] Hcc]; subst.
    inversion Hcc as [|? ? [Hcx Hcy] _]; subst.
    rewrite hitTest_at_rest in Hc, Hl; try exact Hthr;
      try (apply magnitude_zero_iff; right; split; congruence).
    now split.
Qed.

End BallAtRest.

(** X3: a ball that does not move is never counted.  When every sample
    in the window and every position found lie at one point, no frame
    registers a hit, whatever the readings of the clock, provided the
    thresholds are not negative (as [120], [50] and any sensitivity
    from 0 up are). *)
Theorem X3_ball_at_rest_never_hits :
  forall (px py : R) (frames : list (BallDetector.Position * Z * Z))
         (d : BallDetector.t),
    BallRuns.thresholdsNonNegative d ->
    Forall (BallRuns.sampleAt px py) (BallDetector.ballPositions d) ->
    Forall (BallRuns.foundAt px py) frames ->
    exists d',
      BallDetector.run d frames = Some d'
      /\ BallDetector.hitCount d' = BallDetector.hitCount d
      /\ BallDetector.lastHitTime d' = BallDetector.lastHitTime d.
Proof.
  intros px py. induction frames as [|frame rest IH]; intros d Hthr Hw Hall.
  - exists d. repeat split.
  - inversion Hall as [|? ? Hframe Hrest]; subst.
    destruct frame as [[position t1] t2].
    destruct (updateBallTracking_total d position t1 t2) as (d1 & Hrun).
    destruct (updateBallTracking_at_rest px py d d1 (position, t1, t2)
                Hthr Hw Hframe Hrun) as (Hc & Hl & Hthr1 & Hw1).
    destruct (IH d1 Hthr1 Hw1 Hrest) as (d' & Hrun' & Hc' & Hl').
    exists d'. cbn [BallDetector.run]. rewrite Hrun.
    repeat split; [exact Hrun' | congruence | congruence].
Qed.

(** X3 on a ball lying at (100, 0) for three frames within the same
    second, then seen again two seconds later. *)
Lemma X3_ball_lying_still :
  exists d',
    BallDetector.run BallDetector.constructor
      [ (BallDetector.ballAt 100, 2000, 2000);
        (BallDetector.ballAt 100, 2016, 2016);
        (BallDetector.ballAt 100, 2016, 2017);
        (BallDetector.ballAt 100, 4000, 4000) ]%Z = Some d'
    /\ BallDetector.hitCount d' = 0%Z.
Proof.
  destruct (X3_ball_at_rest_never_hits 100 0
              [ (BallDetector.ballAt 100, 2000, 2000);
                (BallDetector.ballAt 100, 2016, 2016);
                (BallDetector.ballAt 100, 2016, 2017);
                (BallDetector.ballAt 100, 4000, 4000) ]%Z
              BallDetector.constructor) as (d' & Hrun & Hc & _).
  - split; cbn; lra.
  - constructor.
  - repeat constructor.
  - exists d'. split; [exact Hrun | exact Hc].
Defined.

Section SteadyMotion.
Import JS BallDetector BallRuns.

Lemma velocitiesBetween_snoc (l : list Sample) (p s : Sample) :
  velocitiesBetween ((l ++ [p]) ++ [s])
  = velocitiesBetween (l ++ [p]) ++ [calculateVelocity p s].
Proof.
  induction l as [|a l IH]; [reflexivity|].
  destruct l as [|b l].
  - reflexivity.
  - cbn [app velocitiesBetween] in *. now rewrite IH.
Qed.

Lemma velocitiesBetween_tl (l : list Sample) :
  velocitiesBetween (tl l) = tl (velocitiesBetween l).
Proof. destruct l as [|a [|b l]]; reflexivity. Qed.

Lemma lastOf_snoc {A : Type} (l : list A) (v : A) : lastOf (l ++ [v]) = Some v.
Proof.
  unfold lastOf. rewrite length_app. cbn [length].
  rewrite nth_error_app2 by lia.
  now replace (length l + 1 - 1 - length l)%nat with 0%nat by lia.
Qed.

Lemma lastOf_tl {A : Type} (l : list A) (p : A) :
  lastOf (tl l) = Some p -> lastOf l = Some p.
Proof.
  destruct l as [|a l]; [easy|]. unfold lastOf. cbn [tl length].
  destruct l as [|b l]; [discriminate|]. cbn [length].
  now replace (S (S (length l)) - 1)%nat with (S (S (length l) - 1)) by lia.
Qed.

Lemma velocitiesBetween_last_three (P : Velocity -> Prop)
      (older : list Sample) (a b c : Sample) :
  Forall P (velocitiesBetween (older ++ [a; b; c])) ->
  P (calculateVelocity a b) /\ P (calculateVelocity b c).
Proof.
  induction older as [|o older IH]; intros H.
  - cbn in H. inversion H as [|? ? Hab Hrest]; subst.
    inversion Hrest; subst. now split.
  - apply IH. destruct older as [|o' older]; cbn [app velocitiesBetween] in H;
      now inversion H.
Qed.

Lemma pushPosition_steady (v : Velocity) (previous : option Sample)
      (d : t) (s : Sample) :
  steadyWindow v previous d ->
  match previous with
  | Some p => calculateVelocity p s = v
  | None => True
  end ->
  steadyWindow v (Some s) (pushPosition d s).
Proof.
  intros [Hall Hlast] Hnext.
  assert (Hpushed : Forall (eq v) (velocitiesBetween (ballPositions d ++ [s]))
                    /\ lastOf (ballPositions d ++ [s]) = Some s).
  { split; [|apply lastOf_snoc].
    destruct (ballPositions d) as [|a w] using rev_ind; [constructor|].
    rewrite velocitiesBetween_snoc. apply Forall_app. split; [exact Hall|].
    rewrite (Hlast a (lastOf_snoc w a)) in Hnext.
    constructor; [now symmetry | constructor]. }
  destruct Hpushed as [Hall' Hlast'].
  unfold steadyWindow, pushPosition, push, shift.
  cbn [set_ballPositions ballPositions maxPositionHistory].
  destruct (_ <? _)%Z; cbn [ballPositions set_ballPositions]; split.
  - rewrite velocitiesBetween_tl.
    destruct (velocitiesBetween (ballPositions d ++ [s])); [constructor|].
    now inversion Hall'.
  - intros p Hp. apply lastOf_tl in Hp. congruence.
  - exact Hall'.
  - intros p Hp. congruence.
Qed.

(** One frame of a ball in steady motion. *)
Lemma updateBallTracking_steady (v : Velocity) (previous : option Sample)
      (d d' : t) (position : Position) (t1 t2 : Z) :
  thresholdsNonNegative d ->
  steadyWindow v previous d ->
  match previous with
  | Some p => calculateVelocity p (newSample position t1) = v
  | None => True
  end ->
  updateBallTracking d position t1 t2 = Some d' ->
  hitCount d' = hitCount d
  /\ lastHitTime d' = lastHitTime d
  /\ thresholdsNonNegative d'
  /\ steadyWindow v (Some (newSample position t1)) d'.
Proof.
  intros Hthr Hw Hnext Hrun.
  pose proof (pushPosition_steady v previous d _ Hw Hnext) as Hw1.
  destruct (updateBallTracking_windows _ _ _ _ _ Hrun) as (Hwin & _).
  destruct (updateBallTracking_cases _ _ _ _ _ Hrun) as (Hcfg & _).
  assert (Hthr' : thresholdsNonNegative d')
    by now apply (thresholdsNonNegative_ext d' d).
  assert (Hw' : steadyWindow v (Some (newSample position t1)) d').
  { unfold steadyWindow. rewrite Hwin. exact Hw1. }
  enough (Hsame : hitCount d' = hitCount d /\ lastHitTime d' = lastHitTime d)
    by (destruct Hsame; auto).
  destruct (Z.lt_ge_cases
              (len (ballPositions (pushPosition d (newSample position t1)))) 3)
    as [H | H].
  - now apply (updateBallTracking_short_count d d' position t1 t2).
  - destruct (ends_with_three _ H) as (older & a & b & c & Hw3).
    destruct (updateBallTracking_long_count d d' position t1 t2 older a b c
                Hw3 Hrun) as (Hc & Hl).
    destruct Hw1 as [Hall _]. rewrite Hw3 in Hall.
    apply velocitiesBetween_last_three in Hall. destruct Hall as [Hab Hbc].
    rewrite hitTest_steady in Hc, Hl by (congruence || assumption).
    now split.
Qed.

End SteadyMotion.

(** X4: a ball in steady motion is never counted.  From an empty window,
    when the velocity from each sample to the next is the same, no frame
    registers a hit, provided the thresholds are not negative. *)
Theorem X4_steady_motion_never_hits :
  forall (v : BallDetector.Velocity)
         (frames : list (BallDetector.Position * Z * Z))
         (d : BallDetector.t),
    BallRuns.thresholdsNonNegative d ->
    BallDetector.ballPositions d = [] ->
    BallRuns.steady v None frames ->
    exists d',
      BallDetector.run d frames = Some d'
      /\ BallDetector.hitCount d' = BallDetector.hitCount d
      /\ BallDetector.lastHitTime d' = BallDetector.lastHitTime d.
Proof.
  intros v frames d Hthr Hempty Hsteady.
  assert (Hw : BallRuns.steadyWindow v None d).
  { unfold BallRuns.steadyWindow. rewrite Hempty. split; [constructor|].
    intros p Hp. discriminate. }
  clear Hempty. revert d Hthr Hw Hsteady. generalize (@None BallDetector.Sample).
  induction frames as [|[[position t1] t2] rest IH];
    intros previous d Hthr Hw Hsteady.
  - exists d. repeat split.
  - destruct Hsteady as [Hnext Hrest].
    destruct (updateBallTracking_total d position t1 t2) as (d1 & Hrun).
    destruct (updateBallTracking_steady v previous d d1 position t1 t2
                Hthr Hw Hnext Hrun) as (Hc & Hl & Hthr1 & Hw1).
    destruct (IH _ d1 Hthr1 Hw1 Hrest) as (d' & Hrun' & Hc' & Hl').
    exists d'. cbn [BallDetector.run]. rewrite Hrun.
    repeat split; [exact Hrun' | congruence | congruence].
Qed.

(** X4 on a ball that moves 10 pixels to the right every 100 ms. *)
Lemma X4_ball_rolling_right :
  exists d',
    BallDetector.run BallDetector.constructor
      [ (BallDetector.ballAt 100, 2000, 2000);
        (BallDetector.ballAt 110, 2100, 2100);
        (BallDetector.ballAt 120, 2200, 2200);
        (BallDetector.ballAt 130, 2300, 2300) ]%Z = Some d'
    /\ BallDetector.hitCount d' = 0%Z.
Proof.
  destruct (X4_steady_motion_never_hits
              (BallDetector.mkVelocity 100 0 (Rabs 100))
              [ (BallDetector.ballAt 100, 2000, 2000);
                (BallDetector.ballAt 110, 2100, 2100);
                (BallDetector.ballAt 120, 2200, 2200);
                (BallDetector.ballAt 130, 2300, 2300) ]%Z
              BallDetector.constructor) as (d' & Hrun & Hc & _).
  - split; cbn; lra.
  - reflexivity.
  - cbn [BallRuns.steady BallDetector.sampleOf].
    repeat split;
      rewrite calculateVelocity_horizontal by (cbn; (reflexivity || lia));
      cbn [BallDetector.x BallDetector.time BallDetector.newSample
           BallDetector.ballAt BallDetector.pos_x];
      match goal with
      | |- context [IZR (?a - ?b)] =>
          replace (a - b)%Z with 100%Z by reflexivity
      end;
      f_equal; try (f_equal; lra); lra.
  - exists d'. split; [exact Hrun | exact Hc].
Defined.

Section Debounce.
Import JS BallDetector BallRuns.

Lemma withinDebounce_ext (d1 d2 : t) (from : Z) (frames : list (Position * Z * Z)) :
  sameConfiguration d1 d2 ->
  Forall (withinDebounce d2 from) frames ->
  Forall (withinDebounce d1 from) frames.
Proof.
  intros (_ & _ & _ & _ & Hmin) H. unfold withinDebounce in *. now rewrite Hmin.
Qed.

(** After a hit inside the interval, the rest of the interval is quiet. *)
Lemma run_quiet_after_hit (from : Z) (frames : list (Position * Z * Z)) :
  forall d : t,
    (from <= lastHitTime d)%Z ->
    Forall (withinDebounce d from) frames ->
    exists d',
      run d frames = Some d'
      /\ hitCount d' = hitCount d /\ lastHitTime d' = lastHitTime d.
Proof.
  induction frames as [|[[position t1] t2] rest IH]; intros d Hlast Hall.
  - exists d. repeat split.
  - inversion Hall as [|? ? Hframe Hrest]; subst.
    destruct (updateBallTracking_total d position t1 t2) as (d1 & Hrun).
    destruct (updateBallTracking_cases _ _ _ _ _ Hrun)
      as (Hcfg & [(_ & _ & Hgap) | (Hc & Hl)]).
    + unfold withinDebounce in Hframe. cbn [hitTimeOf] in Hframe. lia.
    + destruct (IH d1) as (d' & Hrun' & Hc' & Hl').
      * lia.
      * now apply (withinDebounce_ext d1 d).
      * exists d'. cbn [run]. rewrite Hrun.
        repeat split; [exact Hrun' | congruence | congruence].
Qed.

(** Every frame adds 0 or 1 to the counter. *)
Lemma run_count_bounds (frames : list (Position * Z * Z)) :
  forall d : t,
    exists d',
      run d frames = Some d'
      /\ (hitCount d <= hitCount d' <= hitCount d + Z.of_nat (length frames))%Z.
Proof.
  induction frames as [|[[position t1] t2] rest IH]; intros d.
  - exists d. cbn. split; [reflexivity | lia].
  - destruct (updateBallTracking_total d position t1 t2) as (d1 & Hrun).
    destruct (IH d1) as (d' & Hrun' & Hb).
    exists d'. cbn [run]. rewrite Hrun. split; [exact Hrun'|].
    cbn [length]. 
    destruct (updateBallTracking_cases _ _ _ _ _ Hrun)
      as (_ & [(Hc & _) | (Hc & _)]); lia.
Qed.

Lemma length_pushPosition (d : t) (s : Sample) :
  (length (ballPositions (pushPosition d s)) <= length (ballPositions d) + 1)%nat.
Proof.
  unfold pushPosition, push, shift.
  cbn [set_ballPositions ballPositions maxPositionHistory].
  destruct (_ <? _)%Z; cbn [ballPositions set_ballPositions].
  - destruct (ballPositions d ++ [s]) eqn:E; cbn [tl length]; [lia|].
    apply (f_equal (@length _)) in E. rewrite length_app in E.
    cbn [length] in E. lia.
  - rewrite length_app. cbn [length]. lia.
Qed.

(** A frame that leaves fewer than three samples in the window counts
    nothing. *)
Lemma updateBallTracking_few (d d' : t) (position : Position) (t1 t2 : Z) :
  (length (ballPositions d) < 2)%nat ->
  updateBallTracking d position t1 t2 = Some d' ->
  hitCount d' = hitCount d
  /\ lastHitTime d' = lastHitTime d
  /\ (length (ballPositions d') <= length (ballPositions d) + 1)%nat.
Proof.
  intros Hfew Hrun.
  pose proof (length_pushPosition d (newSample position t1)) as Hlen.
  destruct (updateBallTracking_windows _ _ _ _ _ Hrun) as (Hw & _).
  rewrite Hw. 
  destruct (updateBallTracking_short_count d d' position t1 t2) as (Hc & Hl);
    [unfold len; lia | exact Hrun |].
  auto.
Qed.

End Debounce.

(** X5: at most one hit in any interval of the debounce time.  When the
    clock readings of the hit tests of a run all lie within
    [minTimeBetweenHits] of one another, the run registers at most one
    hit, whatever the ball does. *)
Theorem X5_one_hit_per_debounce_interval :
  forall (from : Z) (frames : list (BallDetector.Position * Z * Z))
         (d : BallDetector.t),
    Forall (BallRuns.withinDebounce d from) frames ->
    exists d',
      BallDetector.run d frames = Some d'
      /\ (BallDetector.hitCount d <= BallDetector.hitCount d'
          <= BallDetector.hitCount d + 1)%Z.
Proof.
  intros from. induction frames as [|[[position t1] t2] rest IH]; intros d Hall.
  - exists d. cbn. split; [reflexivity | lia].
  - inversion Hall as [|? ? Hframe Hrest]; subst.
    destruct (updateBallTracking_total d position t1 t2) as (d1 & Hrun).
    destruct (updateBallTracking_cases _ _ _ _ _ Hrun)
      as (Hcfg & [(Hc & Hl & _) | (Hc & _)]).
    + destruct (run_quiet_after_hit from rest d1) as (d' & Hrun' & Hc' & _).
      * unfold BallRuns.withinDebounce in Hframe.
        cbn [BallRuns.hitTimeOf] in Hframe. lia.
      * now apply (withinDebounce_ext d1 d).
      * exists d'. cbn [BallDetector.run]. rewrite Hrun.
        split; [exact Hrun' | lia].
    + destruct (IH d1) as (d' & Hrun' & Hb).
      * now apply (withinDebounce_ext d1 d).
      * exists d'. cbn [BallDetector.run]. rewrite Hrun.
        split; [exact Hrun' | lia].
Qed.

(** X5 on a ball that bounces back and forth every 100 ms for half a
    second: one hit at most. *)
Lemma X5_rapid_bounces :
  exists d',
    BallDetector.run BallDetector.constructor
      [ (BallDetector.ballAt 100, 2000, 2000);
        (BallDetector.ballAt 200, 2100, 2100);
        (BallDetector.ballAt 100, 2200, 2200);
        (BallDetector.ballAt 200, 2300, 2300);
        (BallDetector.ballAt 100, 2400, 2400);
        (BallDetector.ballAt 200, 2500, 2500) ]%Z = Some d'
    /\ (BallDetector.hitCount d' <= 1)%Z.
Proof.
  destruct (X5_one_hit_per_debounce_interval 2000%Z
              [ (BallDetector.ballAt 100, 2000, 2000);
                (BallDetector.ballAt 200, 2100, 2100);
                (BallDetector.ballAt 100, 2200, 2200);
                (BallDetector.ballAt 200, 2300, 2300);
                (BallDetector.ballAt 100, 2400, 2400);
                (BallDetector.ballAt 200, 2500, 2500) ]%Z
              BallDetector.constructor) as (d' & Hrun & Hb).
  - repeat constructor; cbn; lia.
  - exists d'. split; [exact Hrun|]. cbn in Hb. lia.
Defined.

(** X6: the counter never goes down and a frame adds at most one hit;
    after a reset or a construction, when the window is empty, the first
    two frames add none, so that [n] frames add at most [n - 2]. *)
Theorem X6_hits_are_bounded_by_frames :
  (forall (frames : list (BallDetector.Position * Z * Z)) (d : BallDetector.t),
      exists d',
        BallDetector.run d frames = Some d'
        /\ (BallDetector.hitCount d <= BallDetector.hitCount d'
            <= BallDetector.hitCount d + Z.of_nat (length frames))%Z)
  /\
  (forall (frames : list (BallDetector.Position * Z * Z)) (d : BallDetector.t),
      BallDetector.ballPositions d = [] ->
      exists d',
        BallDetector.run d frames = Some d'
        /\ (BallDetector.hitCount d' - BallDetector.hitCount d
            <= Z.of_nat (length frames - 2))%Z).
Proof.
  split; [exact run_count_bounds|].
  intros frames d Hempty.
  destruct frames as [|[[p1 t1] t1'] [|[[p2 t2] t2'] rest]].
  - exists d. cbn. split; [reflexivity | lia].
  - destruct (updateBallTracking_total d p1 t1 t1') as (d1 & Hrun1).
    exists d1. cbn [BallDetector.run]. rewrite Hrun1. split; [reflexivity|].
    destruct (updateBallTracking_few d d1 p1 t1 t1') as (Hc & _);
      [rewrite Hempty; cbn; lia | exact Hrun1 |]. cbn. lia.
  - destruct (updateBallTracking_total d p1 t1 t1') as (d1 & Hrun1).
    destruct (updateBallTracking_few d d1 p1 t1 t1') as (Hc1 & _ & Hlen1);
      [rewrite Hempty; cbn; lia | exact Hrun1 |].
    rewrite Hempty in Hlen1. cbn [length] in Hlen1.
    destruct (updateBallTracking_total d1 p2 t2 t2') as (d2 & Hrun2).
    destruct (updateBallTracking_few d1 d2 p2 t2 t2') as (Hc2 & _);
      [lia | exact Hrun2 |].
    destruct (run_count_bounds rest d2) as (d' & Hrun' & Hb).
    exists d'. cbn [BallDetector.run]. rewrite Hrun1, Hrun2.
    split; [exact Hrun'|]. cbn [length].
    replace (S (S (length rest)) - 2)%nat with (length rest) by lia. lia.
Qed.

(** X6 on the bounce seen right after a reset: three frames, one hit at
    most. *)
Lemma X6_bounce_after_reset :
  exists d',
    BallDetector.run (BallDetector.resetCounter BallDetector.afterTwoFrames)
      [ (BallDetector.ballAt 100, 2000, 2000);
        (BallDetector.ballAt 200, 2100, 2100);
        (BallDetector.ballAt 100, 2200, 2200) ]%Z = Some d'
    /\ (BallDetector.hitCount d' <= 1)%Z.
Proof.
  destruct (proj2 X6_hits_are_bounded_by_frames
              [ (BallDetector.ballAt 100, 2000, 2000);
                (BallDetector.ballAt 200, 2100, 2100);
                (BallDetector.ballAt 100, 2200, 2200) ]%Z
              (BallDetector.resetCounter BallDetector.afterTwoFrames))
    as (d' & Hrun & Hb).
  - reflexivity.
  - exists d'. split; [exact Hrun|]. cbn in Hb. lia.
Defined.

Section Sensitivity.
Import JS BallDetector BallRuns.

Lemma hitTest_sensitivity (d : t) (s1 s2 : R) (a b c : Sample) (now : Z) :
  0 <= velocityThreshold d -> s1 <= s2 ->
  hitTest (set_sensitivity d s2) a b c now = true ->
  hitTest (set_sensitivity d s1) a b c now = true.
Proof.
  intros Hvt Hs. rewrite !hitTest_spec. unfold hitCondition.
  cbn [set_sensitivity directionChangeThreshold velocityThreshold sensitivity
       lastHitTime minTimeBetweenHits].
  intros [[Hdir | Hspeed] Htime]; (split; [|exact Htime]).
  - now left.
  - right. nra.
Qed.

Lemma pushPosition_set_sensitivity (d : t) (v : R) (s : Sample) :
  ballPositions (pushPosition (set_sensitivity d v) s)
  = ballPositions (pushPosition d s).
Proof.
  unfold pushPosition.
  cbn [set_sensitivity set_ballPositions ballPositions maxPositionHistory].
  now destruct (_ <? _)%Z.
Qed.

(** Reduce the projections of an updated tracker. *)
Ltac fields :=
  unfold set_lastBallPosition, set_lastHitTime, registerHit,
    set_velocityHistory;
  cbn [isDetecting hitCount hitCounterText ballPositions lastBallPosition
       velocityHistory sensitivity ballSize maxPositionHistory
       velocityThreshold directionChangeThreshold minTimeBetweenHits
       lastHitTime].

(** One frame keeps two trackers in agreement. *)
Lemma updateBallTracking_sameTracking (d1 d2 : t) (position : Position) (t1 t2 : Z) :
  sameTracking d1 d2 ->
  exists d1' d2',
    updateBallTracking d1 position t1 t2 = Some d1'
    /\ updateBallTracking d2 position t1 t2 = Some d2'
    /\ sameTracking d1' d2'.
Proof.
  intros (Hagree & Hc & Htext & Hvh).
  pose proof (pushPosition_ext d1 d2 (newSample position t1) Hagree)
    as (Hw & Hl & Hcfg).
  pose proof Hcfg as (Hs & Hmax & Hvt & Hdir & Hmin).
  destruct (pushPosition_frame d1 (newSample position t1))
    as (Hc1 & _ & Hv1 & Ht1 & _).
  destruct (pushPosition_frame d2 (newSample position t1))
    as (Hc2 & _ & Hv2 & Ht2 & _).
  destruct (Z.lt_ge_cases
              (len (ballPositions (pushPosition d1 (newSample position t1)))) 3)
    as [H | H].
  - rewrite (updateBallTracking_short d1) by assumption.
    rewrite (updateBallTracking_short d2) by (rewrite <- Hw; assumption).
    do 2 eexists. split; [reflexivity|]. split; [reflexivity|].
    unfold sameTracking, sameDecisionInputs, sameConfiguration. fields.
    repeat split; try assumption; congruence.
  - destruct (ends_with_three _ H) as (older & a & b & c & Hw1).
    rewrite (updateBallTracking_long d1 _ _ _ older a b c Hw1).
    rewrite (updateBallTracking_long d2 _ _ _ older a b c)
      by (rewrite <- Hw; assumption).
    do 2 eexists. split; [reflexivity|]. split; [reflexivity|].
    cbn zeta. rewrite (hitTest_ext _ _ a b c t2 Hcfg Hl), Hv1, Hv2, Hvh.
    destruct (hitTest (pushPosition d2 (newSample position t1)) a b c t2);
      unfold sameTracking, sameDecisionInputs, sameConfiguration; fields;
      repeat split; try assumption; congruence.
Qed.

Lemma run_sameTracking (frames : list (Position * Z * Z)) :
  forall d1 d2 : t,
    sameTracking d1 d2 ->
    exists d1' d2',
      run d1 frames = Some d1' /\ run d2 frames = Some d2'
      /\ sameTracking d1' d2'.
Proof.
  induction frames as [|[[position t1] t2] rest IH]; intros d1 d2 Hsame.
  - exists d1, d2. auto.
  - destruct (updateBallTracking_sameTracking d1 d2 position t1 t2 Hsame)
      as (e1 & e2 & Hr1 & Hr2 & Hsame').
    destruct (IH e1 e2 Hsame') as (f1 & f2 & Hf1 & Hf2 & Hsame'').
    exists f1, f2. cbn [run]. rewrite Hr1, Hr2. auto.
Qed.

Lemma newSample_confidence (position : Position) (currentTime : Z) :
  confidence (newSample position currentTime) <> 0
  /\ (forall c, pos_confidence position = Some c -> c <> 0 ->
                confidence (newSample position currentTime) = c).
Proof.
  unfold newSample. cbn [confidence].
  destruct (pos_confidence position) as [c|].
  - destruct (seq c 0) eqn:E.
    + apply seq_true in E. split; [lra|]. intros c' [= <-] Hc. contradiction.
    + apply seq_false in E. split; [exact E|]. now intros c' [= <-] _.
  - split; [lra | discriminate].
Qed.

End Sensitivity.

(** X7: the sensitivity slider raises the bar.  With a non-negative
    [velocityThreshold], a frame that registers a hit at one sensitivity
    registers it at every lower one: on the same tracker and frame, the
    counter after the frame is at least as high with the lower setting. *)
Theorem X7_higher_sensitivity_never_adds_a_hit :
  forall (d d1 d2 : BallDetector.t) (s1 s2 : R)
         (position : BallDetector.Position) (currentTime now : Z),
    0 <= BallDetector.velocityThreshold d ->
    s1 <= s2 ->
    BallDetector.updateBallTracking (BallDetector.set_sensitivity d s1)
      position currentTime now = Some d1 ->
    BallDetector.updateBallTracking (BallDetector.set_sensitivity d s2)
      position currentTime now = Some d2 ->
    (BallDetector.hitCount d2 <= BallDetector.hitCount d1)%Z.
Proof.
  intros d d1 d2 s1 s2 position t1 t2 Hvt Hs Hr1 Hr2.
  destruct (Z.lt_ge_cases
              (JS.len (BallDetector.ballPositions
                         (BallDetector.pushPosition d
                            (BallDetector.newSample position t1)))) 3)
    as [H | H].
  - destruct (updateBallTracking_short_count _ _ _ _ _
                ltac:(rewrite pushPosition_set_sensitivity; exact H) Hr1)
      as (Hc1 & _).
    destruct (updateBallTracking_short_count _ _ _ _ _
                ltac:(rewrite pushPosition_set_sensitivity; exact H) Hr2)
      as (Hc2 & _).
    rewrite Hc1, Hc2. cbn. lia.
  - destruct (ends_with_three _ H) as (older & a & b & c & Hw).
    destruct (updateBallTracking_long_count _ _ _ _ _ older a b c
                ltac:(rewrite pushPosition_set_sensitivity; exact Hw) Hr1)
      as (Hc1 & _).
    destruct (updateBallTracking_long_count _ _ _ _ _ older a b c
                ltac:(rewrite pushPosition_set_sensitivity; exact Hw) Hr2)
      as (Hc2 & _).
    rewrite Hc1, Hc2. cbn [BallDetector.hitCount BallDetector.set_sensitivity].
    destruct (BallDetector.hitTest (BallDetector.set_sensitivity d s2) a b c t2)
      eqn:E2.
    + rewrite (hitTest_sensitivity d s1 s2 a b c t2 Hvt Hs E2). lia.
    + destruct (BallDetector.hitTest _ a b c t2); lia.
Qed.

(** X7 on the bounce, at sensitivity 0.5 and 2. *)
Lemma X7_bounce_at_two_sensitivities :
  exists d1 d2,
    BallDetector.updateBallTracking
      (BallDetector.set_sensitivity BallDetector.afterTwoFrames (1 / 2))
      (BallDetector.ballAt 100) 2200 2200 = Some d1
    /\ BallDetector.updateBallTracking
         (BallDetector.set_sensitivity BallDetector.afterTwoFrames 2)
         (BallDetector.ballAt 100) 2200 2200 = Some d2
    /\ (BallDetector.hitCount d2 <= BallDetector.hitCount d1)%Z.
Proof.
  destruct (updateBallTracking_total
              (BallDetector.set_sensitivity BallDetector.afterTwoFrames (1 / 2))
              (BallDetector.ballAt 100) 2200 2200) as (d1 & Hr1).
  destruct (updateBallTracking_total
              (BallDetector.set_sensitivity BallDetector.afterTwoFrames 2)
              (BallDetector.ballAt 100) 2200 2200) as (d2 & Hr2).
  exists d1, d2. split; [exact Hr1|]. split; [exact Hr2|].
  apply (X7_higher_sensitivity_never_adds_a_hit
           BallDetector.afterTwoFrames d1 d2 (1 / 2) 2
           (BallDetector.ballAt 100) 2200%Z 2200%Z);
    [cbn; lra | lra | exact Hr1 | exact Hr2].
Defined.

(** X8: after [resetCounter] the tracker counts like a new one.  A
    tracker with the parameters of the constructor, reset, and a freshly
    constructed tracker with the same sensitivity go through every
    sequence of frames with the same counter, the same [lastHitTime] and
    the same two windows. *)
Theorem X8_reset_counts_like_new :
  forall (d : BallDetector.t) (frames : list (BallDetector.Position * Z * Z)),
    BallRuns.constructed d ->
    exists d1 d2,
      BallDetector.run (BallDetector.resetCounter d) frames = Some d1
      /\ BallDetector.run
           (BallDetector.set_sensitivity BallDetector.constructor
                                         (BallDetector.sensitivity d))
           frames = Some d2
      /\ BallDetector.hitCount d1 = BallDetector.hitCount d2
      /\ BallDetector.hitCounterText d1 = BallDetector.hitCounterText d2
      /\ BallDetector.lastHitTime d1 = BallDetector.lastHitTime d2
      /\ BallDetector.ballPositions d1 = BallDetector.ballPositions d2
      /\ BallDetector.velocityHistory d1 = BallDetector.velocityHistory d2.
Proof.
  intros d frames (Hmax & Hvt & Hdir & Hmin).
  destruct (run_sameTracking frames (BallDetector.resetCounter d)
              (BallDetector.set_sensitivity BallDetector.constructor
                                            (BallDetector.sensitivity d)))
    as (d1 & d2 & Hr1 & Hr2 & (Hw & Hl & _) & Hc & Ht & Hv).
  - unfold BallRuns.sameTracking, BallDetector.sameDecisionInputs,
      BallDetector.sameConfiguration. cbn. repeat split; assumption.
  - exists d1, d2. repeat split; assumption.
Qed.

(** X8 on the tracker after two frames: reset, it goes through the
    bounce like a new one. *)
Lemma X8_reset_then_bounce :
  exists d1 d2,
    BallDetector.run (BallDetector.resetCounter BallDetector.afterTwoFrames)
      [ (BallDetector.ballAt 100, 2000, 2000);
        (BallDetector.ballAt 200, 2100, 2100);
        (BallDetector.ballAt 100, 2200, 2200) ]%Z = Some d1
    /\ BallDetector.run
         (BallDetector.set_sensitivity BallDetector.constructor 1)
         [ (BallDetector.ballAt 100, 2000, 2000);
           (BallDetector.ballAt 200, 2100, 2100);
           (BallDetector.ballAt 100, 2200, 2200) ]%Z = Some d2
    /\ BallDetector.hitCount d1 = BallDetector.hitCount d2.
Proof.
  destruct (X8_reset_counts_like_new BallDetector.afterTwoFrames
              [ (BallDetector.ballAt 100, 2000, 2000);
                (BallDetector.ballAt 200, 2100, 2100);
                (BallDetector.ballAt 100, 2200, 2200) ]%Z)
    as (d1 & d2 & Hr1 & Hr2 & Hc & _).
  - repeat split.
  - exists d1, d2. auto.
Defined.

(** X9: a stored confidence is never zero.  [updateBallTracking] stores
    1 for a missing or zero confidence and any other confidence as it
    is, so every sample of the window has a non-zero confidence along
    every run from the constructor. *)
Theorem X9_stored_confidence_is_never_zero :
  (forall (position : BallDetector.Position) (currentTime : Z) (c : R),
      BallDetector.pos_confidence position = Some c -> c <> 0 ->
      BallDetector.confidence (BallDetector.newSample position currentTime) = c)
  /\
  (forall (position : BallDetector.Position) (currentTime : Z),
      BallDetector.pos_confidence position = None
      \/ BallDetector.pos_confidence position = Some 0 ->
      BallDetector.confidence (BallDetector.newSample position currentTime) = 1)
  /\
  (forall frames : list (BallDetector.Position * Z * Z),
      exists d',
        BallDetector.run BallDetector.constructor frames = Some d'
        /\ Forall (fun s => BallDetector.confidence s <> 0)
                  (BallDetector.ballPositions d')).
Proof.
  split; [|split].
  - intros position t c. apply newSample_confidence.
  - intros position t [H | H]; unfold BallDetector.newSample; rewrite H; cbn.
    + reflexivity.
    + now rewrite seq_refl.
  - intros frames.
    destruct (run_windows 10 frames BallDetector.constructor [])
      as (d' & Hrun & _ & Hw & _); try reflexivity.
    { cbn. lia. }
    exists d'. split; [exact Hrun|]. rewrite Hw. cbn [app].
    unfold Window.lastN.
    apply Forall_forall. intros s Hin.
    assert (Hin' : In s (map BallDetector.sampleOf frames)).
    { revert Hin. generalize (length (map BallDetector.sampleOf frames) - 10)%nat.
      intros k. revert s. generalize (map BallDetector.sampleOf frames).
      induction k as [|k IHk]; intros l s Hin; [exact Hin|].
      destruct l as [|a l]; [exact Hin|]. right. now apply IHk. }
    apply in_map_iff in Hin'. destruct Hin' as ([[position t1] t2] & <- & _).
    apply newSample_confidence.
Qed.

(** X9 on a confidence of 0.8, a confidence of 0 and no confidence. *)
Lemma X9_three_confidences :
  BallDetector.confidence
    (BallDetector.newSample (BallDetector.mkPosition 1 2 (Some (8 / 10))) 2000)
  = 8 / 10
  /\ BallDetector.confidence
       (BallDetector.newSample (BallDetector.mkPosition 1 2 (Some 0)) 2000) = 1
  /\ BallDetector.confidence
       (BallDetector.newSample (BallDetector.ballAt 1) 2000) = 1.
Proof.
  destruct X9_stored_confidence_is_never_zero as (Hkeep & Hone & _).
  split; [|split].
  - apply Hkeep; [reflexivity | lra].
  - apply Hone. now right.
  - apply Hone. now left.
Defined.

(** ** Finding the ball *)

Section AIDetection.
Import JS BallDetection.

Lemma filter_none {A : Type} (f : A -> bool) (l : list A) :
  Forall (fun a => f a = false) l -> filter f l = [].
Proof.
  induction 1 as [|a l Ha _ IH]; [reflexivity|]. cbn. now rewrite Ha.
Qed.

Lemma filter_nil_iff {A : Type} (f : A -> bool) (l : list A) :
  filter f l = [] <-> Forall (fun a => f a = false) l.
Proof.
  split; [|apply filter_none].
  induction l as [|a l IH]; [constructor|]. cbn.
  destruct (f a) eqn:E; [discriminate|]. intros H. constructor; auto.
Qed.

End AIDetection.

(** X10: the AI detector returns the first accepted prediction, not the
    best one.  It returns nothing exactly when no prediction is a sports
    ball, an orange, an apple or a person scored below 0.3 (or when the
    model fails); otherwise it returns the centre of the bounding box of
    the first such prediction in the order of the model, with its score
    as confidence, whatever comes after it.  A person scored 0.3 or more
    is never taken for the ball. *)
Theorem X10_detectBallWithAI_takes_first_accepted :
  BallDetection.detectBallWithAI None = None
  /\
  (forall predictions : list BallDetection.Prediction,
      BallDetection.detectBallWithAI (Some predictions) = None
      <-> Forall (fun pred => BallDetection.isBallPrediction pred = false)
                 predictions)
  /\
  (forall (before after : list BallDetection.Prediction)
          (ball : BallDetection.Prediction) (x y width height : R),
      Forall (fun pred => BallDetection.isBallPrediction pred = false) before ->
      BallDetection.isBallPrediction ball = true ->
      BallDetection.bbox ball = (x, y, width, height) ->
      BallDetection.detectBallWithAI (Some (before ++ ball :: after))
      = Some (BallDetector.mkPosition (x + width / 2) (y + height / 2)
                                      (Some (BallDetection.score ball))))
  /\
  (forall pred : BallDetection.Prediction,
      BallDetection.class pred = "person"%string ->
      3 / 10 <= BallDetection.score pred ->
      BallDetection.isBallPrediction pred = false).
Proof.
  split; [reflexivity|]. split; [|split].
  - intros predictions. unfold BallDetection.detectBallWithAI.
    rewrite <- filter_nil_iff.
    destruct (filter BallDetection.isBallPrediction predictions) as [|ball rest].
    + cbn. tauto.
    + unfold JS.len. cbn [length].
      destruct (Z.ltb_spec 0 (Z.of_nat (S (length rest)))); [|lia].
      cbn. destruct (BallDetection.bbox ball) as [[[x y] w] h].
      split; discriminate.
  - intros before after ball x y width height Hbefore Hball Hbox.
    unfold BallDetection.detectBallWithAI.
    rewrite filter_app, (filter_none _ _ Hbefore). cbn [filter app].
    rewrite Hball. unfold JS.len. cbn [length].
    destruct (Z.ltb_spec 0 (Z.of_nat (S (length
                (filter BallDetection.isBallPrediction after))))); [|lia].
    cbn. now rewrite Hbox.
  - intros pred Hclass Hscore. unfold BallDetection.isBallPrediction.
    rewrite Hclass. cbn. now apply lt_false.
Qed.

(** X10 on a person scored 0.2 listed before a sports ball scored 0.9:
    the person is returned; scored 0.5, the person is passed over. *)
Lemma X10_person_before_ball :
  BallDetection.detectBallWithAI
    (Some [ BallDetection.mkPrediction "person"%string (2 / 10) (10, 20, 40, 80);
            BallDetection.mkPrediction "sports ball"%string (9 / 10)
                                       (100, 100, 20, 20) ])
  = Some (BallDetector.mkPosition (10 + 40 / 2) (20 + 80 / 2) (Some (2 / 10)))
  /\ BallDetection.detectBallWithAI
       (Some [ BallDetection.mkPrediction "person"%string (5 / 10) (10, 20, 40, 80);
               BallDetection.mkPrediction "sports ball"%string (9 / 10)
                                          (100, 100, 20, 20) ])
     = Some (BallDetector.mkPosition (100 + 20 / 2) (100 + 20 / 2) (Some (9 / 10)))
  /\ BallDetection.detectBallWithAI
       (Some [ BallDetection.mkPrediction "dog"%string (9 / 10) (0, 0, 5, 5) ])
     = None.
Proof.
  destruct X10_detectBallWithAI_takes_first_accepted
    as (_ & Hnone & Hfirst & Hperson).
  assert (Hlow : BallDetection.isBallPrediction
                   (BallDetection.mkPrediction "person"%string (2 / 10)
                                               (10, 20, 40, 80)) = true).
  { unfold BallDetection.isBallPrediction. cbn.
    apply lt_true. lra. }
  split; [|split].
  - apply (Hfirst []
             [ BallDetection.mkPrediction "sports ball"%string (9 / 10)
                                          (100, 100, 20, 20) ]
             (BallDetection.mkPrediction "person"%string (2 / 10)
                                         (10, 20, 40, 80))
             10 20 40 80); [constructor | exact Hlow | reflexivity].
  - apply (Hfirst [ BallDetection.mkPrediction "person"%string (5 / 10)
                                               (10, 20, 40, 80) ]
                  []
                  (BallDetection.mkPrediction "sports ball"%string (9 / 10)
                                              (100, 100, 20, 20))
                  100 100 20 20).
    + constructor; [|constructor]. apply Hperson; [reflexivity | cbn; lra].
    + reflexivity.
    + reflexivity.
  - apply Hnone. constructor; [reflexivity | constructor].
Defined.

Section ColorDetection.
Import JS BallDetection.

Lemma calculateColorDistance_nonneg (color1 color2 : Color) :
  0 <= calculateColorDistance color1 color2.
Proof. unfold calculateColorDistance, Math_sqrt. apply sqrt_pos. Qed.

Lemma calculateColorDistance_zero_iff (color1 color2 : Color) :
  calculateColorDistance color1 color2 = 0 <-> color1 = color2.
Proof.
  unfold calculateColorDistance, Math_sqrt. cbn zeta.
  set (dr := r color1 - r color2). set (dg := g color1 - g color2).
  set (db := b color1 - b color2).
  assert (Hsq : 0 <= dr * dr + dg * dg + db * db) by nra.
  split.
  - intros H0. apply sqrt_eq_0 in H0; [|exact Hsq].
    assert (dr = 0) by nra. assert (dg = 0) by nra. assert (db = 0) by nra.
    destruct color1, color2. unfold dr, dg, db in *. cbn in *.
    f_equal; lra.
  - intros ->. unfold dr, dg, db. rewrite !Rminus_diag.
    replace (0 * 0 + 0 * 0 + 0 * 0) with 0 by ring. apply sqrt_0.
Qed.

Lemma loopValues_spec (bound v : Z) :
  In v (loopValues bound) <-> (0 <= v < bound /\ v mod 4 = 0)%Z.
Proof.
  unfold loopValues, step. rewrite in_map_iff. split.
  - intros (k & <- & Hin). apply in_seq in Hin.
    assert (Hk : (Z.of_nat k < (bound + 3) / 4)%Z) by lia.
    split; [|now rewrite Z.mul_comm, Z_mod_mult].
    split; [lia|].
    pose proof (Z.mul_div_le (bound + 3) 4 ltac:(lia)). lia.
  - intros ([Hlo Hhi] & Hmod).
    exists (Z.to_nat (v / 4)). 
    pose proof (Z_div_mod_eq_full v 4) as Hv. rewrite Hmod in Hv.
    assert (Hq : (0 <= v / 4)%Z) by (apply Z.div_pos; lia).
    split; [lia|]. apply in_seq.
    assert ((v / 4 < (bound + 3) / 4)%Z).
    { apply Z.div_lt_upper_bound; [lia|].
      pose proof (Z.mul_succ_div_gt (bound + 3) 4 ltac:(lia)). lia. }
    lia.
Qed.

Lemma scanOrder_spec (canvas : Canvas) (x y : Z) :
  In (x, y) (scanOrder canvas)
  <-> In x (loopValues (width canvas)) /\ In y (loopValues (height canvas)).
Proof.
  unfold scanOrder. rewrite in_flat_map. split.
  - intros (y' & Hy & Hin). apply in_map_iff in Hin.
    destruct Hin as (x' & [= <- <-] & Hx). now split.
  - intros [Hx Hy]. exists y. split; [exact Hy|].
    apply in_map_iff. now exists x.
Qed.

(** The nested loops visit the pixels of [scanOrder] one after the
    other. *)
Lemma detectBallByColor_scan (settings : ColorSettings) (canvas : Canvas) :
  detectBallByColor settings canvas
  = fst (fold_left (visitPixel settings canvas) (scanOrder canvas) (None, 0)).
Proof.
  unfold detectBallByColor, scanOrder. f_equal.
  generalize (@None BallDetector.Position, 0).
  induction (loopValues (height canvas)) as [|y ys IH]; intros best;
    [reflexivity|].
  cbn [fold_left flat_map]. rewrite fold_left_app, <- IH. f_equal.
  clear IH. revert best.
  induction (loopValues (width canvas)) as [|x xs IHx]; intros best;
    [reflexivity|].
  cbn [fold_left map]. now rewrite IHx.
Qed.

Lemma visitPixel_bestSoFar (settings : ColorSettings) (canvas : Canvas)
      (seen : list (Z * Z)) (best : option BallDetector.Position * R)
      (pixel : Z * Z) :
  bestSoFar settings canvas seen best ->
  bestSoFar settings canvas (seen ++ [pixel])
            (visitPixel settings canvas best pixel).
Proof.
  intros Hbest. unfold visitPixel, visit.
  change (calculateColorDistance (pixelColor canvas (fst pixel) (snd pixel))
                                 (targetColor settings))
    with (distanceAt settings canvas pixel).
  destruct best as [[found|] s]; unfold bestSoFar in *; cbn [fst snd] in *.
  - destruct Hbest as (before & p0 & after & -> & -> & -> & Hd0 & Hbefore & Hafter).
    destruct (lt (distanceAt settings canvas pixel) (colorTolerance settings))
      eqn:Hlt; [apply lt_true in Hlt | apply lt_false in Hlt].
    + destruct (gt (colorTolerance settings - distanceAt settings canvas pixel)
                   (colorTolerance settings - distanceAt settings canvas p0))
        eqn:Hgt; [apply gt_true in Hgt | apply gt_false in Hgt]; cbn [fst snd].
      * exists (before ++ p0 :: after), pixel, [].
        repeat split; try assumption; [|constructor].
        apply Forall_app. split.
        -- eapply Forall_impl; [|exact Hbefore]. cbn beta. intros q Hq. lra.
        -- constructor; [lra|].
           eapply Forall_impl; [|exact Hafter]. cbn beta. intros q Hq. lra.
      * exists before, p0, (after ++ [pixel]).
        rewrite <- app_assoc. repeat split; try assumption.
        apply Forall_app. split; [exact Hafter|].
        constructor; [lra | constructor].
    + cbn [fst snd]. exists before, p0, (after ++ [pixel]).
      rewrite <- app_assoc. repeat split; try assumption.
      apply Forall_app. split; [exact Hafter|].
      constructor; [lra | constructor].
  - destruct Hbest as (-> & Hall).
    destruct (lt (distanceAt settings canvas pixel) (colorTolerance settings))
      eqn:Hlt; [apply lt_true in Hlt | apply lt_false in Hlt].
    + assert (Hgt : gt (colorTolerance settings
                        - distanceAt settings canvas pixel) 0 = true)
        by (apply gt_true; lra).
      rewrite Hgt. cbn [fst snd].
      exists seen, pixel, []. repeat split; try assumption; [|constructor].
      eapply Forall_impl; [|exact Hall]. cbn beta. intros q Hq. lra.
    + cbn [fst snd]. split; [reflexivity|].
      apply Forall_app. split; [exact Hall|].
      constructor; [exact Hlt | constructor].
Qed.

Lemma fold_bestSoFar (settings : ColorSettings) (canvas : Canvas)
      (pixels : list (Z * Z)) :
  forall (seen : list (Z * Z)) (best : option BallDetector.Position * R),
    bestSoFar settings canvas seen best ->
    bestSoFar settings canvas (seen ++ pixels)
              (fold_left (visitPixel settings canvas) pixels best).
Proof.
  induction pixels as [|pixel rest IH]; intros seen best Hbest.
  - now rewrite app_nil_r.
  - cbn [fold_left].
    replace (seen ++ pixel :: rest) with ((seen ++ [pixel]) ++ rest)
      by now rewrite <- app_assoc.
    apply IH. now apply visitPixel_bestSoFar.
Qed.

Lemma detectBallByColor_bestSoFar (settings : ColorSettings) (canvas : Canvas) :
  bestSoFar settings canvas (scanOrder canvas)
            (fold_left (visitPixel settings canvas) (scanOrder canvas) (None, 0)).
Proof.
  apply (fold_bestSoFar settings canvas (scanOrder canvas) [] (None, 0)).
  split; [reflexivity | constructor].
Qed.

End ColorDetection.

Section ColorResults.
Import JS BallDetection.

Lemma bestSoFar_none_iff (settings : ColorSettings) (canvas : Canvas)
      (seen : list (Z * Z)) (best : option BallDetector.Position * R) :
  bestSoFar settings canvas seen best ->
  (fst best = None
   <-> Forall (fun q => colorTolerance settings <= distanceAt settings canvas q)
              seen).
Proof.
  unfold bestSoFar. destruct (fst best) as [found|].
  - intros (before & pixel & after & -> & _ & _ & Hd & _). split; [discriminate|].
    intros Hall. apply Forall_app in Hall. destruct Hall as [_ Hall].
    inversion Hall; subst. lra.
  - intros (_ & Hall). tauto.
Qed.

Lemma scanOrder_orangeDot : scanOrder orangeDot = [(0, 0); (4, 0)]%Z.
Proof. reflexivity. Qed.

Lemma distance_on_dot :
  distanceAt defaultColorSettings orangeDot (4, 0)%Z = 0.
Proof.
  apply calculateColorDistance_zero_iff. reflexivity.
Qed.

Lemma detectBallByColor_orangeDot :
  exists found,
    detectBallByColor defaultColorSettings orangeDot = Some found.
Proof.
  pose proof (detectBallByColor_bestSoFar defaultColorSettings orangeDot)
    as Hbest.
  rewrite detectBallByColor_scan.
  destruct (fst (fold_left (visitPixel defaultColorSettings orangeDot)
                           (scanOrder orangeDot) (None, 0)))
    as [found|] eqn:E; [now exists found|].
  exfalso. apply (bestSoFar_none_iff _ _ _ _ Hbest) in E.
  rewrite scanOrder_orangeDot in E.
  inversion E as [|? ? _ Hrest]; subst.
  inversion Hrest as [|? ? Hdot _]; subst.
  rewrite distance_on_dot in Hdot. cbn in Hdot. lra.
Qed.

End ColorResults.

(** X11: the colour detector returns the first of the scanned pixels
    nearest to the target colour.  It finds nothing exactly when no
    scanned pixel is nearer to the target colour than the tolerance;
    otherwise the match is a scanned pixel within the tolerance, strictly
    nearer than every pixel scanned before it and at least as near as
    every pixel scanned after it, with the confidence
    [(tolerance - distance) / tolerance]. *)
Theorem X11_detectBallByColor_finds_the_nearest :
  forall (settings : BallDetection.ColorSettings) (canvas : BallDetection.Canvas),
    (BallDetection.detectBallByColor settings canvas = None
     <-> Forall (fun q => BallDetection.colorTolerance settings
                          <= BallDetection.distanceAt settings canvas q)
                (BallDetection.scanOrder canvas))
    /\
    (forall found : BallDetector.Position,
        BallDetection.detectBallByColor settings canvas = Some found ->
        exists before pixel after,
          BallDetection.scanOrder canvas = before ++ pixel :: after
          /\ found = BallDetection.matchAt settings canvas pixel
          /\ BallDetection.distanceAt settings canvas pixel
             < BallDetection.colorTolerance settings
          /\ Forall (fun q => BallDetection.distanceAt settings canvas pixel
                              < BallDetection.distanceAt settings canvas q)
                    before
          /\ Forall (fun q => BallDetection.distanceAt settings canvas pixel
                              <= BallDetection.distanceAt settings canvas q)
                    after).
Proof.
  intros settings canvas.
  pose proof (detectBallByColor_bestSoFar settings canvas) as Hbest.
  rewrite detectBallByColor_scan. split.
  - now apply bestSoFar_none_iff.
  - intros found Hfound. unfold BallDetection.bestSoFar in Hbest.
    rewrite Hfound in Hbest.
    destruct Hbest as (before & pixel & after & Hscan & Hm & _ & Hd & Hb & Ha).
    now exists before, pixel, after.
Qed.

(** X11 on the canvas with one orange pixel and the default settings:
    the detector finds a pixel within the tolerance of 50. *)
Lemma X11_orange_dot_is_found :
  exists found pixel,
    BallDetection.detectBallByColor BallDetection.defaultColorSettings
                                    BallDetection.orangeDot = Some found
    /\ found = BallDetection.matchAt BallDetection.defaultColorSettings
                                     BallDetection.orangeDot pixel
    /\ BallDetection.distanceAt BallDetection.defaultColorSettings
                                BallDetection.orangeDot pixel < 50.
Proof.
  destruct (X11_detectBallByColor_finds_the_nearest
              BallDetection.defaultColorSettings BallDetection.orangeDot)
    as (Hnone & Hsome).
  destruct (BallDetection.detectBallByColor BallDetection.defaultColorSettings
                                            BallDetection.orangeDot)
    as [found|] eqn:E.
  - destruct (Hsome found eq_refl) as (before & pixel & after & _ & Hm & Hd & _).
    exists found, pixel. repeat split; assumption.
  - exfalso. pose proof (proj1 Hnone eq_refl) as Hall.
    rewrite scanOrder_orangeDot in Hall.
    inversion Hall as [|? ? _ Hrest]; subst.
    inversion Hrest as [|? ? Hdot _]; subst.
    rewrite distance_on_dot in Hdot. cbn in Hdot. lra.
Defined.

(** X12: what the scan looks at and what it reports.  The scan visits
    exactly the pixels of the canvas whose two coordinates are multiples
    of 4, and for each of them reads three bytes inside the image data of
    [4 * width * height] bytes.  A match lies on such a pixel and carries
    a confidence above 0 and at most 1. *)
Theorem X12_scan_grid_and_confidence :
  forall canvas : BallDetection.Canvas,
    (forall x y : Z,
        In (x, y) (BallDetection.scanOrder canvas)
        <-> (0 <= x < BallDetection.width canvas /\ x mod 4 = 0
             /\ 0 <= y < BallDetection.height canvas /\ y mod 4 = 0)%Z)
    /\
    (forall x y : Z,
        In (x, y) (BallDetection.scanOrder canvas) ->
        (0 <= BallDetection.pixelIndex canvas x y
         /\ BallDetection.pixelIndex canvas x y + 2
            < 4 * BallDetection.width canvas * BallDetection.height canvas)%Z)
    /\
    (forall (settings : BallDetection.ColorSettings)
            (found : BallDetector.Position),
        BallDetection.detectBallByColor settings canvas = Some found ->
        exists (x y : Z) (c : R),
          In (x, y) (BallDetection.scanOrder canvas)
          /\ BallDetector.pos_x found = IZR x
          /\ BallDetector.pos_y found = IZR y
          /\ BallDetector.pos_confidence found = Some c
          /\ 0 < c <= 1).
Proof.
  intros canvas.
  assert (Hgrid : forall x y : Z,
             In (x, y) (BallDetection.scanOrder canvas)
             <-> (0 <= x < BallDetection.width canvas /\ x mod 4 = 0
                  /\ 0 <= y < BallDetection.height canvas /\ y mod 4 = 0)%Z).
  { intros x y. rewrite scanOrder_spec, !loopValues_spec. tauto. }
  split; [exact Hgrid|]. split.
  - intros x y Hin. apply Hgrid in Hin.
    destruct Hin as (Hx & _ & Hy & _). unfold BallDetection.pixelIndex. nia.
  - intros settings found Hfound.
    pose proof (detectBallByColor_bestSoFar settings canvas) as Hbest.
    rewrite detectBallByColor_scan in Hfound.
    unfold BallDetection.bestSoFar in Hbest. rewrite Hfound in Hbest.
    destruct Hbest as (before & [x y] & after & Hscan & -> & _ & Hd & _).
    exists x, y. eexists. split; [|split; [|split; [|split]]].
    + rewrite Hscan. apply in_or_app. right. now left.
    + reflexivity.
    + reflexivity.
    + reflexivity.
    + pose proof (calculateColorDistance_nonneg
                    (BallDetection.pixelColor canvas x y)
                    (BallDetection.targetColor settings)) as Hnn.
      change (BallDetection.calculateColorDistance _ _)
        with (BallDetection.distanceAt settings canvas (x, y)) in Hnn.
      set (dist := BallDetection.distanceAt settings canvas (x, y)) in *.
      set (tol := BallDetection.colorTolerance settings) in *.
      assert (Htol : 0 < tol) by lra.
      split.
      * apply Rdiv_lt_0_compat; lra.
      * apply Rmult_le_reg_r with tol; [exact Htol|].
        unfold Rdiv. rewrite Rmult_assoc, Rinv_l by lra. lra.
Qed.

(** X12 on the canvas with the orange pixel: the match lies on the
    grid. *)
Lemma X12_orange_dot_on_the_grid :
  (0 <= BallDetection.pixelIndex BallDetection.orangeDot 4 0
   /\ BallDetection.pixelIndex BallDetection.orangeDot 4 0 + 2 < 4 * 8 * 4)%Z
  /\ exists found x y c,
      BallDetection.detectBallByColor BallDetection.defaultColorSettings
                                      BallDetection.orangeDot = Some found
      /\ In (x, y) (BallDetection.scanOrder BallDetection.orangeDot)
      /\ BallDetector.pos_confidence found = Some c /\ 0 < c <= 1.
Proof.
  destruct (X12_scan_grid_and_confidence BallDetection.orangeDot)
    as (_ & Hbytes & Hfound).
  split.
  - apply (Hbytes 4%Z 0%Z). rewrite scanOrder_orangeDot. right. now left.
  - destruct detectBallByColor_orangeDot as (found & E).
    destruct (Hfound BallDetection.defaultColorSettings found E)
      as (x & y & c & Hin & _ & _ & Hc & Hrange).
    exists found, x, y, c. auto.
Defined.

Section Calibration.
Import JS BallDetection.

Lemma getPixel_scanned (canvas : Canvas) (x y : Z) :
  In (x, y) (scanOrder canvas) -> getPixel canvas x y = pixelColor canvas x y.
Proof.
  intros Hin. apply scanOrder_spec in Hin. rewrite !loopValues_spec in Hin.
  destruct Hin as [[[Hx0 Hx1] _] [[Hy0 Hy1] _]]. unfold getPixel.
  apply Z.leb_le in Hx0, Hy0. apply Z.ltb_lt in Hx1, Hy1.
  now rewrite Hx0, Hx1, Hy0, Hy1.
Qed.

(** A scanned pixel of the target colour is matched with confidence 1,
    on that pixel or on an earlier one of the same colour. *)
Lemma detectBallByColor_exact (settings : ColorSettings) (canvas : Canvas)
      (pixel : Z * Z) :
  0 < colorTolerance settings ->
  In pixel (scanOrder canvas) ->
  distanceAt settings canvas pixel = 0 ->
  exists found,
    detectBallByColor settings canvas = Some found
    /\ BallDetector.pos_confidence found = Some 1.
Proof.
  intros Htol Hin Hzero.
  pose proof (detectBallByColor_bestSoFar settings canvas) as Hbest.
  rewrite detectBallByColor_scan.
  destruct (fst (fold_left (visitPixel settings canvas) (scanOrder canvas)
                           (None, 0))) as [found|] eqn:E.
  - exists found. split; [reflexivity|].
    unfold bestSoFar in Hbest. rewrite E in Hbest.
    destruct Hbest as (before & p & after & Hscan & -> & _ & _ & Hb & Ha).
    assert (Hp : distanceAt settings canvas p = 0).
    { pose proof (calculateColorDistance_nonneg
                    (pixelColor canvas (fst p) (snd p)) (targetColor settings))
        as Hnn.
      change (calculateColorDistance _ _) with (distanceAt settings canvas p)
        in Hnn.
      rewrite Hscan in Hin. apply in_app_or in Hin.
      destruct Hin as [Hin | [<- | Hin]].
      - rewrite Forall_forall in Hb. specialize (Hb _ Hin). lra.
      - exact Hzero.
      - rewrite Forall_forall in Ha. specialize (Ha _ Hin). lra. }
    unfold matchAt. cbn [BallDetector.pos_confidence]. rewrite Hp.
    f_equal. field. lra.
  - exfalso. apply (bestSoFar_none_iff _ _ _ _ Hbest) in E.
    rewrite Forall_forall in E. specialize (E _ Hin). lra.
Qed.

End Calibration.

(** X13: calibrating on a pixel makes that colour the target.  With
    calibration entered by [calibrateBall], a click on a pixel that the
    scan visits sets [targetColor] to the colour of that pixel, keeps the
    tolerance and leaves calibration; the colour detector then finds a
    match of confidence 1 in the same image, for a positive tolerance.
    Outside calibration a click changes nothing, and a second
    [calibrateBall] cancels the first. *)
Theorem X13_calibration_round_trip :
  (forall (settings : BallDetection.ColorSettings)
          (canvas : BallDetection.Canvas) (event : BallDetection.Click),
      BallDetection.isCalibrating settings = false ->
      0 < BallDetection.colorTolerance settings ->
      In (BallDetection.clickedX canvas event,
          BallDetection.clickedY canvas event)
         (BallDetection.scanOrder canvas) ->
      let settings' :=
        BallDetection.canvasClick (BallDetection.calibrateBall settings)
                                  canvas event in
      BallDetection.isCalibrating settings' = false
      /\ BallDetection.colorTolerance settings'
         = BallDetection.colorTolerance settings
      /\ BallDetection.targetColor settings'
         = BallDetection.pixelColor canvas
             (BallDetection.clickedX canvas event)
             (BallDetection.clickedY canvas event)
      /\ exists found,
          BallDetection.detectBallByColor settings' canvas = Some found
          /\ BallDetector.pos_confidence found = Some 1)
  /\
  (forall (settings : BallDetection.ColorSettings)
          (canvas : BallDetection.Canvas) (event : BallDetection.Click),
      BallDetection.isCalibrating settings = false ->
      BallDetection.canvasClick settings canvas event = settings)
  /\
  (forall settings : BallDetection.ColorSettings,
      BallDetection.calibrateBall (BallDetection.calibrateBall settings)
      = settings).
Proof.
  split; [|split].
  - intros settings canvas event Hoff Htol Hin settings'.
    assert (Hs : settings'
                 = BallDetection.handleCalibrationClick
                     (BallDetection.calibrateBall settings) canvas event).
    { unfold settings', BallDetection.canvasClick, BallDetection.calibrateBall.
      cbn [BallDetection.isCalibrating]. now rewrite Hoff. }
    assert (Htarget : BallDetection.targetColor settings'
                      = BallDetection.pixelColor canvas
                          (BallDetection.clickedX canvas event)
                          (BallDetection.clickedY canvas event)).
    { rewrite Hs. cbn [BallDetection.handleCalibrationClick
                         BallDetection.targetColor].
      now apply getPixel_scanned. }
    split; [now rewrite Hs|]. split; [now rewrite Hs|].
    split; [exact Htarget|].
    apply (detectBallByColor_exact settings' canvas
             (BallDetection.clickedX canvas event,
              BallDetection.clickedY canvas event)).
    + now rewrite Hs.
    + exact Hin.
    + unfold BallDetection.distanceAt. cbn [fst snd]. rewrite Htarget.
      now apply calculateColorDistance_zero_iff.
  - intros settings canvas event Hoff. unfold BallDetection.canvasClick.
    now rewrite Hoff.
  - intros [target tol calibrating]. unfold BallDetection.calibrateBall.
    cbn. now rewrite negb_involutive.
Qed.

(** X13 on a canvas that is black but for a white pixel at (4, 0):
    calibrated by a click on that pixel, the detector set for orange
    finds it with confidence 1. *)
Lemma X13_calibrate_on_a_white_dot :
  let canvas :=
    BallDetection.mkCanvas 8 4
      (fun index => if ((16 <=? index) && (index <=? 18))%Z then 255%Z else 0%Z) in
  let settings' :=
    BallDetection.canvasClick
      (BallDetection.calibrateBall BallDetection.defaultColorSettings)
      canvas BallDetection.clickOnDot in
  BallDetection.targetColor settings' = BallDetection.mkColor 255 255 255
  /\ exists found,
      BallDetection.detectBallByColor settings' canvas = Some found
      /\ BallDetector.pos_confidence found = Some 1.
Proof.
  intros canvas settings'.
  assert (Hx : BallDetection.clickedX canvas BallDetection.clickOnDot = 4%Z).
  { unfold BallDetection.clickedX, BallDetection.Math_floor. symmetry.
    apply Int_part_spec. cbn. lra. }
  assert (Hy : BallDetection.clickedY canvas BallDetection.clickOnDot = 0%Z).
  { unfold BallDetection.clickedY, BallDetection.Math_floor. symmetry.
    apply Int_part_spec. cbn. lra. }
  destruct (proj1 X13_calibration_round_trip
              BallDetection.defaultColorSettings canvas BallDetection.clickOnDot)
    as (_ & _ & Htarget & Hfound).
  - reflexivity.
  - cbn. lra.
  - rewrite Hx, Hy. right. now left.
  - fold settings' in Htarget, Hfound. split; [|exact Hfound].
    rewrite Htarget, Hx, Hy. reflexivity.
Defined.

(** X14: the colour distance is symmetric, zero exactly for equal
    colours, and at most 442 between colours made of bytes, so that a
    tolerance above 442 accepts every pixel. *)
Theorem X14_calculateColorDistance_metric :
  forall color1 color2 : BallDetection.Color,
    BallDetection.calculateColorDistance color1 color2
    = BallDetection.calculateColorDistance color2 color1
    /\ (BallDetection.calculateColorDistance color1 color2 = 0
        <-> color1 = color2)
    /\ (BallDetection.byteColor color1 -> BallDetection.byteColor color2 ->
        0 <= BallDetection.calculateColorDistance color1 color2 <= 442).
Proof.
  intros color1 color2. split; [|split].
  - unfold BallDetection.calculateColorDistance. cbn zeta. f_equal. ring.
  - apply calculateColorDistance_zero_iff.
  - intros (Hr1 & Hg1 & Hb1) (Hr2 & Hg2 & Hb2).
    split; [apply calculateColorDistance_nonneg|].
    unfold BallDetection.calculateColorDistance, JS.Math_sqrt. cbn zeta.
    rewrite <- (sqrt_square 442) by lra.
    apply sqrt_le_1_alt. nra.
Qed.

(** X14 between black and white. *)
Lemma X14_black_and_white :
  0 <= BallDetection.calculateColorDistance
         (BallDetection.mkColor 0 0 0) (BallDetection.mkColor 255 255 255)
    <= 442.
Proof.
  apply (proj2 (proj2 (X14_calculateColorDistance_metric
                         (BallDetection.mkColor 0 0 0)
                         (BallDetection.mkColor 255 255 255))));
    repeat split; cbn; lra.
Defined.

(** ** Runs of the rep counters *)

Section RepProgress.
Import JS Pose RepRuns.

Lemma onResults1_progress (s : RepCounter1.t) (results : Results) :
  (progress1 (RepCounter1.onResults s results) <= progress1 s + 1)%Z
  /\ (RepCounter1.repCount s
      <= RepCounter1.repCount (RepCounter1.onResults s results))%Z
  /\ RepCounter1.repCounterText (RepCounter1.onResults s results)
     = (if (RepCounter1.repCount (RepCounter1.onResults s results)
            =? RepCounter1.repCount s)%Z
        then RepCounter1.repCounterText s
        else RepCounter1.repCount (RepCounter1.onResults s results)).
Proof.
  unfold progress1.
  destruct (tracked results) as [[[shoulder elbow] wrist]|] eqn:Htr.
  - rewrite (onResults1_tracked s results shoulder elbow wrist Htr).
    unfold RepCounter1.transition.
    cbn [RepCounter1.state RepCounter1.repCount RepCounter1.repCounterText].
    destruct (RepCounter1.state s);
      [destruct (_ && _) | destruct (lt _ _) | destruct (lt _ _)];
      cbn [RepCounter1.state RepCounter1.repCount RepCounter1.repCounterText
           phase];
      rewrite ?Z.eqb_refl; repeat split; try lia.
    destruct (Z.eqb_spec (RepCounter1.repCount s + 1) (RepCounter1.repCount s));
      [lia | reflexivity].
  - rewrite onResults1_untracked by assumption.
    rewrite Z.eqb_refl. repeat split; lia.
Qed.

End RepProgress.

(** X15: a rep takes at least three frames.  Every frame moves the
    machine of the first revision by at most one step of the cycle ready,
    throwing, catching, ready, and the counter never goes down; so the
    reps counted in a run are at most a third of its frames, plus what the
    machine had already done of a rep when the run began. *)
Theorem X15_a_rep_takes_three_frames :
  (forall (frames : list Pose.Results) (s : RepCounter1.t),
      (RepRuns.progress1 (RepCounter1.run s frames)
       <= RepRuns.progress1 s + Z.of_nat (length frames))%Z
      /\ (RepCounter1.repCount s
          <= RepCounter1.repCount (RepCounter1.run s frames))%Z)
  /\
  (forall frames : list Pose.Results,
      (3 * RepCounter1.repCount (RepCounter1.run RepCounter1.init frames)
       <= Z.of_nat (length frames))%Z).
Proof.
  assert (H1 : forall (frames : list Pose.Results) (s : RepCounter1.t),
             (RepRuns.progress1 (RepCounter1.run s frames)
              <= RepRuns.progress1 s + Z.of_nat (length frames))%Z
             /\ (RepCounter1.repCount s
                 <= RepCounter1.repCount (RepCounter1.run s frames))%Z).
  { induction frames as [|results rest IH]; intros s; [cbn; lia|].
    cbn [RepCounter1.run fold_left].
    change (fold_left RepCounter1.onResults rest (RepCounter1.onResults s results))
      with (RepCounter1.run (RepCounter1.onResults s results) rest).
    destruct (IH (RepCounter1.onResults s results)) as (Hp & Hc).
    destruct (onResults1_progress s results) as (Hp1 & Hc1 & _).
    cbn [length]. lia. }
  split; [exact H1|].
  intros frames. destruct (H1 frames RepCounter1.init) as (Hp & _).
  unfold RepRuns.progress1 in Hp.
  change (RepCounter1.repCount RepCounter1.init) with 0%Z in Hp.
  change (RepCounter1.state RepCounter1.init) with Pose.READY in Hp.
  destruct (RepCounter1.state (RepCounter1.run RepCounter1.init frames));
    cbn [RepRuns.phase] in Hp; lia.
Qed.

(** X19: a frame without the arm moves nothing.  When the pose or one
    of the three landmarks is missing, the first revision leaves its
    tracker as it is: counter, state and the stored hand position. *)
Theorem X19_missing_landmarks_change_nothing :
  forall (frames : list Pose.Results) (s : RepCounter1.t),
    Forall (fun results => Pose.tracked results = None) frames ->
    RepCounter1.run s frames = s.
Proof.
  induction frames as [|results rest IH]; intros s Hall; [reflexivity|].
  inversion Hall as [|? ? Htr Hrest]; subst.
  cbn [RepCounter1.run fold_left].
  rewrite onResults1_untracked by exact Htr. now apply IH.
Qed.

(** X19 on the throwing tracker while the arm is out of sight. *)
Lemma X19_arm_out_of_sight :
  RepCounter1.run Scenario.throwing1
    [ Pose.mkResults None; Pose.mkResults (Some []) ]
  = Scenario.throwing1.
Proof.
  apply X19_missing_landmarks_change_nothing. repeat constructor.
Defined.
